(** * Mireb Commercial backend: listing, lead lifecycle and stock adjustment

    A shallow embedding of the Express/Mongoose backend:
    - [utils/response.js]       (module [Response]),
    - [middleware/validation.js] (module [Validation]),
    - [models/Product.js], [models/Lead.js] (modules [Product], [Lead]),
    - [controllers/productController.js], [controllers/leadController.js]
      (modules [ProductController], [LeadController]),
    - the global error middleware of [server.js] (module [Server]).

    Conventions of the embedding.
    - A collection is a finite map from document identifiers (ObjectIds,
      here [nat]) to documents; the identifier is the key and is not
      repeated inside the document.
    - JavaScript numbers that the handlers receive or store (page, limit,
      counts, stock, quantity, prices) are integers and are modelled in [Z]
      with exact arithmetic, as doubles compute on integers below 2^53.
    - A JavaScript string is a [string] whose characters are code units
      below 256.
    - An instant ([Date]) is its number of milliseconds since the epoch; a
      handler runs at one instant [now], which every [new Date()] of the
      request reads.
    - An [await]ed store operation is a pure function of the store; a handler
      maps the store and its request to a response and a new store.
    - [populate] only decorates the documents of an answer with the documents
      they refer to; the payloads here carry the stored documents.
    - The [updatedAt] stamp of the schemas is left out: nothing reads it. *)

From stdpp Require Import base list gmap strings sorting.
From Stdlib Require Import ZArith Lia Ascii.

Open Scope string_scope.
Open Scope Z_scope.

(** ** Runtime primitives used by the sources *)

Module Js.

(** Code units that [String.prototype.trim] strips (those below 256):
    TAB, LF, VT, FF, CR, SPACE and NBSP. *)
Definition is_ws (c : ascii) : bool :=
  let n := nat_of_ascii c in
  ((9 <=? n) && (n <=? 13) || (n =? 32) || (n =? 160))%nat.

Fixpoint trimStart (s : string) : string :=
  match s with
  | EmptyString => EmptyString
  | String c r => if is_ws c then trimStart r else s
  end.

Fixpoint trimEnd (s : string) : string :=
  match s with
  | EmptyString => EmptyString
  | String c r =>
      match trimEnd r with
      | EmptyString => if is_ws c then EmptyString else String c EmptyString
      | r' => String c r'
      end
  end.

Definition trim (s : string) : string := trimStart (trimEnd s).

(** Truthiness of a string value: every string but the empty one. *)
Definition truthy (s : string) : bool :=
  match s with EmptyString => false | _ => true end.

Definition Math_max (a b : Z) : Z := Z.max a b.

(** The code unit U+00E9 of the French messages and note tags. *)
Definition e_acute : string := String (ascii_of_nat 233) EmptyString.

(** The line feed of the template literals. *)
Definition LF : string := String (ascii_of_nat 10) EmptyString.

Definition is_digit (c : ascii) : bool :=
  let n := nat_of_ascii c in ((48 <=? n) && (n <=? 57))%nat.

Fixpoint all_digits (s : string) : bool :=
  match s with
  | EmptyString => true
  | String c r => is_digit c && all_digits r
  end.

(** [s.replace(/[...]/g, '')] for a character class [drop]. *)
Fixpoint remove_chars (drop : ascii -> bool) (s : string) : string :=
  match s with
  | EmptyString => EmptyString
  | String c r => if drop c then remove_chars drop r else String c (remove_chars drop r)
  end.

(** [Math.ceil(a / b)] for integers [a] and [b <> 0], in exact arithmetic:
    [Z.div] rounds towards minus infinity, so the negated quotient of the
    negated dividend rounds towards plus infinity. *)
Definition Math_ceil_div (a b : Z) : Z := - ((- a) / b).

(** Decimal digits of a non-negative number, left-padded with zeros to
    [width] characters. *)
Fixpoint pad (width : nat) (n : Z) : string :=
  match width with
  | O => EmptyString
  | S w => pad w (n / 10) +:+ String (ascii_of_nat (48 + Z.to_nat (n mod 10))) EmptyString
  end.

(** [String(n)] for an integer [n >= 0]: its decimal digits. *)
Fixpoint decimal_go (fuel : nat) (n : Z) (acc : string) : string :=
  match fuel with
  | O => acc
  | S fuel' =>
      let acc' := String (ascii_of_nat (48 + Z.to_nat (n mod 10))) acc in
      if n <? 10 then acc' else decimal_go fuel' (n / 10) acc'
  end.

Definition decimal (n : Z) : string :=
  decimal_go (S (Z.to_nat (Z.log2 n))) n EmptyString.

(** [(num / den * 100).toFixed(2)] for integers [0 <= num] and [0 < den],
    as a number of hundredths. [toFixed] picks the integer [n] for which
    [n / 100] is closest to the value, the larger one when two are equally
    close. The quotient is taken in exact arithmetic: the double that the
    runtime computes can differ from it only by a rounding error of the
    last binary digit, which matters only for a value that lies at such a
    distance from the middle between two hundredths. *)
Definition percent_hundredths (num den : Z) : Z :=
  (2 * 10000 * num + den) / (2 * den).

(** The digits [toFixed(2)] prints for a number of hundredths. *)
Definition fixed2 (h : Z) : string :=
  decimal (h / 100) +:+ "." +:+ pad 2 (h mod 100).

(** [Date.prototype.toISOString] for an instant of the years 0000 to 9999:
    [YYYY-MM-DDTHH:mm:ss.sssZ], in UTC, from the proleptic Gregorian
    calendar. *)
Definition toISOString (t : Z) : string :=
  let days := t / 86400000 in
  let ms := t mod 86400000 in
  let z := days + 719468 in
  let era := z / 146097 in
  let doe := z mod 146097 in
  let yoe := (doe - doe / 1460 + doe / 36524 - doe / 146096) / 365 in
  let doy := doe - (365 * yoe + yoe / 4 - yoe / 100) in
  let mp := (5 * doy + 2) / 153 in
  let d := doy - (153 * mp + 2) / 5 + 1 in
  let m := if mp <? 10 then mp + 3 else mp - 9 in
  let y := yoe + era * 400 + (if m <=? 2 then 1 else 0) in
  pad 4 y +:+ "-" +:+ pad 2 m +:+ "-" +:+ pad 2 d +:+ "T" +:+
  pad 2 (ms / 3600000) +:+ ":" +:+ pad 2 (ms / 60000 mod 60) +:+ ":" +:+
  pad 2 (ms / 1000 mod 60) +:+ "." +:+ pad 3 (ms mod 1000) +:+ "Z".

(** [String(n)] for any integer. *)
Definition number_string (n : Z) : string :=
  if n <? 0 then "-" +:+ decimal (- n) else decimal n.

(** [s.replace(/[...]/g, by)] for a character class [hit]. *)
Fixpoint replace_chars (hit : ascii -> bool) (by_ : ascii) (s : string) : string :=
  match s with
  | EmptyString => EmptyString
  | String c r => String (if hit c then by_ else c) (replace_chars hit by_ r)
  end.

(** [s.split(sep)] for a separator of one character. *)
Fixpoint split (sep : ascii) (s : string) : list string :=
  match s with
  | EmptyString => [EmptyString]
  | String c r =>
      if bool_decide (c = sep) then EmptyString :: split sep r
      else match split sep r with
           | h :: t => String c h :: t
           | [] => [String c EmptyString]
           end
  end.

Definition is_alpha (c : ascii) : bool :=
  let n := nat_of_ascii c in
  ((65 <=? n) && (n <=? 90) || (97 <=? n) && (n <=? 122))%nat.

(** The characters [encodeURIComponent] leaves as they are. *)
Definition uri_unreserved (c : ascii) : bool :=
  is_alpha c || is_digit c
  || bool_decide (c ∈ ["-"; "_"; "."; "!"; "~"; "*"; "'"; "("; ")"]%char).

Definition hex_digit (n : nat) : ascii :=
  ascii_of_nat (if (n <? 10)%nat then 48 + n else 55 + n).

Definition percent (byte : nat) : string :=
  String "%"%char
    (String (hex_digit (byte / 16)) (String (hex_digit (byte mod 16)) EmptyString)).

(** [encodeURIComponent]: every other character becomes the bytes of its
    UTF-8 encoding, each written [%XX]; a code unit from 128 to 255 has
    the two bytes [110000xx 10xxxxxx]. *)
Fixpoint encodeURIComponent (s : string) : string :=
  match s with
  | EmptyString => EmptyString
  | String c r =>
      let n := nat_of_ascii c in
      (if uri_unreserved c then String c EmptyString
       else if (n <? 128)%nat then percent n
            else percent (192 + n / 64) +:+ percent (128 + n mod 64))
      +:+ encodeURIComponent r
  end.

End Js.

(** ** utils/response.js *)

Module Response.

(** One entry of the [errors] array; the offending [value] that
    [sendValidationError] echoes next to it is left out. *)
Record FieldError := {
  field : string;
  fmessage : string
}.

Record Pagination := {
  currentPage : Z;
  totalPages : Z;
  totalItems : Z;
  itemsPerPage : Z;
  hasNextPage : bool;
  hasPrevPage : bool;
  nextPage : option Z;        (* [None] is JavaScript's [null] *)
  prevPage : option Z
}.

(** The JSON body handed to [res.status(statusCode).json(...)]; an absent
    key is [None]. [D] is the type of the [data] payload. *)
Record t (D : Type) := {
  statusCode : Z;
  success : bool;
  message : string;
  timestamp : string;
  data : option D;
  meta : option Pagination;
  errors : option (list FieldError)
}.
Arguments statusCode {D}.
Arguments success {D}.
Arguments message {D}.
Arguments timestamp {D}.
Arguments data {D}.
Arguments meta {D}.
Arguments errors {D}.

Definition sendSuccess {D} (now : Z) (statusCode : Z) (message : string)
    (data : option D) (meta : option Pagination) : t D :=
  {| statusCode := statusCode; success := true; message := message;
     timestamp := Js.toISOString now;
     data := data; meta := meta; errors := None |}.

Definition sendError {D} (now : Z) (statusCode : Z) (message : string)
    (errors : option (list FieldError)) : t D :=
  {| statusCode := statusCode; success := false; message := message;
     timestamp := Js.toISOString now;
     data := None; meta := None; errors := errors |}.

Definition sendValidationError {D} (now : Z) (validationErrors : list FieldError) : t D :=
  sendError now 400 "Erreurs de validation" (Some validationErrors).

(** The [pagination] object built by [sendPaginatedResponse]. *)
Definition pagination (page limit total : Z) : Pagination :=
  let totalPages := Js.Math_ceil_div total limit in
  let hasNextPage := page <? totalPages in
  let hasPrevPage := 1 <? page in
  {| currentPage := page;
     totalPages := totalPages;
     totalItems := total;
     itemsPerPage := limit;
     hasNextPage := hasNextPage;
     hasPrevPage := hasPrevPage;
     nextPage := if hasNextPage then Some (page + 1) else None;
     prevPage := if hasPrevPage then Some (page - 1) else None |}.

Definition sendPaginatedResponse {D} (now : Z) (data : D) (page limit total : Z)
    (message : string) : t D :=
  sendSuccess now 200 message (Some data) (Some (pagination page limit total)).

End Response.

(** ** middleware/validation.js *)

Module Validation.

(** A raw query-string parameter: absent ([undefined]), the decimal
    spelling of an integer, or any other string (the empty one included). *)
Inductive QueryParam :=
| Absent
| IntString (z : Z)
| OtherString (s : string).

(** [.optional().isInt({ min, max })]: an absent parameter is skipped,
    a present one must spell an integer within the bounds. *)
Definition optional_isInt (min : Z) (max : option Z) (p : QueryParam) : bool :=
  match p with
  | Absent => true
  | IntString z =>
      (min <=? z) && match max with Some m => z <=? m | None => true end
  | OtherString _ => false
  end.

Definition err_page : Response.FieldError :=
  {| Response.field := "page";
     Response.fmessage := "Le num" +:+ Js.e_acute +:+ "ro de page doit "
                          +:+ String (ascii_of_nat 234) "tre un entier positif" |}.

Definition err_limit : Response.FieldError :=
  {| Response.field := "limit";
     Response.fmessage := "La limite doit " +:+ String (ascii_of_nat 234)
                          "tre entre 1 et 100" |}.

(** The errors collected by the two chains of [validatePagination]. *)
Definition validatePagination (page limit : QueryParam) : list Response.FieldError :=
  (if optional_isInt 1 None page then [] else [err_page])
  ++ (if optional_isInt 1 (Some 100) limit then [] else [err_limit]).

(** [handleValidationErrors]: answer 400 when the chains found errors,
    else call the next handler. *)
Definition handleValidationErrors {D} (now : Z) (errs : list Response.FieldError)
    (next : Response.t D) : Response.t D :=
  match errs with
  | [] => next
  | _ => Response.sendValidationError now errs
  end.


(** The number a handler obtains from a query parameter by destructuring
    with a default and coercing ([limit * 1], [page - 1], [parseInt(page)]).
    The handlers run after [validatePagination], so a present parameter
    spells an integer. *)
Definition numeric (default : Z) (p : QueryParam) : Z :=
  match p with
  | IntString z => z
  | _ => default
  end.

(** Truthiness of an optional value whose present values are all truthy
    (a status of the enum, an identifier, a date string). *)
Definition defined {A} (p : option A) : bool :=
  match p with
  | Some _ => true
  | None => false
  end.

(** Truthiness of an optional string parameter. *)
Definition given (p : option string) : bool :=
  match p with
  | Some s => Js.truthy s
  | None => false
  end.

End Validation.

(** ** The Mongoose query chain *)

Module Mongo.

(** An error thrown by an awaited store operation. *)
Inductive Error :=
| ValidationError (errs : list Response.FieldError).

(** [Model.find(filter)]: the matching documents with their identifiers,
    in the order in which the store yields them, which the server leaves
    unspecified. *)
Definition find {A} (filter : nat * A -> bool) (c : gmap nat A) : list (nat * A) :=
  base.filter (fun d => filter d) (map_to_list c).

Definition countDocuments {A} (filter : nat * A -> bool) (c : gmap nat A) : Z :=
  Z.of_nat (length (find filter c)).

(** [cursor.limit(n)]: [0] means no limit. The handlers pass the validated
    [limit], which is at least 1. *)
Definition limit {A} (n : Z) (docs : list A) : list A :=
  if n =? 0 then docs else take (Z.to_nat n) docs.

(** [cursor.skip(n)]. The handlers pass [(page - 1) * limit] of the
    validated parameters, which is not negative. *)
Definition skip {A} (n : Z) (docs : list A) : list A :=
  drop (Z.to_nat n) docs.

(** The groups of [{ $group: { _id: key, count: { $sum: 1 } } }] over the
    keys of the documents of the pipeline, each key with its count. The
    server leaves the order of the groups unspecified; here it is that of
    first occurrence. *)
Fixpoint bump {K} `{EqDecision K} (k : K) (groups : list (K * Z)) : list (K * Z) :=
  match groups with
  | [] => [(k, 1)]
  | (k', n) :: rest =>
      if decide (k = k') then (k', n + 1) :: rest else (k', n) :: bump k rest
  end.

Definition groupCount {K} `{EqDecision K} (keys : list K) : list (K * Z) :=
  foldl (fun groups k => bump k groups) [] keys.

(** [find(filter).sort(order).limit(l).skip(s)]: whatever the order of the
    calls, the server sorts, then skips, then limits. [le] is the sort
    order; documents that compare equal come in an unspecified order, here
    that of the merge sort. *)
Definition find_sort_limit_skip {A} (filter : nat * A -> bool)
    (le : nat * A -> nat * A -> bool) (l s : Z) (c : gmap nat A) : list (nat * A) :=
  limit l (skip s (merge_sort (fun a b => le a b) (find filter c))).

End Mongo.

(** ** models/Product.js *)

Module Product.

Record t := {
  nom : string;
  prix : Z;
  images : list string;
  categorie : string;
  stock : Z;
  description : string;
  isActive : bool;
  featured : bool;
  views : Z;
  createdBy : nat;
  createdAt : Z
}.

Definition set_stock (v : Z) (p : t) : t :=
  {| nom := nom p; prix := prix p; images := images p; categorie := categorie p;
     stock := v; description := description p; isActive := isActive p;
     featured := featured p; views := views p; createdBy := createdBy p;
     createdAt := createdAt p |}.

(** The values of the [categorie] enum. *)
Definition categories : list string :=
  [ String (ascii_of_nat 201) "lectronique"; "Mode"; "Maison & Jardin"; "Automobile";
    "Sant" +:+ Js.e_acute +:+ " & Beaut" +:+ Js.e_acute; "Sports & Loisirs";
    "Industrie & BTP" ].

Inductive StockStatus := out_of_stock | low_stock | in_stock.

(** The [stockStatus] virtual. *)
Definition stockStatus (p : t) : StockStatus :=
  if stock p =? 0 then out_of_stock
  else if stock p <=? 5 then low_stock
  else in_stock.

(** The validator of the [stock] path: [min: [0, ...]]. *)
Definition validate_stock (p : t) : list Response.FieldError :=
  if stock p <? 0 then
    [ {| Response.field := "stock";
         Response.fmessage := "Le stock ne peut pas " +:+ String (ascii_of_nat 234) "tre n"
                              +:+ Js.e_acute +:+ "gatif" |} ]
  else [].

(** The [pre('save')] hook: an empty [images] gets the placeholder. *)
Definition pre_save (p : t) : t :=
  match images p with
  | [] =>
      {| nom := nom p; prix := prix p;
         images := ["https://via.placeholder.com/600x400?text=No+Image"];
         categorie := categorie p; stock := stock p; description := description p;
         isActive := isActive p; featured := featured p; views := views p;
         createdBy := createdBy p; createdAt := createdAt p |}
  | _ => p
  end.

(** [product.save()] of a document loaded from the store after its [stock]
    was assigned. Validation runs first and rejects with a
    [ValidationError], leaving the store as it was; then comes the
    [pre('save')] hook and the write. The other paths hold the values that
    passed the validators when the document was stored, so only the [stock]
    validator can fail. *)
Definition save (id : nat) (p : t) (c : gmap nat t) : Mongo.Error + (t * gmap nat t) :=
  match validate_stock p with
  | [] => let p := pre_save p in inr (p, <[id := p]> c)
  | errs => inl (Mongo.ValidationError errs)
  end.


Definition set_views (v : Z) (p : t) : t :=
  {| nom := nom p; prix := prix p; images := images p; categorie := categorie p;
     stock := stock p; description := description p; isActive := isActive p;
     featured := featured p; views := v; createdBy := createdBy p;
     createdAt := createdAt p |}.

Definition set_isActive (v : bool) (p : t) : t :=
  {| nom := nom p; prix := prix p; images := images p; categorie := categorie p;
     stock := stock p; description := description p; isActive := v;
     featured := featured p; views := views p; createdBy := createdBy p;
     createdAt := createdAt p |}.

(** The method [incrementViews]: [this.views += 1], then
    [save({ validateBeforeSave: false })], which skips validation and so
    cannot reject; the [pre('save')] hook still runs. *)
Definition incrementViews (id : nat) (p : t) (c : gmap nat t) : t * gmap nat t :=
  let p := pre_save (set_views (views p + 1) p) in
  (p, <[id := p]> c).

(** The method [updateStock(quantity)]:
    [this.stock = Math.max(0, this.stock + quantity)], then [save()]. *)
Definition updateStock (quantity : Z) (id : nat) (p : t) (c : gmap nat t)
    : Mongo.Error + (t * gmap nat t) :=
  save id (set_stock (Js.Math_max 0 (stock p + quantity)) p) c.

End Product.

(** ** server.js: the global error middleware *)

Module Server.

(** What the error middleware answers to an error that a handler passed to
    [next] (through [asyncHandler]'s [catch]). *)
Definition errorMiddleware {D} (now : Z) (e : Mongo.Error) : Response.t D :=
  match e with
  | Mongo.ValidationError errs =>
      Response.sendError now 400 "Erreurs de validation" (Some errs)
  end.

End Server.

(** ** controllers/productController.js *)

Module ProductController.

Import Validation.

Section Listing.

(** [{ $regex: pattern, $options: 'i' }] as evaluated by the store:
    [regexMatch pattern subject]. *)
Variable regexMatch : string -> string -> bool.

Record Query := {
  page : QueryParam;
  limit : QueryParam;
  categorie : option string;
  minPrice : QueryParam;
  maxPrice : QueryParam;
  sortBy : option string;
  sortOrder : option string;
  search : option string;
  featured : option string
}.

(** Truthiness of a raw parameter: a non-empty string. *)
Definition present (p : QueryParam) : bool :=
  match p with
  | Absent => false
  | IntString _ => true
  | OtherString s => Js.truthy s
  end.

(** The filter object [query] built by [getAllProducts], as a predicate
    on documents. [Number(minPrice)] of a validated bound is the integer
    it spells. *)
Definition matches (q : Query) (d : nat * Product.t) : bool :=
  let p := d.2 in
  Product.isActive p
  && (if given (categorie q)
      then bool_decide (Some (Product.categorie p) = categorie q) else true)
  && (if present (minPrice q) || present (maxPrice q)
      then (if present (minPrice q) then numeric 0 (minPrice q) <=? Product.prix p else true)
           && (if present (maxPrice q) then Product.prix p <=? numeric 0 (maxPrice q) else true)
      else true)
  && (match featured q with
      | Some f => Bool.eqb (Product.featured p) (bool_decide (f = "true"))
      | None => true
      end)
  && (match search q with
      | Some s => if Js.truthy s
                  then regexMatch s (Product.nom p) || regexMatch s (Product.description p)
                  else true
      | None => true
      end).






End Listing.

(** A value of the JSON request body. *)
Inductive Json :=
| JUndefined
| JNull
| JBool (b : bool)
| JNumber (n : Z)
| JString (s : string).

Record StockBody := {
  quantity : Json;
  operation : Json
}.

Record StockInfo := {
  info_id : nat;
  info_nom : string;
  info_stock : Z;
  info_stockStatus : Product.StockStatus
}.

(** The [switch (operation)] of [updateStock]: the value assigned to
    [product.stock]. [operation] defaults to ['set'] when absent, and any
    value other than ['add'] and ['subtract'] takes the [default] branch. *)
Definition assignedStock (operation : Json) (stock quantity : Z) : Z :=
  match operation with
  | JString "add" => stock + quantity
  | JString "subtract" => Js.Math_max 0 (stock - quantity)
  | _ => Js.Math_max 0 quantity
  end.

Definition updateStock (now : Z) (id : nat) (body : StockBody)
    (products : gmap nat Product.t)
    : Response.t StockInfo * gmap nat Product.t :=
  match quantity body with
  | JNumber quantity =>
      match products !! id with
      | None => (Response.sendError now 404 ("Produit non trouv" +:+ Js.e_acute) None,
                 products)
      | Some product =>
          let product :=
            Product.set_stock
              (assignedStock (operation body) (Product.stock product) quantity) product in
          match Product.save id product products with
          | inl e => (Server.errorMiddleware now e, products)
          | inr (product, products') =>
              (Response.sendSuccess now 200
                 ("Stock mis " +:+ String (ascii_of_nat 224) " jour avec succ"
                  +:+ String (ascii_of_nat 232) "s")
                 (Some {| info_id := id; info_nom := Product.nom product;
                          info_stock := Product.stock product;
                          info_stockStatus := Product.stockStatus product |})
                 None,
               products')
          end
      end
  | _ => (Response.sendError now 400 ("Quantit" +:+ Js.e_acute +:+ " invalide") None,
          products)
  end.

(** [getProductById]: the answer carries the document as [incrementViews]
    left it. *)
Definition getProductById (now : Z) (id : nat) (products : gmap nat Product.t)
    : Response.t (nat * Product.t) * gmap nat Product.t :=
  match products !! id with
  | None => (Response.sendError now 404 ("Produit non trouv" +:+ Js.e_acute) None, products)
  | Some product =>
      if negb (Product.isActive product)
      then (Response.sendError now 404 "Produit non disponible" None, products)
      else
        let '(product, products') := Product.incrementViews id product products in
        (Response.sendSuccess now 200
           ("Produit r" +:+ Js.e_acute +:+ "cup" +:+ Js.e_acute +:+ "r" +:+ Js.e_acute
            +:+ " avec succ" +:+ String (ascii_of_nat 232) "s")
           (Some (id, product)) None,
         products')
  end.


(** [permanentDeleteProduct]: [Product.findByIdAndDelete(id)]. *)
Definition permanentDeleteProduct (now : Z) (id : nat) (products : gmap nat Product.t)
    : Response.t Empty_set * gmap nat Product.t :=
  match products !! id with
  | None => (Response.sendError now 404 ("Produit non trouv" +:+ Js.e_acute) None, products)
  | Some _ =>
      (Response.sendSuccess now 200
         ("Produit supprim" +:+ Js.e_acute +:+ " d" +:+ Js.e_acute +:+ "finitivement")
         None None,
       delete id products)
  end.

Record CategoryStat := {
  cat_name : string;
  cat_count : Z
}.

(** The pipeline of [getCategoriesStats]: [$match] the active products,
    [$group] by [categorie] with a count, [$sort] by count, descending. *)
Definition categoriesPipeline (products : gmap nat Product.t) : list (string * Z) :=
  merge_sort (fun a b : string * Z => b.2 <=? a.2)
    (Mongo.groupCount
       (List.map (fun d : nat * Product.t => Product.categorie d.2)
          (Mongo.find (fun d => Product.isActive d.2) products))).

Definition getCategoriesStats (now : Z) (products : gmap nat Product.t)
    : Response.t (list CategoryStat) :=
  let stats := categoriesPipeline products in
  let categories :=
    List.map (fun stat : string * Z => {| cat_name := stat.1; cat_count := stat.2 |}) stats in
  Response.sendSuccess now 200
    ("Statistiques des cat" +:+ Js.e_acute +:+ "gories r" +:+ Js.e_acute +:+ "cup"
     +:+ Js.e_acute +:+ "r" +:+ Js.e_acute +:+ "es")
    (Some categories) None.

Section Search.

(** [{ $regex: pattern, $options: 'i' }] as evaluated by the store. *)
Variable regexMatch : string -> string -> bool.








End Search.

End ProductController.

(** ** models/Lead.js *)

Module Lead.

Inductive Status := nouveau | contacte | interesse | converti | perdu.
Inductive Source := website | whatsapp | direct.

#[global] Instance Status_eq_dec : EqDecision Status.
Proof. solve_decision. Defined.

Definition status_name (st : Status) : string :=
  match st with
  | nouveau => "nouveau"
  | contacte => "contacte"
  | interesse => "interesse"
  | converti => "converti"
  | perdu => "perdu"
  end.

Record t := {
  nom : string;
  tel : string;
  message : string;
  produit : nat;
  status : Status;
  source : Source;
  notes : string;
  assignedTo : option nat;
  followUpDate : option Z;
  isArchived : bool;
  createdAt : Z
}.

Definition set_status (v : Status) (l : t) : t :=
  {| nom := nom l; tel := tel l; message := message l; produit := produit l;
     status := v; source := source l; notes := notes l; assignedTo := assignedTo l;
     followUpDate := followUpDate l; isArchived := isArchived l;
     createdAt := createdAt l |}.

(** Assigning [notes] runs the [trim] setter of the path. *)
Definition set_notes (v : string) (l : t) : t :=
  {| nom := nom l; tel := tel l; message := message l; produit := produit l;
     status := status l; source := source l; notes := Js.trim v;
     assignedTo := assignedTo l; followUpDate := followUpDate l;
     isArchived := isArchived l; createdAt := createdAt l |}.

Definition set_assignedTo (v : option nat) (l : t) : t :=
  {| nom := nom l; tel := tel l; message := message l; produit := produit l;
     status := status l; source := source l; notes := notes l;
     assignedTo := v; followUpDate := followUpDate l;
     isArchived := isArchived l; createdAt := createdAt l |}.

Definition set_followUpDate (v : Z) (l : t) : t :=
  {| nom := nom l; tel := tel l; message := message l; produit := produit l;
     status := status l; source := source l; notes := notes l;
     assignedTo := assignedTo l; followUpDate := Some v;
     isArchived := isArchived l; createdAt := createdAt l |}.

Definition set_isArchived (v : bool) (l : t) : t :=
  {| nom := nom l; tel := tel l; message := message l; produit := produit l;
     status := status l; source := source l; notes := notes l;
     assignedTo := assignedTo l; followUpDate := followUpDate l;
     isArchived := v; createdAt := createdAt l |}.

(** The validator of [tel]:
    [/^[\+]?[1-9][\d]{0,15}$/.test(v.replace(/[\s\-\(\)]/g, ''))]. *)
Definition tel_valid (v : string) : bool :=
  let cleaned :=
    Js.remove_chars
      (fun c => Js.is_ws c || bool_decide (c ∈ ["-"; "("; ")"]%char)) v in
  let digits :=
    match cleaned with
    | String "+"%char r => r
    | _ => cleaned
    end in
  match digits with
  | String c r =>
      Js.is_digit c && negb (bool_decide (c = "0"%char))
      && Js.all_digits r && (String.length r <=? 15)%nat
  | EmptyString => false
  end.

Definition err (field message : string) : Response.FieldError :=
  {| Response.field := field; Response.fmessage := message |}.

(** Validation of a document built by [Lead.create] (values already
    through the [trim] setters): one error at most per path, the
    [required] validator first. *)
Definition validate_new (l : t) : list Response.FieldError :=
  (if negb (Js.truthy (nom l)) then [err "nom" "Le nom est requis"]
   else if (50 <? String.length (nom l))%nat
        then [err "nom" ("Le nom ne peut pas d" +:+ Js.e_acute +:+ "passer 50 caract"
                         +:+ String (ascii_of_nat 232) "res")]
        else [])
  ++ (if negb (Js.truthy (tel l))
      then [err "tel" ("Le num" +:+ Js.e_acute +:+ "ro de t" +:+ Js.e_acute +:+ "l"
                       +:+ Js.e_acute +:+ "phone est requis")]
      else if negb (tel_valid (tel l))
           then [err "tel" ("Veuillez entrer un num" +:+ Js.e_acute +:+ "ro de t"
                            +:+ Js.e_acute +:+ "l" +:+ Js.e_acute +:+ "phone valide")]
           else [])
  ++ (if (500 <? String.length (message l))%nat
      then [err "message" ("Le message ne peut pas d" +:+ Js.e_acute
                           +:+ "passer 500 caract" +:+ String (ascii_of_nat 232) "res")]
      else []).

(** The validator of [notes]: [maxlength: [1000, ...]]. *)
Definition validate_notes (l : t) : list Response.FieldError :=
  if (1000 <? String.length (notes l))%nat
  then [err "notes" ("Les notes ne peuvent pas d" +:+ Js.e_acute
                     +:+ "passer 1000 caract" +:+ String (ascii_of_nat 232) "res")]
  else [].

(** [Lead.create({ nom, tel, message, produit })]: setters and defaults,
    validation, then the insert under a fresh identifier. *)
Definition new_doc (now : Z) (nom tel : string) (message : option string) (produit : nat)
    : t :=
  {| nom := Js.trim nom; tel := Js.trim tel;
     message := Js.trim (default "" message); produit := produit;
     status := nouveau; source := website; notes := "";
     assignedTo := None; followUpDate := None; isArchived := false;
     createdAt := now |}.

Definition create (now : Z) (nom tel : string) (message : option string) (produit : nat)
    (c : gmap nat t) : Mongo.Error + (nat * t * gmap nat t) :=
  let l := new_doc now nom tel message produit in
  match validate_new l with
  | [] => let id := fresh (dom c) in inr (id, l, <[id := l]> c)
  | errs => inl (Mongo.ValidationError errs)
  end.

(** [lead.save()] of a document loaded from the store after a lifecycle
    assignment. Of the paths those assignments touch, only [notes] has a
    validator that can fail ([status] is one of the enum by its type); the
    other paths hold the values that passed validation when stored. A
    failed validation rejects and leaves the store as it was. *)
Definition save (id : nat) (l : t) (c : gmap nat t) : Mongo.Error + (t * gmap nat t) :=
  match validate_notes l with
  | [] => inr (l, <[id := l]> c)
  | errs => inl (Mongo.ValidationError errs)
  end.

(** The value the three methods assign to [this.notes] when [notes] is
    truthy: [this.notes ? `${this.notes}\n\n${new Date().toISOString()}: ${tag}${notes}` : notes]. *)
Definition noteEntry (now : Z) (tag : string) (prior notes : string) : string :=
  if Js.truthy prior
  then prior +:+ Js.LF +:+ Js.LF +:+ Js.toISOString now +:+ ": " +:+ tag +:+ notes
  else notes.

(** The assignments of [updateStatus(newStatus, notes = '')] to [this]. *)
Definition updateStatus_assign (now : Z) (newStatus : Status) (notes : option string)
    (l : t) : t :=
  let notes := default "" notes in
  let l := set_status newStatus l in
  if Js.truthy notes then set_notes (noteEntry now "" (Lead.notes l) notes) l else l.

Definition updateStatus (now : Z) (newStatus : Status) (notes : option string)
    (id : nat) (l : t) (c : gmap nat t) : Mongo.Error + (t * gmap nat t) :=
  save id (updateStatus_assign now newStatus notes l) c.

(** The assignments of [assignTo(userId, notes = '')] to [this]; the
    handlers may pass an [undefined] user, which clears the reference. *)
Definition assignTo_assign (now : Z) (userId : option nat) (notes : option string) (l : t)
    : t :=
  let notes := default "" notes in
  let l := set_assignedTo userId l in
  if Js.truthy notes
  then set_notes (noteEntry now ("Assign" +:+ Js.e_acute +:+ " - ") (Lead.notes l) notes) l
  else l.

Definition assignTo (now : Z) (userId : option nat) (notes : option string)
    (id : nat) (l : t) (c : gmap nat t) : Mongo.Error + (t * gmap nat t) :=
  save id (assignTo_assign now userId notes l) c.

(** The assignments of [scheduleFollowUp(date, notes = '')] to [this]. *)
Definition scheduleFollowUp_assign (now : Z) (date : Z) (notes : option string) (l : t) : t :=
  let notes := default "" notes in
  let l := set_followUpDate date l in
  if Js.truthy notes
  then set_notes (noteEntry now ("Suivi programm" +:+ Js.e_acute +:+ " - ")
                    (Lead.notes l) notes) l
  else l.

Definition scheduleFollowUp (now : Z) (date : Z) (notes : option string)
    (id : nat) (l : t) (c : gmap nat t) : Mongo.Error + (t * gmap nat t) :=
  save id (scheduleFollowUp_assign now date notes l) c.

(** The static [getStats]: every document of the collection, grouped by
    [status] (the pipeline has no [$match] stage). *)
Definition getStats (c : gmap nat t) : list (Status * Z) :=
  Mongo.groupCount (List.map (fun d : nat * t => status d.2) (map_to_list c)).

(** The filter of the static [getNeedingFollowUp]; a document without
    [followUpDate] does not match [$lte]. *)
Definition needsFollowUp (now : Z) (d : nat * t) : bool :=
  match followUpDate d.2 with
  | Some date => date <=? now
  | None => false
  end
  && negb (bool_decide (status d.2 ∈ [converti; perdu]))
  && negb (isArchived d.2).

Definition getNeedingFollowUp (now : Z) (c : gmap nat t) : list (nat * t) :=
  Mongo.find (needsFollowUp now) c.

(** The [formattedTel] virtual. *)
Definition formattedTel (l : t) : string :=
  let cleaned :=
    Js.remove_chars (fun c => negb (Js.is_digit c || bool_decide (c = "+"%char))) (tel l) in
  match cleaned with
  | String c _ =>
      if negb (bool_decide (c = "+"%char)) && Js.is_digit c
      then "+" +:+ cleaned
      else cleaned
  | EmptyString => cleaned
  end.

(** The [whatsappLink] virtual. [populated] is the product that [produit]
    was populated with, if it was. *)
Definition whatsappLink (populated : option Product.t) (l : t) : string :=
  let phone := Js.remove_chars (fun c => negb (Js.is_digit c)) (formattedTel l) in
  let productName :=
    match populated with
    | Some p => if Js.truthy (Product.nom p) then Product.nom p else "produit"
    | None => "produit"
    end in
  let message :=
    Js.encodeURIComponent
      ("Bonjour, je suis int" +:+ Js.e_acute +:+ "ress" +:+ Js.e_acute
       +:+ "(e) par votre " +:+ productName +:+ ". " +:+ message l) in
  "https://wa.me/" +:+ phone +:+ "?text=" +:+ message.

(** The [ageInDays] virtual:
    [Math.floor((now - created) / (1000 * 60 * 60 * 24))]. *)
Definition ageInDays (now : Z) (l : t) : Z :=
  (now - createdAt l) / (1000 * 60 * 60 * 24).

End Lead.

(** ** models/User.js *)

Module User.

Inductive Role := user | admin.

#[global] Instance Role_eq_dec : EqDecision Role.
Proof. solve_decision. Defined.

Record t := {
  name : string;
  email : string;
  password : string;          (* the stored hash *)
  role : Role;
  isActive : bool;
  lastLogin : option Z;
  profileImage : string;
  createdAt : Z
}.

Definition set_isActive (v : bool) (u : t) : t :=
  {| name := name u; email := email u; password := password u; role := role u;
     isActive := v; lastLogin := lastLogin u; profileImage := profileImage u;
     createdAt := createdAt u |}.



End User.

(** ** controllers/leadController.js *)

Module LeadController.

Import Validation.

(** The two collections the lead handlers read and write. *)
Record Store := {
  products : gmap nat Product.t;
  leads : gmap nat Lead.t
}.

Definition with_leads (c : gmap nat Lead.t) (s : Store) : Store :=
  {| products := products s; leads := c |}.

Definition msg_notFound : string := "Lead non trouv" +:+ Js.e_acute.

Record LeadBody := {
  body_nom : string;
  body_tel : string;
  body_message : option string;
  body_produit : nat
}.

(** The payloads carry the stored lead under its identifier; the
    [populate] calls, which replace references by the referenced documents
    in the answer only, are left out. *)
Definition createLead (now : Z) (body : LeadBody) (s : Store)
    : Response.t (nat * Lead.t) * Store :=
  match products s !! body_produit body with
  | None => (Response.sendError now 404 ("Produit non trouv" +:+ Js.e_acute) None, s)
  | Some productExists =>
      if negb (Product.isActive productExists)
      then (Response.sendError now 400 "Ce produit n'est plus disponible" None, s)
      else
        match Lead.create now (body_nom body) (body_tel body) (body_message body)
                (body_produit body) (leads s) with
        | inl e => (Server.errorMiddleware now e, s)
        | inr (id, lead, leads') =>
            (Response.sendSuccess now 201
               ("Demande envoy" +:+ Js.e_acute +:+ "e avec succ" +:+ String (ascii_of_nat 232)
                "s! Nous vous contacterons bient" +:+ String (ascii_of_nat 244) "t.")
               (leads' !! id ≫= fun l => Some (id, l)) None,
             with_leads leads' s)
        end
  end.

Section Listing.

(** [{ $regex: pattern, $options: 'i' }] as evaluated by the store. *)
Variable regexMatch : string -> string -> bool.

(** The query string of [GET /api/leads]. The identifiers and the dates
    are given parsed; a present one is a non-empty string. *)
Record Query := {
  page : QueryParam;
  limit : QueryParam;
  status : option string;
  assignedTo : option nat;
  search : option string;
  dateFrom : option Z;
  dateTo : option Z;
  produit : option nat
}.

(** The filter object [query] built by [getAllLeads]. *)
Definition matches (q : Query) (d : nat * Lead.t) : bool :=
  let l := d.2 in
  negb (Lead.isArchived l)
  && (if given (status q)
      then bool_decide (Some (Lead.status_name (Lead.status l)) = status q) else true)
  && (match assignedTo q with
      | Some u => bool_decide (Lead.assignedTo l = Some u)
      | None => true
      end)
  && (match produit q with
      | Some p => bool_decide (Lead.produit l = p)
      | None => true
      end)
  && (match search q with
      | Some s => if Js.truthy s
                  then regexMatch s (Lead.nom l) || regexMatch s (Lead.tel l)
                       || regexMatch s (Lead.message l)
                  else true
      | None => true
      end)
  && (match dateFrom q with Some t => t <=? Lead.createdAt l | None => true end)
  && (match dateTo q with Some t => Lead.createdAt l <=? t | None => true end).

(** [.sort({ createdAt: -1 })]. *)
Definition newestFirst (a b : nat * Lead.t) : bool :=
  Lead.createdAt b.2 <=? Lead.createdAt a.2.

Definition getAllLeads (now : Z) (q : Query) (s : Store)
    : Response.t (list (nat * Lead.t)) :=
  let page := numeric 1 (page q) in
  let limit := numeric 20 (limit q) in
  let found :=
    Mongo.find_sort_limit_skip (matches q) newestFirst
      (limit * 1) ((page - 1) * limit) (leads s) in
  let total := Mongo.countDocuments (matches q) (leads s) in
  Response.sendPaginatedResponse now found page limit total
    ("Leads r" +:+ Js.e_acute +:+ "cup" +:+ Js.e_acute +:+ "r"
     +:+ Js.e_acute +:+ "s avec succ" +:+ String (ascii_of_nat 232) "s").

(** routes/leads.js: [router.get('/', requireAdmin, validatePagination,
    getAllLeads)], from [validatePagination] on. *)
Definition route_getAllLeads (now : Z) (q : Query) (s : Store)
    : Response.t (list (nat * Lead.t)) :=
  handleValidationErrors now (validatePagination (page q) (limit q))
    (getAllLeads now q s).

End Listing.

Definition getLeadById (now : Z) (id : nat) (s : Store) : Response.t (nat * Lead.t) :=
  match leads s !! id with
  | None => Response.sendError now 404 msg_notFound None
  | Some lead =>
      Response.sendSuccess now 200
        ("Lead r" +:+ Js.e_acute +:+ "cup" +:+ Js.e_acute +:+ "r" +:+ Js.e_acute
         +:+ " avec succ" +:+ String (ascii_of_nat 232) "s")
        (Some (id, lead)) None
  end.

Record UpdateBody := {
  upd_status : option Lead.Status;
  upd_notes : option string;
  upd_assignedTo : option nat;
  upd_followUpDate : option Z
}.

(** One awaited step of a handler on the loaded document and the
    collection: an error aborts the handler with the collection as the
    steps before it left it. *)
Definition Step : Type :=
  Lead.t -> gmap nat Lead.t -> Mongo.Error + (Lead.t * gmap nat Lead.t).

Definition run (step : Step) (st : Mongo.Error * gmap nat Lead.t + Lead.t * gmap nat Lead.t)
    : Mongo.Error * gmap nat Lead.t + Lead.t * gmap nat Lead.t :=
  match st with
  | inl failed => inl failed
  | inr (lead, c) =>
      match step lead c with
      | inl e => inl (e, c)
      | inr done => inr done
      end
  end.

(** [if (cond) { await step }]. *)
Definition when (cond : bool) (step : Step) : Step :=
  fun lead c => if cond then step lead c else inr (lead, c).

(** The four conditional updates of [updateLead], in order. *)
Definition updateLead_steps (now : Z) (id : nat) (body : UpdateBody)
    (lead : Lead.t) (c : gmap nat Lead.t)
    : Mongo.Error * gmap nat Lead.t + Lead.t * gmap nat Lead.t :=
  let notes := upd_notes body in
  run (when (given notes && negb (defined (upd_status body))
             && negb (defined (upd_assignedTo body))
             && negb (defined (upd_followUpDate body)))
         (fun lead c =>
            Lead.save id
              (Lead.set_notes (Lead.noteEntry now "" (Lead.notes lead) (default "" notes))
                 lead) c))
  (run (match upd_followUpDate body with
        | Some date => fun lead c => Lead.scheduleFollowUp now date notes id lead c
        | None => fun lead c => inr (lead, c)
        end)
  (run (match upd_assignedTo body with
        | Some user => fun lead c => Lead.assignTo now (Some user) notes id lead c
        | None => fun lead c => inr (lead, c)
        end)
  (run (match upd_status body with
        | Some status => fun lead c => Lead.updateStatus now status notes id lead c
        | None => fun lead c => inr (lead, c)
        end)
     (inr (lead, c))))).

Definition msg_updated : string :=
  "Lead mis " +:+ String (ascii_of_nat 224) " jour avec succ" +:+ String (ascii_of_nat 232) "s".

Definition updateLead (now : Z) (id : nat) (body : UpdateBody) (s : Store)
    : Response.t (nat * Lead.t) * Store :=
  match leads s !! id with
  | None => (Response.sendError now 404 msg_notFound None, s)
  | Some lead =>
      match updateLead_steps now id body lead (leads s) with
      | inl (e, c) => (Server.errorMiddleware now e, with_leads c s)
      | inr (_, c) =>
          (Response.sendSuccess now 200 msg_updated (c !! id ≫= fun l => Some (id, l)) None,
           with_leads c s)
      end
  end.

Definition deleteLead (now : Z) (id : nat) (s : Store) : Response.t Empty_set * Store :=
  match leads s !! id with
  | None => (Response.sendError now 404 msg_notFound None, s)
  | Some lead =>
      match Lead.save id (Lead.set_isArchived true lead) (leads s) with
      | inl e => (Server.errorMiddleware now e, s)
      | inr (_, c) =>
          (Response.sendSuccess now 200
             ("Lead archiv" +:+ Js.e_acute +:+ " avec succ" +:+ String (ascii_of_nat 232) "s")
             None None,
           with_leads c s)
      end
  end.

Definition assignLead (now : Z) (id : nat) (assignedTo : option nat) (notes : option string)
    (s : Store) : Response.t (nat * Lead.t) * Store :=
  match leads s !! id with
  | None => (Response.sendError now 404 msg_notFound None, s)
  | Some lead =>
      match Lead.assignTo now assignedTo notes id lead (leads s) with
      | inl e => (Server.errorMiddleware now e, s)
      | inr (_, c) =>
          (Response.sendSuccess now 200
             ("Lead assign" +:+ Js.e_acute +:+ " avec succ" +:+ String (ascii_of_nat 232) "s")
             (c !! id ≫= fun l => Some (id, l)) None,
           with_leads c s)
      end
  end.

Definition scheduleFollowUp (now : Z) (id : nat) (followUpDate : option Z)
    (notes : option string) (s : Store) : Response.t (nat * Lead.t) * Store :=
  match followUpDate with
  | None => (Response.sendError now 400 "Date de suivi requise" None, s)
  | Some date =>
      match leads s !! id with
      | None => (Response.sendError now 404 msg_notFound None, s)
      | Some lead =>
          match Lead.scheduleFollowUp now date notes id lead (leads s) with
          | inl e => (Server.errorMiddleware now e, s)
          | inr (_, c) =>
              (Response.sendSuccess now 200
                 ("Suivi programm" +:+ Js.e_acute +:+ " avec succ"
                  +:+ String (ascii_of_nat 232) "s")
                 (c !! id ≫= fun l => Some (id, l)) None,
               with_leads c s)
          end
      end
  end.

(** *** Statistics *)

Record TopProduct := {
  top_id : nat;
  top_count : Z;
  top_product : option Product.t
}.

Record Conversion := {
  total : Z;
  converted : Z;
  rate : string
}.

Record Stats := {
  byStatus : list (Lead.Status * Z);
  needingFollowUp : Z;
  recentActivity : list (string * Z);
  topProducts : list TopProduct;
  conversion : Conversion
}.

(** [{ $dateToString: { format: "%Y-%m-%d", date: "$createdAt" } }]: the
    UTC calendar date, the first ten characters of the ISO form. *)
Definition dateToString (t : Z) : string :=
  String.substring 0 10 (Js.toISOString t).

(** [thirtyDaysAgo.setDate(thirtyDaysAgo.getDate() - 30)], for a server
    whose local time is UTC. *)
Definition thirtyDaysAgo (now : Z) : Z := now - 30 * 86400000.

Definition recentStats (now : Z) (c : gmap nat Lead.t) : list (string * Z) :=
  merge_sort (fun a b : string * Z => String.leb a.1 b.1)
    (Mongo.groupCount
       (List.map (fun d : nat * Lead.t => dateToString (Lead.createdAt d.2))
          (Mongo.find (fun d => (thirtyDaysAgo now <=? Lead.createdAt d.2)
                                && negb (Lead.isArchived d.2)) c))).

Definition topProductsOf (s : Store) : list TopProduct :=
  List.map (fun g : nat * Z =>
              {| top_id := g.1; top_count := g.2; top_product := products s !! g.1 |})
    (take 10
       (merge_sort (fun a b : nat * Z => b.2 <=? a.2)
          (Mongo.groupCount
             (List.map (fun d : nat * Lead.t => Lead.produit d.2)
                (Mongo.find (fun d => negb (Lead.isArchived d.2)) (leads s)))))).

(** The value of [conversionRate]: the number [0], or the string of
    [toFixed(2)] given by its hundredths. *)
Inductive Rate :=
| RateNumber (n : Z)
| RateFixed (hundredths : Z).

Definition conversionRate (totalLeads convertedLeads : Z) : Rate :=
  if 0 <? totalLeads
  then RateFixed (Js.percent_hundredths convertedLeads totalLeads)
  else RateNumber 0.

(** [`${conversionRate}`]. *)
Definition rate_string (r : Rate) : string :=
  match r with
  | RateNumber n => Js.decimal n
  | RateFixed h => Js.fixed2 h
  end.

Definition totalLeads (s : Store) : Z :=
  Mongo.countDocuments (fun d => negb (Lead.isArchived d.2)) (leads s).

Definition convertedLeads (s : Store) : Z :=
  Mongo.countDocuments
    (fun d => bool_decide (Lead.status d.2 = Lead.converti) && negb (Lead.isArchived d.2))
    (leads s).

Definition getLeadStats (now : Z) (s : Store) : Response.t Stats :=
  let statusStats := Lead.getStats (leads s) in
  let needingFollowUp := Lead.getNeedingFollowUp now (leads s) in
  let recentStats := recentStats now (leads s) in
  let topProducts := topProductsOf s in
  let totalLeads := totalLeads s in
  let convertedLeads := convertedLeads s in
  let conversionRate := conversionRate totalLeads convertedLeads in
  Response.sendSuccess now 200
    ("Statistiques r" +:+ Js.e_acute +:+ "cup" +:+ Js.e_acute +:+ "r" +:+ Js.e_acute +:+ "es")
    (Some {| byStatus := statusStats;
             needingFollowUp := Z.of_nat (length needingFollowUp);
             recentActivity := recentStats;
             topProducts := topProducts;
             conversion := {| total := totalLeads;
                              converted := convertedLeads;
                              rate := rate_string conversionRate +:+ "%" |} |})
    None.

(** *** The leads of the connected user *)

Record MyLeadsQuery := {
  my_page : QueryParam;
  my_limit : QueryParam;
  my_status : option string
}.

(** The filter object [query] of [getMyLeads] for the connected user. *)
Definition myMatches (user : nat) (q : MyLeadsQuery) (d : nat * Lead.t) : bool :=
  bool_decide (Lead.assignedTo d.2 = Some user)
  && negb (Lead.isArchived d.2)
  && (if given (my_status q)
      then bool_decide (Some (Lead.status_name (Lead.status d.2)) = my_status q) else true).

Definition getMyLeads (now : Z) (user : nat) (q : MyLeadsQuery) (s : Store)
    : Response.t (list (nat * Lead.t)) :=
  let page := numeric 1 (my_page q) in
  let limit := numeric 20 (my_limit q) in
  let found :=
    Mongo.find_sort_limit_skip (myMatches user q) newestFirst
      (limit * 1) ((page - 1) * limit) (leads s) in
  let total := Mongo.countDocuments (myMatches user q) (leads s) in
  Response.sendPaginatedResponse now found page limit total
    ("Vos leads r" +:+ Js.e_acute +:+ "cup" +:+ Js.e_acute +:+ "r"
     +:+ Js.e_acute +:+ "s avec succ" +:+ String (ascii_of_nat 232) "s").

(** *** The export *)

Record ExportQuery := {
  exp_status : option string;
  exp_dateFrom : option Z;
  exp_dateTo : option Z
}.

Record CsvRow := {
  csv_Date : string;
  csv_Nom : string;
  csv_Telephone : string;
  csv_Produit : string;
  csv_Prix : Z;
  csv_Status : string;
  csv_Message : string;
  csv_Assigne : string;
  csv_Age : string
}.

Record Export := {
  export_leads : list CsvRow;
  export_count : Z
}.

(** The filter object [query] of [exportLeads]. *)
Definition exportMatches (q : ExportQuery) (d : nat * Lead.t) : bool :=
  negb (Lead.isArchived d.2)
  && (if given (exp_status q)
      then bool_decide (Some (Lead.status_name (Lead.status d.2)) = exp_status q) else true)
  && (match exp_dateFrom q with Some t => t <=? Lead.createdAt d.2 | None => true end)
  && (match exp_dateTo q with Some t => Lead.createdAt d.2 <=? t | None => true end).

(** One row of [csvData]; the two [populate] calls are the look-ups of the
    product and of the assigned user. *)
Definition csvRow (now : Z) (users : gmap nat User.t) (s : Store) (d : nat * Lead.t)
    : CsvRow :=
  let lead := d.2 in
  let produit := products s !! Lead.produit lead in
  let assignedTo := Lead.assignedTo lead ≫= fun u => users !! u in
  {| csv_Date := List.hd EmptyString (Js.split "T" (Js.toISOString (Lead.createdAt lead)));
     csv_Nom := Lead.nom lead;
     csv_Telephone := Lead.tel lead;
     csv_Produit :=
       match produit with
       | Some p => if Js.truthy (Product.nom p) then Product.nom p else "N/A"
       | None => "N/A"
       end;
     csv_Prix := match produit with Some p => Product.prix p | None => 0 end;
     csv_Status := Lead.status_name (Lead.status lead);
     csv_Message :=
       Js.replace_chars (fun c => bool_decide (c ∈ [ascii_of_nat 10; ascii_of_nat 13]))
         " " (Lead.message lead);
     csv_Assigne :=
       match assignedTo with
       | Some u => if Js.truthy (User.name u) then User.name u
                   else "Non assign" +:+ Js.e_acute
       | None => "Non assign" +:+ Js.e_acute
       end;
     csv_Age := Js.number_string (Lead.ageInDays now lead) +:+ " jours" |}.

Definition exportLeads (now : Z) (q : ExportQuery) (users : gmap nat User.t) (s : Store)
    : Response.t Export :=
  let leads :=
    merge_sort (fun a b => newestFirst a b) (Mongo.find (exportMatches q) (leads s)) in
  let csvData := List.map (csvRow now users s) leads in
  Response.sendSuccess now 200
    ("Donn" +:+ Js.e_acute +:+ "es d'export r" +:+ Js.e_acute +:+ "cup"
     +:+ Js.e_acute +:+ "r" +:+ Js.e_acute +:+ "es")
    (Some {| export_leads := csvData; export_count := Z.of_nat (length csvData) |})
    None.

End LeadController.

(** ** utils/jwt.js *)

Module Jwt.

(** [extractTokenFromHeader]: [None] is [null]; an absent header is
    [None]. *)
Definition extractTokenFromHeader (authHeader : option string) : option string :=
  match authHeader with
  | None => None
  | Some header =>
      if negb (Js.truthy header) then None
      else
        match Js.split " " header with
        | [scheme; token] => if bool_decide (scheme = "Bearer") then Some token else None
        | _ => None
        end
  end.

End Jwt.

(** ** middleware/auth.js *)

Module Auth.

(** Where a middleware leaves the request: answered, or handed to the next
    handler with [req.user]. *)
Inductive Outcome (D : Type) :=
| Answered (r : Response.t D)
| Next (user : nat * User.t).
Arguments Answered {D}.
Arguments Next {D}.

Section Authenticate.

(** [verifyToken] of utils/jwt.js, over [jsonwebtoken]: the [id] claim of
    a token whose signature, issuer, audience and expiry check, [None] when
    it throws. *)
Variable verifyToken : string -> option nat.

Definition authenticate {D} (now : Z) (authorization : option string)
    (users : gmap nat User.t) : Outcome D :=
  match Jwt.extractTokenFromHeader authorization with
  | None => Answered (Response.sendError now 401 "Token d'authentification requis" None)
  | Some token =>
      if negb (Js.truthy token)
      then Answered (Response.sendError now 401 "Token d'authentification requis" None)
      else
        match verifyToken token with
        | None =>
            Answered (Response.sendError now 401
                        ("Token invalide ou expir" +:+ Js.e_acute) None)
        | Some id =>
            match users !! id with
            | None =>
                Answered (Response.sendError now 401
                            ("Utilisateur non trouv" +:+ Js.e_acute) None)
            | Some user =>
                if negb (User.isActive user)
                then Answered (Response.sendError now 401
                                 ("Compte utilisateur d" +:+ Js.e_acute +:+ "sactiv"
                                  +:+ Js.e_acute) None)
                else Next (id, user)
            end
        end
  end.

End Authenticate.

(** [authorize(...roles)] on a request whose [req.user] is [user]. *)
Definition authorize {D} (roles : list User.Role) (now : Z) (user : option (nat * User.t))
    : Outcome D :=
  match user with
  | None => Answered (Response.sendError now 401 "Authentification requise" None)
  | Some u =>
      if negb (bool_decide (User.role u.2 ∈ roles))
      then Answered (Response.sendError now 403
                       ("Acc" +:+ String (ascii_of_nat 232) "s refus" +:+ Js.e_acute
                        +:+ " - Privil" +:+ String (ascii_of_nat 232) "ges insuffisants") None)
      else Next u
  end.

Definition requireAdmin {D} : Z -> option (nat * User.t) -> Outcome D :=
  authorize [User.admin].

(** [requireSelfOrAdmin] for the user identifier of the route. *)
Definition requireSelfOrAdmin {D} (now : Z) (targetUserId : nat)
    (user : option (nat * User.t)) : Outcome D :=
  match user with
  | None => Answered (Response.sendError now 401 "Authentification requise" None)
  | Some u =>
      if bool_decide (User.role u.2 = User.admin) then Next u
      else if negb (bool_decide (targetUserId = u.1))
           then Answered (Response.sendError now 403
                            ("Acc" +:+ String (ascii_of_nat 232) "s refus" +:+ Js.e_acute
                             +:+ " - Vous ne pouvez acc" +:+ Js.e_acute +:+ "der qu'"
                             +:+ String (ascii_of_nat 224) " votre propre profil") None)
           else Next u
  end.

End Auth.

(** ** controllers/authController.js *)

Module AuthController.


End AuthController.

(** ** routes/leads.js *)

Module LeadRoutes.

Section Routes.

Variable verifyToken : string -> option nat.
Variable regexMatch : string -> string -> bool.

(** [router.use(authenticate)] and
    [router.get('/', requireAdmin, validatePagination, getAllLeads)]. *)
Definition getLeads (now : Z) (authorization : option string) (q : LeadController.Query)
    (users : gmap nat User.t) (s : LeadController.Store)
    : Response.t (list (nat * Lead.t)) :=
  match Auth.authenticate verifyToken now authorization users with
  | Auth.Answered r => r
  | Auth.Next user =>
      match Auth.requireAdmin now (Some user) with
      | Auth.Answered r => r
      | Auth.Next _ => LeadController.route_getAllLeads regexMatch now q s
      end
  end.

(** [router.get('/my-leads', validatePagination, getMyLeads)]. *)
Definition myLeads (now : Z) (authorization : option string)
    (q : LeadController.MyLeadsQuery) (users : gmap nat User.t) (s : LeadController.Store)
    : Response.t (list (nat * Lead.t)) :=
  match Auth.authenticate verifyToken now authorization users with
  | Auth.Answered r => r
  | Auth.Next user =>
      Validation.handleValidationErrors now
        (Validation.validatePagination (LeadController.my_page q) (LeadController.my_limit q))
        (LeadController.getMyLeads now user.1 q s)
  end.

(** [router.get('/stats', requireAdmin, getLeadStats)]. *)
Definition getStats (now : Z) (authorization : option string)
    (users : gmap nat User.t) (s : LeadController.Store)
    : Response.t LeadController.Stats :=
  match Auth.authenticate verifyToken now authorization users with
  | Auth.Answered r => r
  | Auth.Next user =>
      match Auth.requireAdmin now (Some user) with
      | Auth.Answered r => r
      | Auth.Next _ => LeadController.getLeadStats now s
      end
  end.

End Routes.

End LeadRoutes.

(** ** The listing contract

    What a paginated answer [r] is expected to be for the documents
    [matching] the filter, the effective [page] and [limit]: some ordering
    [sorted] of the matching documents splits into [skip] skipped documents,
    the returned ones and the rest; at most [limit] are returned, and fewer
    only when nothing is left; the envelope is a success that reports the
    count of all matching documents. *)



(** The paths of a lead that none of the lifecycle operations assigns:
    [b] has them as [a] has. *)
Definition sameContact (a b : Lead.t) : Prop :=
  Lead.nom b = Lead.nom a
  /\ Lead.tel b = Lead.tel a
  /\ Lead.message b = Lead.message a
  /\ Lead.produit b = Lead.produit a
  /\ Lead.source b = Lead.source a
  /\ Lead.createdAt b = Lead.createdAt a.

(** What holds of the collection between two awaited steps of a handler
    that works on the lead [id] of the collection [c0]: every other lead
    is as in [c0] and the stored lead satisfies [R]; as long as no step
    failed, the loaded document is the stored one. *)
Definition StepInvariant (id : nat) (c0 : gmap nat Lead.t) (R : Lead.t -> Prop)
    (st : Mongo.Error * gmap nat Lead.t + Lead.t * gmap nat Lead.t) : Prop :=
  let good (c : gmap nat Lead.t) :=
    (forall j, j <> id -> c !! j = c0 !! j) /\ exists l', c !! id = Some l' /\ R l' in
  match st with
  | inl (_, c) => good c
  | inr (lead, c) => good c /\ c !! id = Some lead
  end.

(** The characters that can stand in the query of a URL as they are:
    those [encodeURIComponent] keeps, and the percent sign of its escapes. *)
Definition url_safe (c : ascii) : bool :=
  Js.uri_unreserved c || bool_decide (c = "%"%char).

(** The character class [[^\d]] of the two phone clean-ups. *)
Definition non_digit (c : ascii) : bool := negb (Js.is_digit c).

(** The count that the groups of an aggregation hold for the key [k]. *)
Definition countFor {K} `{EqDecision K} (k : K) (groups : list (K * Z)) : Z :=
  foldr (fun g acc => if decide (g.1 = k) then g.2 + acc else acc) 0 groups.

(** ** Request bodies and sample data for the worked examples *)

Module Sample.

Definition phone : Product.t :=
  {| Product.nom := "Smartphone Samsung Galaxy A24"; Product.prix := 299;
     Product.images := ["https://via.placeholder.com/600x400?text=Samsung+Galaxy+A24"];
     Product.categorie := String (ascii_of_nat 201) "lectronique";
     Product.stock := 3; Product.description := "Smartphone Samsung Galaxy A24";
     Product.isActive := true; Product.featured := true; Product.views := 0;
     Product.createdBy := 1%nat; Product.createdAt := 1700000000000 |}.

Definition robe : Product.t :=
  {| Product.nom := "Robe Africaine Wax Premium"; Product.prix := 45;
     Product.images := ["https://via.placeholder.com/600x400?text=Robe+Wax+Africaine"];
     Product.categorie := "Mode";
     Product.stock := 30; Product.description := "Magnifique robe africaine";
     Product.isActive := false; Product.featured := true; Product.views := 0;
     Product.createdBy := 1%nat; Product.createdAt := 1700000001000 |}.

Definition products : gmap nat Product.t := <[2%nat := robe]> (<[1%nat := phone]> ∅).

Definition lead (nom : string) (createdAt : Z) : Lead.t :=
  Lead.new_doc createdAt nom "+243 812 345 678" None 1.

Definition store : LeadController.Store :=
  {| LeadController.products := products;
     LeadController.leads :=
       <[3%nat := lead "Chantal" 1700000300000]>
         (<[2%nat := lead "Bruno" 1700000200000]>
            (<[1%nat := lead "Aline" 1700000100000]> ∅)) |}.

(** A case-insensitive match is not needed by the examples: this one
    accepts every subject. *)
Definition anyMatch (pattern subject : string) : bool := true.


Definition leadQuery (page limit : Validation.QueryParam) : LeadController.Query :=
  {| LeadController.page := page; LeadController.limit := limit;
     LeadController.status := None; LeadController.assignedTo := None;
     LeadController.search := None; LeadController.dateFrom := None;
     LeadController.dateTo := None; LeadController.produit := None |}.

Definition lqDefault : LeadController.Query := leadQuery Validation.Absent Validation.Absent.



Definition stockBody (quantity : ProductController.Json) (operation : string)
    : ProductController.StockBody :=
  {| ProductController.quantity := quantity;
     ProductController.operation := ProductController.JString operation |}.

Definition body : LeadController.LeadBody :=
  {| LeadController.body_nom := "Aline"; LeadController.body_tel := "+243 812 345 678";
     LeadController.body_message := None; LeadController.body_produit := 1 |}.


Definition statusOnly (st : Lead.Status) : LeadController.UpdateBody :=
  {| LeadController.upd_status := Some st; LeadController.upd_notes := None;
     LeadController.upd_assignedTo := None; LeadController.upd_followUpDate := None |}.

Definition noUpdate : LeadController.UpdateBody :=
  {| LeadController.upd_status := None; LeadController.upd_notes := None;
     LeadController.upd_assignedTo := None; LeadController.upd_followUpDate := None |}.



Definition adminUser : User.t :=
  {| User.name := "Administrateur Mireb"; User.email := "mirebcommercial@gmail.com";
     User.password := "$2a$12$hash"; User.role := User.admin; User.isActive := true;
     User.lastLogin := None; User.profileImage := ""; User.createdAt := 1700000000000 |}.

Definition staffUser : User.t :=
  {| User.name := "Chantal"; User.email := "chantal@example.com";
     User.password := "$2a$12$hash"; User.role := User.user; User.isActive := true;
     User.lastLogin := None; User.profileImage := ""; User.createdAt := 1700000000000 |}.

Definition users : gmap nat User.t := <[2%nat := staffUser]> (<[1%nat := adminUser]> ∅).

(** A token check for the examples: the token ["t1"] is user 1's, ["t2"]
    user 2's, any other token is refused. *)
Definition sampleVerify (token : string) : option nat :=
  if bool_decide (token = "t1") then Some 1%nat
  else if bool_decide (token = "t2") then Some 2%nat
  else None.

End Sample.

(** * Properties *)

Example toISOString_epoch : Js.toISOString 0 = "1970-01-01T00:00:00.000Z".
Proof. vm_compute. reflexivity. Qed.
Example toISOString_2023 : Js.toISOString 1700000000000 = "2023-11-14T22:13:20.000Z".
Proof. vm_compute. reflexivity. Qed.
Example toISOString_leap : Js.toISOString 951782400123 = "2000-02-29T00:00:00.123Z".
Proof. vm_compute. reflexivity. Qed.
Example toISOString_2024 : Js.toISOString 1709251199999 = "2024-02-29T23:59:59.999Z".
Proof. vm_compute. reflexivity. Qed.
Example toISOString_1969 : Js.toISOString (-1) = "1969-12-31T23:59:59.999Z".
Proof. vm_compute. reflexivity. Qed.
Example trim1 : Js.trim "  a b  " = "a b". Proof. reflexivity. Qed.
Example trim2 : Js.trim "   " = "". Proof. reflexivity. Qed.

Example fixed2_ex : Js.fixed2 (Js.percent_hundredths 1 3) = "33.33".
Proof. vm_compute. reflexivity. Qed.
Example fixed2_ex2 : Js.fixed2 (Js.percent_hundredths 2 3) = "66.67".
Proof. vm_compute. reflexivity. Qed.
Example fixed2_ex3 : Js.fixed2 (Js.percent_hundredths 3 3) = "100.00".
Proof. vm_compute. reflexivity. Qed.
Example fixed2_ex4 : Js.fixed2 (Js.percent_hundredths 0 3) = "0.00".
Proof. vm_compute. reflexivity. Qed.
Example decimal_ex : Js.decimal 0 = "0" /\ Js.decimal 1203 = "1203".
Proof. vm_compute. split; reflexivity. Qed.
Example tel_ex : Lead.tel_valid "+33 6 12-34 (56)" = true /\ Lead.tel_valid "0612345678" = false
  /\ Lead.tel_valid "12345678901234567" = false /\ Lead.tel_valid "1234567890123456" = true.
Proof. vm_compute. repeat split; reflexivity. Qed.

(** ** Arithmetic of the pagination envelope *)

Lemma Math_ceil_div_spec (a b : Z) :
  0 < b -> (Js.Math_ceil_div a b - 1) * b < a <= Js.Math_ceil_div a b * b.
Proof.
  intros Hb. unfold Js.Math_ceil_div.
  pose proof (Z.mul_div_le (- a) b Hb).
  pose proof (Z.mul_succ_div_gt (- a) b Hb).
  nia.
Qed.

Lemma Math_ceil_div_unique (a b n : Z) :
  0 < b -> (n - 1) * b < a <= n * b -> Js.Math_ceil_div a b = n.
Proof.
  intros Hb Hn. pose proof (Math_ceil_div_spec a b Hb). nia.
Qed.

(** C2. For a positive [limit], the envelope built from [page], [limit] and
    [total] has [totalPages] the ceiling of [total / limit] (the least
    integer [n] with [total <= n * limit]); [hasNextPage] holds iff
    [page < totalPages], [hasPrevPage] iff [page > 1]; [nextPage] is
    [page + 1] when there is a next page and [null] otherwise, [prevPage]
    is [page - 1] when there is a previous page and [null] otherwise; the
    envelope carries the current page, the total item count and the items
    per page, and [sendPaginatedResponse] sends it as the [meta] of a
    success answer that carries the data. *)
Theorem C2_pagination_envelope {D} (now : Z) (data : D) (message : string)
    (page limit total : Z) :
  0 < limit ->
  let r := Response.sendPaginatedResponse now data page limit total message in
  exists pg,
    Response.meta r = Some pg
    /\ Response.data r = Some data
    /\ Response.success r = true
    /\ Response.currentPage pg = page
    /\ Response.totalItems pg = total
    /\ Response.itemsPerPage pg = limit
    /\ (Response.totalPages pg - 1) * limit < total <= Response.totalPages pg * limit
    /\ (forall n, total <= n * limit -> Response.totalPages pg <= n)
    /\ (Response.hasNextPage pg = true <-> page < Response.totalPages pg)
    /\ (Response.hasPrevPage pg = true <-> page > 1)
    /\ (page < Response.totalPages pg -> Response.nextPage pg = Some (page + 1))
    /\ (~ page < Response.totalPages pg -> Response.nextPage pg = None)
    /\ (page > 1 -> Response.prevPage pg = Some (page - 1))
    /\ (~ page > 1 -> Response.prevPage pg = None).
Proof.
  intros Hlimit r. exists (Response.pagination page limit total).
  pose proof (Math_ceil_div_spec total limit Hlimit) as Hceil.
  unfold r, Response.sendPaginatedResponse, Response.sendSuccess, Response.pagination.
  cbn [Response.meta Response.data Response.success Response.currentPage
       Response.totalItems Response.itemsPerPage Response.totalPages
       Response.hasNextPage Response.hasPrevPage Response.nextPage Response.prevPage].
  destruct (Z.ltb_spec page (Js.Math_ceil_div total limit));
    destruct (Z.ltb_spec 1 page);
    repeat split; intros; try lia; try reflexivity; try discriminate; nia.
Qed.

Lemma C2_pagination_envelope_witness :
  0 < 10
  /\ exists pg,
       Response.meta (Response.sendPaginatedResponse 1700000000000 [1; 2; 3] 3 10 25 "ok")
       = Some pg
       /\ Response.totalPages pg = 3
       /\ Response.hasNextPage pg = false
       /\ Response.prevPage pg = Some 2.
Proof.
  split; [lia |].
  destruct (C2_pagination_envelope 1700000000000 [1; 2; 3] "ok" 3 10 25 ltac:(lia))
    as (pg & Hmeta & _ & _ & _ & _ & _ & Hceil & _ & Hnext & _ & _ & _ & Hprev & _).
  exists pg. split; [exact Hmeta |].
  split; [lia |].
  split; [| apply Hprev; lia].
  destruct (Response.hasNextPage pg) eqn:E; [| reflexivity].
  destruct Hnext as [Hn _]. specialize (Hn eq_refl). lia.
Defined.

(** ** Listings *)





Example getAllLeads_page2 :
  Response.data
    (LeadController.getAllLeads Sample.anyMatch 1700000400000
       (Sample.leadQuery (Validation.IntString 2) (Validation.IntString 2)) Sample.store)
  = Some [(1%nat, Sample.lead "Aline" 1700000100000)].
Proof. vm_compute. reflexivity. Qed.

Example getAllLeads_page3 :
  let r := LeadController.getAllLeads Sample.anyMatch 1700000400000
             (Sample.leadQuery (Validation.IntString 3) (Validation.IntString 2))
             Sample.store in
  Response.data r = Some []
  /\ Response.meta r
     = Some {| Response.currentPage := 3; Response.totalPages := 2;
               Response.totalItems := 3; Response.itemsPerPage := 2;
               Response.hasNextPage := false; Response.hasPrevPage := true;
               Response.nextPage := None; Response.prevPage := Some 2 |}.
Proof. vm_compute. split; reflexivity. Qed.

(** ** The [limit] parameter *)

Lemma handleValidationErrors_nil {D} (now : Z) (next : Response.t D) :
  Validation.handleValidationErrors now [] next = next.
Proof. reflexivity. Qed.








(** ** Lead creation *)

Lemma fresh_lookup_None {A} (c : gmap nat A) : c !! fresh (dom c) = None.
Proof. apply not_elem_of_dom. apply is_fresh. Qed.



Example createLead_invalid_tel :
  Response.statusCode
    (LeadController.createLead 1700000400000
       {| LeadController.body_nom := "Aline"; LeadController.body_tel := "0612345678";
          LeadController.body_message := None; LeadController.body_produit := 1 |}
       Sample.store).1 = 400.
Proof. vm_compute. reflexivity. Qed.

(** ** Follow-up *)

Lemma elem_of_find {A} (filter : nat * A -> bool) (c : gmap nat A) (id : nat) (d : A) :
  (id, d) ∈ Mongo.find filter c <-> c !! id = Some d /\ filter (id, d) = true.
Proof.
  unfold Mongo.find. rewrite list_elem_of_filter, elem_of_map_to_list, Is_true_true.
  tauto.
Qed.

Lemma needsFollowUp_spec (now : Z) (id : nat) (l : Lead.t) :
  Lead.needsFollowUp now (id, l) = true
  <-> Lead.isArchived l = false
      /\ (exists date, Lead.followUpDate l = Some date /\ date <= now)
      /\ Lead.status l <> Lead.converti
      /\ Lead.status l <> Lead.perdu.
Proof.
  unfold Lead.needsFollowUp. cbn [snd].
  rewrite !andb_true_iff, !negb_true_iff, bool_decide_eq_false.
  split.
  - intros [[Hdate Hstatus] Harchived].
    split; [exact Harchived |]. split.
    + destruct (Lead.followUpDate l) as [date |]; [| discriminate].
      exists date. split; [reflexivity | apply Z.leb_le; exact Hdate].
    + split; intros Heq; apply Hstatus; rewrite Heq, !elem_of_cons; auto.
  - intros (Harchived & (date & -> & Hdate) & Hc & Hp).
    split; [split |]; [apply Z.leb_le; exact Hdate | | exact Harchived].
    intros Hin. rewrite !elem_of_cons, elem_of_nil in Hin. tauto.
Qed.

Lemma createLead_success_inv (now : Z) (body : LeadController.LeadBody)
    (s : LeadController.Store) (id : nat) (lead : Lead.t) :
  Response.data (LeadController.createLead now body s).1 = Some (id, lead) ->
  LeadController.leads (LeadController.createLead now body s).2
  = <[id := lead]> (LeadController.leads s)
  /\ lead = Lead.new_doc now (LeadController.body_nom body) (LeadController.body_tel body)
              (LeadController.body_message body) (LeadController.body_produit body).
Proof.
  unfold LeadController.createLead.
  destruct (LeadController.products s !! LeadController.body_produit body) as [p |];
    [| discriminate].
  destruct (Product.isActive p); cbn [negb]; [| discriminate].
  unfold Lead.create.
  destruct (Lead.validate_new _); [| discriminate].
  cbn [fst snd LeadController.leads LeadController.with_leads Response.data
       Response.sendSuccess].
  rewrite lookup_insert_eq. cbn. intros [= <- <-]. split; reflexivity.
Qed.

Lemma scheduleFollowUp_no_note (now : Z) (id : nat) (date : Z) (l : Lead.t)
    (s : LeadController.Store) :
  LeadController.leads s !! id = Some l ->
  Lead.validate_notes l = [] ->
  LeadController.leads (LeadController.scheduleFollowUp now id (Some date) None s).2
  = <[id := Lead.set_followUpDate date l]> (LeadController.leads s).
Proof.
  intros Hl Hnotes. unfold LeadController.scheduleFollowUp. rewrite Hl.
  unfold Lead.scheduleFollowUp, Lead.scheduleFollowUp_assign, Lead.save. cbn [default Js.truthy].
  change (Lead.validate_notes (Lead.set_followUpDate date l)) with (Lead.validate_notes l).
  rewrite Hnotes. reflexivity.
Qed.

Lemma updateLead_status_only (now : Z) (id : nat) (st : Lead.Status) (l : Lead.t)
    (s : LeadController.Store) :
  LeadController.leads s !! id = Some l ->
  Lead.validate_notes l = [] ->
  LeadController.leads (LeadController.updateLead now id (Sample.statusOnly st) s).2
  = <[id := Lead.set_status st l]> (LeadController.leads s).
Proof.
  intros Hl Hnotes. unfold LeadController.updateLead. rewrite Hl.
  unfold LeadController.updateLead_steps, Sample.statusOnly.
  cbn [LeadController.upd_status LeadController.upd_notes LeadController.upd_assignedTo
       LeadController.upd_followUpDate LeadController.run LeadController.when
       Validation.given andb].
  unfold Lead.updateStatus, Lead.updateStatus_assign, Lead.save. cbn [default Js.truthy].
  change (Lead.validate_notes (Lead.set_status st l)) with (Lead.validate_notes l).
  rewrite Hnotes. reflexivity.
Qed.

(** C4. [getNeedingFollowUp] returns, each once, exactly the leads that
    are not archived, have a follow-up date at or before the current
    instant, and whose status is neither [converti] nor [perdu]. In
    particular a lead that was just created and then scheduled, without a
    note, for a date that is not after the instant of the query is
    returned, and once its status is updated to [converti] it is returned
    no more, at any instant. *)
Theorem C4_dueForFollowUp (now : Z) (c : gmap nat Lead.t) :
  NoDup (Lead.getNeedingFollowUp now c)
  /\ (forall id l,
        (id, l) ∈ Lead.getNeedingFollowUp now c
        <-> c !! id = Some l
            /\ Lead.isArchived l = false
            /\ (exists date, Lead.followUpDate l = Some date /\ date <= now)
            /\ Lead.status l <> Lead.converti
            /\ Lead.status l <> Lead.perdu)
  /\ (forall created (body : LeadController.LeadBody) (s : LeadController.Store) id lead
             scheduled date updated later,
        Response.data (LeadController.createLead created body s).1 = Some (id, lead) ->
        date <= now ->
        let s1 := (LeadController.createLead created body s).2 in
        let s2 := (LeadController.scheduleFollowUp scheduled id (Some date) None s1).2 in
        let s3 := (LeadController.updateLead updated id (Sample.statusOnly Lead.converti) s2).2 in
        (exists l2, (id, l2) ∈ Lead.getNeedingFollowUp now (LeadController.leads s2))
        /\ (forall l3, (id, l3) ∉ Lead.getNeedingFollowUp later (LeadController.leads s3))).
Proof.
  split; [| split].
  - unfold Lead.getNeedingFollowUp, Mongo.find.
    apply NoDup_filter, NoDup_map_to_list.
  - intros id l. unfold Lead.getNeedingFollowUp.
    rewrite elem_of_find, needsFollowUp_spec. tauto.
  - intros created body s id lead scheduled date updated later Hcreated Hdate s1 s2 s3.
    apply createLead_success_inv in Hcreated as [Hs1 Hlead].
    assert (H1 : LeadController.leads s1 !! id = Some lead).
    { unfold s1. rewrite Hs1. apply lookup_insert_eq. }
    assert (Hnotes : Lead.validate_notes lead = []) by (rewrite Hlead; reflexivity).
    assert (H2 : LeadController.leads s2 !! id = Some (Lead.set_followUpDate date lead)).
    { unfold s2. rewrite (scheduleFollowUp_no_note _ _ _ lead), lookup_insert_eq; auto. }
    assert (H3 : LeadController.leads s3 !! id
                 = Some (Lead.set_status Lead.converti (Lead.set_followUpDate date lead))).
    { unfold s3.
      rewrite (updateLead_status_only _ _ _ (Lead.set_followUpDate date lead)),
        lookup_insert_eq; auto. }
    split.
    + exists (Lead.set_followUpDate date lead). unfold Lead.getNeedingFollowUp.
      apply elem_of_find. split; [exact H2 |].
      apply needsFollowUp_spec. rewrite Hlead. cbn.
      split; [reflexivity |]. split; [exists date; auto |]. split; discriminate.
    + intros l3 Hin. unfold Lead.getNeedingFollowUp in Hin.
      apply elem_of_find in Hin as [Hl3 Hneeds].
      rewrite H3 in Hl3. injection Hl3 as <-.
      apply needsFollowUp_spec in Hneeds as (_ & _ & Hstatus & _).
      apply Hstatus. reflexivity.
Qed.

Lemma C4_dueForFollowUp_witness :
  exists id lead,
    Response.data (LeadController.createLead 1700000400000 Sample.body Sample.store).1
    = Some (id, lead)
    /\ 1600000000000 <= 1700000600000
    /\ (exists l2,
          (id, l2) ∈ Lead.getNeedingFollowUp 1700000600000
            (LeadController.leads
               (LeadController.scheduleFollowUp 1700000500000 id (Some 1600000000000) None
                  (LeadController.createLead 1700000400000 Sample.body Sample.store).2).2))
    /\ (forall l3,
          (id, l3) ∉ Lead.getNeedingFollowUp 1700000800000
            (LeadController.leads
               (LeadController.updateLead 1700000700000 id (Sample.statusOnly Lead.converti)
                  (LeadController.scheduleFollowUp 1700000500000 id (Some 1600000000000) None
                     (LeadController.createLead 1700000400000 Sample.body
                        Sample.store).2).2).2)).
Proof.
  eexists _, _. split; [vm_compute; reflexivity |]. split; [lia |].
  destruct (C4_dueForFollowUp 1700000600000 ∅) as (_ & _ & Hscenario).
  eapply (Hscenario 1700000400000 Sample.body Sample.store); [vm_compute; reflexivity | lia].
Defined.

(** ** Strings and [trim] *)

Lemma append_nil_l (b : string) : "" +:+ b = b.
Proof. reflexivity. Qed.

Lemma append_cons (x : ascii) (a b : string) : String x a +:+ b = String x (a +:+ b).
Proof. reflexivity. Qed.

Lemma append_assoc (a b c : string) : (a +:+ b) +:+ c = a +:+ (b +:+ c).
Proof.
  induction a as [| x a IH]; rewrite ?append_nil_l, ?append_cons; [reflexivity |].
  rewrite IH. reflexivity.
Qed.


Lemma length_append (a b : string) :
  String.length (a +:+ b) = (String.length a + String.length b)%nat.
Proof.
  induction a as [| x a IH]; rewrite ?append_nil_l, ?append_cons; cbn; [reflexivity |].
  rewrite IH. reflexivity.
Qed.

Lemma append_truthy_r (a b : string) : Js.truthy b = true -> Js.truthy (a +:+ b) = true.
Proof. destruct a; rewrite ?append_nil_l, ?append_cons; cbn; auto. Qed.

Lemma truthy_true (s : string) : Js.truthy s = true <-> s <> "".
Proof. destruct s; cbn; split; congruence. Qed.

Lemma trimStart_length (s : string) : (String.length (Js.trimStart s) <= String.length s)%nat.
Proof. induction s as [| c s IH]; cbn; [lia |]. destruct (Js.is_ws c); cbn; lia. Qed.

Lemma trimEnd_length (s : string) : (String.length (Js.trimEnd s) <= String.length s)%nat.
Proof.
  induction s as [| c s IH]; cbn; [lia |].
  destruct (Js.trimEnd s); [destruct (Js.is_ws c) |]; cbn in *; lia.
Qed.

(** [trimEnd] of a concatenation: the stripping stops inside the second
    part unless that part is all white space. *)
Lemma trimEnd_append (a b : string) :
  Js.trimEnd (a +:+ b)
  = if Js.truthy (Js.trimEnd b) then a +:+ Js.trimEnd b else Js.trimEnd a.
Proof.
  induction a as [| c a IH]; rewrite ?append_nil_l, ?append_cons; cbn.
  - destruct (Js.trimEnd b); reflexivity.
  - rewrite IH. destruct (Js.truthy (Js.trimEnd b)) eqn:E; [| reflexivity].
    pose proof (append_truthy_r a _ E) as Hne.
    destruct (a +:+ Js.trimEnd b); [discriminate | reflexivity].
Qed.

Lemma trimStart_head (s : string) :
  Js.trimStart s = s -> s <> "" -> exists c r, s = String c r /\ Js.is_ws c = false.
Proof.
  destruct s as [| c r]; [congruence |]. intros Hfix _.
  exists c, r. split; [reflexivity |].
  destruct (Js.is_ws c) eqn:E; [| reflexivity].
  cbn in Hfix. rewrite E in Hfix.
  pose proof (trimStart_length r) as Hlen. rewrite Hfix in Hlen. cbn in Hlen. lia.
Qed.

Lemma trimStart_append (a b : string) :
  Js.trimStart a = a -> a <> "" -> Js.trimStart (a +:+ b) = a +:+ b.
Proof.
  intros Hfix Hne. destruct (trimStart_head a Hfix Hne) as (c & r & -> & Hc).
  rewrite append_cons. cbn. rewrite Hc. reflexivity.
Qed.

Lemma trimEnd_fixed_of_length (s : string) :
  String.length (Js.trimEnd s) = String.length s -> Js.trimEnd s = s.
Proof.
  induction s as [| c s IH]; cbn; [reflexivity |].
  pose proof (trimEnd_length s) as Hlen.
  destruct (Js.trimEnd s) as [| c' r'] eqn:E.
  - destruct (Js.is_ws c); cbn; intros Hl; [lia |].
    destruct s; [reflexivity | cbn in Hl; lia].
  - cbn. intros Hl. rewrite IH; [reflexivity |]. cbn. lia.
Qed.

(** A string that [trim] leaves as it is, is left as it is by both halves. *)
Lemma trim_fixed (s : string) :
  Js.trim s = s -> Js.trimEnd s = s /\ Js.trimStart s = s.
Proof.
  unfold Js.trim. intros Hfix.
  assert (Hend : Js.trimEnd s = s).
  { apply trimEnd_fixed_of_length.
    pose proof (trimStart_length (Js.trimEnd s)) as H1.
    pose proof (trimEnd_length s) as H2.
    rewrite Hfix in H1. lia. }
  split; [exact Hend |]. rewrite Hend in Hfix. exact Hfix.
Qed.


(** Between a trimmed, non-empty head and a trimmed, non-empty tail,
    [trim] changes nothing. *)
Lemma trim_append_fixed (a b : string) :
  Js.trim a = a -> a <> "" -> Js.trim b = b -> b <> "" ->
  Js.trim (a +:+ b) = a +:+ b.
Proof.
  intros Ha Hane Hb Hbne.
  apply trim_fixed in Ha as [_ Hstart]. apply trim_fixed in Hb as [Hend _].
  unfold Js.trim. rewrite trimEnd_append, Hend.
  apply truthy_true in Hbne. rewrite Hbne.
  apply trimStart_append; assumption.
Qed.


Lemma trimStart_idempotent (s : string) : Js.trimStart (Js.trimStart s) = Js.trimStart s.
Proof.
  induction s as [| c r IH]; [reflexivity |].
  cbn. destruct (Js.is_ws c) eqn:E; [exact IH |]. cbn. rewrite E. reflexivity.
Qed.

Lemma trimEnd_idempotent (s : string) : Js.trimEnd (Js.trimEnd s) = Js.trimEnd s.
Proof.
  induction s as [| c r IH]; [reflexivity |].
  cbn. destruct (Js.trimEnd r) as [| c' r'] eqn:E.
  - destruct (Js.is_ws c) eqn:Ec; [reflexivity |]. cbn. rewrite Ec. reflexivity.
  - change (Js.trimEnd (String c (String c' r')))
      with (match Js.trimEnd (String c' r') with
            | EmptyString => if Js.is_ws c then EmptyString else String c EmptyString
            | r'' => String c r''
            end).
    rewrite IH. reflexivity.
Qed.

Lemma trimEnd_trimStart (s : string) :
  Js.trimEnd s = s -> Js.trimEnd (Js.trimStart s) = Js.trimStart s.
Proof.
  induction s as [| c r IH]; [reflexivity |].
  intros Hfix. cbn [Js.trimStart]. destruct (Js.is_ws c) eqn:Ec; [| exact Hfix].
  apply IH. cbn in Hfix. destruct (Js.trimEnd r) as [| c' r'].
  - rewrite Ec in Hfix. discriminate.
  - injection Hfix as <-. reflexivity.
Qed.

Lemma trim_idempotent (s : string) : Js.trim (Js.trim s) = Js.trim s.
Proof.
  unfold Js.trim.
  rewrite (trimEnd_trimStart (Js.trimEnd s) (trimEnd_idempotent s)).
  apply trimStart_idempotent.
Qed.

(** ** The notes log *)






(** The notes of a stored lead are always trimmed: they start empty and
    every assignment goes through the setter. *)
Lemma notes_trimmed_preserved (now : Z) (st : Lead.Status) (user : option nat) (date : Z)
    (notes : option string) (v : string) (l : Lead.t) :
  Js.trim (Lead.notes l) = Lead.notes l ->
  Js.trim (Lead.notes (Lead.updateStatus_assign now st notes l))
  = Lead.notes (Lead.updateStatus_assign now st notes l)
  /\ Js.trim (Lead.notes (Lead.assignTo_assign now user notes l))
     = Lead.notes (Lead.assignTo_assign now user notes l)
  /\ Js.trim (Lead.notes (Lead.scheduleFollowUp_assign now date notes l))
     = Lead.notes (Lead.scheduleFollowUp_assign now date notes l)
  /\ Js.trim (Lead.notes (Lead.set_notes v l)) = Lead.notes (Lead.set_notes v l)
  /\ Js.trim (Lead.notes (Lead.set_isArchived true l))
     = Lead.notes (Lead.set_isArchived true l).
Proof.
  intros Hl.
  unfold Lead.updateStatus_assign, Lead.assignTo_assign, Lead.scheduleFollowUp_assign.
  destruct (Js.truthy (default "" notes)); cbn [Lead.notes Lead.set_notes Lead.set_status
    Lead.set_assignedTo Lead.set_followUpDate Lead.set_isArchived];
    repeat split; try apply trim_idempotent; exact Hl.
Qed.

Lemma new_doc_notes_trimmed (now : Z) (nom tel : string) (message : option string)
    (produit : nat) :
  Js.trim (Lead.notes (Lead.new_doc now nom tel message produit))
  = Lead.notes (Lead.new_doc now nom tel message produit).
Proof. reflexivity. Qed.




(** ** Statistics *)

Lemma countDocuments_size {A} (f : nat * A -> bool) (c : gmap nat A) :
  Mongo.countDocuments f c = Z.of_nat (size (filter (fun d => f d = true) c)).
Proof.
  unfold Mongo.countDocuments, Mongo.find. f_equal.
  rewrite <- length_map_to_list, map_filter_alt.
  rewrite map_to_list_to_map.
  - induction (map_to_list c) as [| d ds IH]; [reflexivity |].
    rewrite !filter_cons.
    destruct (decide (Is_true (f d))) as [H1 | H1], (decide (f d = true)) as [H2 | H2].
    + cbn. rewrite IH. reflexivity.
    + exfalso. apply H2, Is_true_true, H1.
    + exfalso. apply H1, Is_true_true, H2.
    + exact IH.
  - apply NoDup_fmap_fst.
    + intros i x y Hx Hy.
      apply list_elem_of_filter in Hx as [_ Hx]. apply list_elem_of_filter in Hy as [_ Hy].
      apply elem_of_map_to_list in Hx. apply elem_of_map_to_list in Hy. congruence.
    + apply NoDup_filter, NoDup_map_to_list.
Qed.

Lemma find_length_mono {A} (f g : nat * A -> bool) (c : gmap nat A) :
  (forall d, f d = true -> g d = true) ->
  (length (Mongo.find f c) <= length (Mongo.find g c))%nat.
Proof.
  intros Hfg. unfold Mongo.find.
  induction (map_to_list c) as [| d ds IH]; [reflexivity |].
  rewrite !filter_cons.
  destruct (decide (Is_true (f d))) as [H1 | H1], (decide (Is_true (g d))) as [H2 | H2];
    cbn; try lia.
  exfalso. apply H2, Is_true_true, Hfg, Is_true_true, H1.
Qed.




(** ** Archiving *)

Lemma bump_sum {K} `{EqDecision K} (k : K) (groups : list (K * Z)) :
  foldr Z.add 0 (List.map snd (Mongo.bump k groups))
  = foldr Z.add 0 (List.map snd groups) + 1.
Proof.
  induction groups as [| [k' n] rest IH]; cbn; [reflexivity |].
  destruct (decide (k = k')); cbn; [lia | rewrite IH; lia].
Qed.

Lemma groupCount_sum {K} `{EqDecision K} (keys : list K) :
  foldr Z.add 0 (List.map snd (Mongo.groupCount keys)) = Z.of_nat (length keys).
Proof.
  unfold Mongo.groupCount.
  assert (Hgen : forall acc,
             foldr Z.add 0 (List.map snd (foldl (fun groups k => Mongo.bump k groups) acc keys))
             = foldr Z.add 0 (List.map snd acc) + Z.of_nat (length keys)).
  { induction keys as [| k keys IH]; intros acc; cbn [foldl length].
    - lia.
    - rewrite IH, bump_sum. lia. }
  rewrite Hgen. reflexivity.
Qed.

(** The counts by status of [getStats] add up to the number of all the
    leads of the collection, whether archived or not, whereas the
    conversion total counts those that are not archived. *)
Lemma getStats_counts_every_lead (now : Z) (s : LeadController.Store) :
  exists st,
    Response.data (LeadController.getLeadStats now s) = Some st
    /\ foldr Z.add 0 (List.map snd (LeadController.byStatus st))
       = Z.of_nat (size (LeadController.leads s))
    /\ LeadController.total (LeadController.conversion st)
       = Z.of_nat (size (filter (fun d : nat * Lead.t => Lead.isArchived d.2 = false)
                           (LeadController.leads s))).
Proof.
  eexists. split; [reflexivity |]. cbn [LeadController.byStatus LeadController.conversion
                                        LeadController.total].
  split.
  - unfold Lead.getStats. rewrite groupCount_sum, length_map, length_map_to_list.
    reflexivity.
  - unfold LeadController.totalLeads. rewrite countDocuments_size. do 2 f_equal.
    apply map_filter_ext. intros i l _. cbn. rewrite negb_true_iff. reflexivity.
Qed.

(** C7 at a concrete store: after [deleteLead] archived lead 3 of three
    leads, the lead has its flag set, is still answered by [getLeadById], is
    left out of the default listing, of the trailing-30-day counts, of the
    top-products ranking, of the leads needing follow-up and of the
    conversion totals; but the count by status still counts it, [getStats]
    having no [isArchived] filter. *)
Theorem C7_archived_lead_counted_by_status :
  let s := (LeadController.deleteLead 1700000400000 3 Sample.store).2 in
  Lead.isArchived <$> (LeadController.leads s !! 3%nat) = Some true
  /\ Response.statusCode (LeadController.getLeadById 1700000400000 3 s) = 200
  /\ (fst <$> Response.data (LeadController.getLeadById 1700000400000 3 s)) = Some 3%nat
  /\ (List.map fst <$>
        Response.data (LeadController.getAllLeads Sample.anyMatch 1700000400000
                         Sample.lqDefault s))
     = Some [2%nat; 1%nat]
  /\ exists st,
       Response.data (LeadController.getLeadStats 1700000400000 s) = Some st
       /\ LeadController.recentActivity st = [("2023-11-14", 2)]
       /\ List.map (fun t => (LeadController.top_id t, LeadController.top_count t))
            (LeadController.topProducts st) = [(1%nat, 2)]
       /\ LeadController.total (LeadController.conversion st) = 2
       /\ LeadController.byStatus st = [(Lead.nouveau, 3)].
Proof.
  cbv zeta. repeat split; try (vm_compute; reflexivity).
  eexists. split; [reflexivity |]. repeat split; vm_compute; reflexivity.
Qed.

(** ** Stock adjustment *)

Lemma validate_stock_nil (p : Product.t) :
  Product.validate_stock p = [] <-> 0 <= Product.stock p.
Proof.
  unfold Product.validate_stock.
  destruct (Z.ltb_spec (Product.stock p) 0); split; intros; try lia; try reflexivity.
  discriminate.
Qed.

Lemma pre_save_stock (p : Product.t) : Product.stock (Product.pre_save p) = Product.stock p.
Proof. unfold Product.pre_save. destruct (Product.images p); reflexivity. Qed.






(** C9. Whatever the quantity and the operation, [updateStock] never
    stores or answers a negative stock: the answer of a success carries a
    stock that is not negative, the store is either left as it was or
    differs at the product alone, whose new stock is not negative; so a
    catalogue without negative stocks stays one. *)
Theorem C9_stock_never_negative (now : Z) (id : nat) (body : ProductController.StockBody)
    (products : gmap nat Product.t) :
  let r := ProductController.updateStock now id body products in
  (forall info, Response.data r.1 = Some info -> 0 <= ProductController.info_stock info)
  /\ (r.2 = products
      \/ exists p', r.2 = <[id := p']> products /\ 0 <= Product.stock p')
  /\ ((forall i p, products !! i = Some p -> 0 <= Product.stock p) ->
      forall i p, r.2 !! i = Some p -> 0 <= Product.stock p).
Proof.
  intros r.
  assert (Hcases :
            (r.2 = products /\ Response.data r.1 = None)
            \/ exists p', r.2 = <[id := p']> products /\ 0 <= Product.stock p'
                          /\ ProductController.info_stock <$> Response.data r.1
                             = Some (Product.stock p')).
  { subst r. unfold ProductController.updateStock.
    destruct (ProductController.quantity body) as [| | b | q | str]; try (left; split; reflexivity).
    destruct (products !! id) as [p |]; [| left; split; reflexivity].
    unfold Product.save.
    destruct (Product.validate_stock _) as [| e errs] eqn:E; [| left; split; reflexivity].
    right.
    exists (Product.pre_save
              (Product.set_stock
                 (ProductController.assignedStock (ProductController.operation body)
                    (Product.stock p) q) p)).
    split; [reflexivity |]. rewrite pre_save_stock.
    split; [apply validate_stock_nil; exact E |].
    reflexivity. }
  split; [| split].
  - intros info Hinfo. destruct Hcases as [[_ Hnone] | (p' & _ & Hp' & Hdata)].
    + rewrite Hnone in Hinfo. discriminate.
    + rewrite Hinfo in Hdata. cbn in Hdata. injection Hdata as ->. exact Hp'.
  - destruct Hcases as [[Hsame _] | (p' & Hstore & Hp' & _)]; [left; exact Hsame |].
    right. exists p'. split; assumption.
  - intros Hinv i p Hi. destruct Hcases as [[Hsame _] | (p' & Hstore & Hp' & _)].
    + rewrite Hsame in Hi. apply (Hinv i p Hi).
    + rewrite Hstore in Hi. destruct (decide (id = i)) as [-> | Hne].
      * rewrite lookup_insert_eq in Hi. injection Hi as <-. exact Hp'.
      * rewrite lookup_insert_ne in Hi by exact Hne. apply (Hinv i p Hi).
Qed.

Lemma C9_stock_never_negative_witness :
  (forall i p, Sample.products !! i = Some p -> 0 <= Product.stock p)
  /\ (forall i p,
        (ProductController.updateStock 1700000400000 1
           (Sample.stockBody (ProductController.JNumber 1000000) "subtract")
           Sample.products).2 !! i = Some p ->
        0 <= Product.stock p)
  /\ (forall i p,
        (ProductController.updateStock 1700000400000 1
           (Sample.stockBody (ProductController.JNumber (-1000000)) "add")
           Sample.products).2 !! i = Some p ->
        0 <= Product.stock p).
Proof.
  assert (Hinv : forall i p, Sample.products !! i = Some p -> 0 <= Product.stock p).
  { intros i p Hi. unfold Sample.products in Hi.
    destruct (decide (i = 2%nat)) as [-> | H2].
    - rewrite lookup_insert_eq in Hi. injection Hi as <-. cbn. lia.
    - rewrite lookup_insert_ne in Hi by congruence.
      destruct (decide (i = 1%nat)) as [-> | H1].
      + rewrite lookup_insert_eq in Hi. injection Hi as <-. cbn. lia.
      + rewrite lookup_insert_ne in Hi by congruence. rewrite lookup_empty in Hi.
        discriminate. }
  split; [exact Hinv |]. split.
  - apply (C9_stock_never_negative 1700000400000 1
             (Sample.stockBody (ProductController.JNumber 1000000) "subtract")
             Sample.products). exact Hinv.
  - apply (C9_stock_never_negative 1700000400000 1
             (Sample.stockBody (ProductController.JNumber (-1000000)) "add")
             Sample.products). exact Hinv.
Defined.

Example updateStock_subtract :
  ProductController.info_stock <$>
    Response.data
      (ProductController.updateStock 1700000400000 1
         (Sample.stockBody (ProductController.JNumber 5) "subtract") Sample.products).1
  = Some 0.
Proof. vm_compute. reflexivity. Qed.

(** * Further properties of the catalogue, the lead life cycle and access control *)

Example split_ex :
  Js.split " " "Bearer abc" = ["Bearer"; "abc"]
  /\ Js.split " " "Bearer " = ["Bearer"; ""]
  /\ Js.split " " "" = [""]
  /\ Js.split " " "a  b" = ["a"; ""; "b"].
Proof. repeat split; reflexivity. Qed.

Example encodeURIComponent_ex :
  Js.encodeURIComponent ("caf" +:+ Js.e_acute +:+ " & th" +:+ Js.e_acute +:+ "(s)?")
  = "caf%C3%A9%20%26%20th%C3%A9(s)%3F".
Proof. vm_compute. reflexivity. Qed.

Example formattedTel_ex :
  Lead.formattedTel (Sample.lead "Aline" 0) = "+243812345678"
  /\ Lead.whatsappLink (Some Sample.phone) (Sample.lead "Aline" 0)
     = "https://wa.me/243812345678?text=Bonjour%2C%20je%20suis%20int%C3%A9ress%C3%A9(e)%20par%20votre%20Smartphone%20Samsung%20Galaxy%20A24.%20".
Proof. vm_compute. split; reflexivity. Qed.

(** ** Stock status and the two stock updates *)







(** ** Product detail, soft delete and hard delete *)

Lemma getProductById_active (now : Z) (id : nat) (p : Product.t)
    (products : gmap nat Product.t) :
  products !! id = Some p ->
  Product.isActive p = true ->
  ProductController.getProductById now id products
  = (Response.sendSuccess now 200
       ("Produit r" +:+ Js.e_acute +:+ "cup" +:+ Js.e_acute +:+ "r" +:+ Js.e_acute
        +:+ " avec succ" +:+ String (ascii_of_nat 232) "s")
       (Some (id, Product.pre_save (Product.set_views (Product.views p + 1) p))) None,
     <[id := Product.pre_save (Product.set_views (Product.views p + 1) p)]> products).
Proof.
  intros Hp Hactive. unfold ProductController.getProductById. rewrite Hp, Hactive.
  reflexivity.
Qed.

Lemma pre_save_fields (p : Product.t) :
  Product.nom (Product.pre_save p) = Product.nom p
  /\ Product.prix (Product.pre_save p) = Product.prix p
  /\ Product.categorie (Product.pre_save p) = Product.categorie p
  /\ Product.stock (Product.pre_save p) = Product.stock p
  /\ Product.description (Product.pre_save p) = Product.description p
  /\ Product.isActive (Product.pre_save p) = Product.isActive p
  /\ Product.featured (Product.pre_save p) = Product.featured p
  /\ Product.views (Product.pre_save p) = Product.views p
  /\ Product.createdBy (Product.pre_save p) = Product.createdBy p
  /\ Product.createdAt (Product.pre_save p) = Product.createdAt p
  /\ (Product.images p <> [] -> Product.pre_save p = p)
  /\ Product.images (Product.pre_save p) <> [].
Proof.
  unfold Product.pre_save. destruct (Product.images p) eqn:E; cbn; rewrite ?E;
    repeat split; congruence.
Qed.

(** X3. A detail fetch of an active product always succeeds, whatever the
    other fields hold (the save skips validation), and adds exactly 1 to
    its view counter, leaving its name, price, category, stock, flags and
    the other products as they were; [n] fetches add [n]. A missing
    product and an inactive one are both answered 404, with different
    messages, and count nothing. *)
Theorem X3_getProductById_counts_views (now : Z) (id : nat) (products : gmap nat Product.t) :
  let r := ProductController.getProductById now id products in
  (products !! id = None ->
   Response.statusCode r.1 = 404
   /\ Response.message r.1 = "Produit non trouv" +:+ Js.e_acute
   /\ r.2 = products)
  /\ (forall p,
        products !! id = Some p -> Product.isActive p = false ->
        Response.statusCode r.1 = 404
        /\ Response.message r.1 = "Produit non disponible"
        /\ r.2 = products)
  /\ (forall p,
        products !! id = Some p -> Product.isActive p = true ->
        exists p',
          Response.statusCode r.1 = 200
          /\ Response.data r.1 = Some (id, p')
          /\ r.2 = <[id := p']> products
          /\ Product.views p' = Product.views p + 1
          /\ Product.nom p' = Product.nom p
          /\ Product.prix p' = Product.prix p
          /\ Product.categorie p' = Product.categorie p
          /\ Product.stock p' = Product.stock p
          /\ Product.isActive p' = true
          /\ Product.featured p' = Product.featured p
          /\ (forall (n : nat) (times : nat -> Z),
                Product.views <$>
                  (fold_right
                     (fun k c => (ProductController.getProductById (times k) id c).2)
                     products (seq 0 n) !! id)
                = Some (Product.views p + Z.of_nat n))).
Proof.
  intros r. subst r. repeat apply conj.
  - intros Hnone. unfold ProductController.getProductById. rewrite Hnone. repeat split.
  - intros p Hp Hactive. unfold ProductController.getProductById. rewrite Hp, Hactive.
    repeat split.
  - intros p Hp Hactive. rewrite (getProductById_active now id p products Hp Hactive).
    eexists. split; [reflexivity |]. split; [reflexivity |]. split; [reflexivity |].
    destruct (pre_save_fields (Product.set_views (Product.views p + 1) p))
      as (Hnom & Hprix & Hcat & Hstock & _ & Hact & Hfeat & Hviews & _).
    rewrite Hnom, Hprix, Hcat, Hstock, Hact, Hfeat, Hviews. cbn.
    repeat split; try assumption.
    intros n times.
    assert (Hgen : forall ks : list nat,
               exists q,
                 fold_right (fun k c => (ProductController.getProductById (times k) id c).2)
                   products ks !! id = Some q
                 /\ Product.isActive q = true
                 /\ Product.views q = Product.views p + Z.of_nat (length ks)).
    { induction ks as [| k ks IH]; cbn [fold_right length].
      - exists p. repeat split; [assumption | assumption | lia].
      - destruct IH as (q & Hq & Hqa & Hqv).
        rewrite (getProductById_active (times k) id q _ Hq Hqa). cbn [snd].
        rewrite lookup_insert_eq. eexists. split; [reflexivity |].
        destruct (pre_save_fields (Product.set_views (Product.views q + 1) q))
          as (_ & _ & _ & _ & _ & Hact' & _ & Hviews' & _).
        rewrite Hact', Hviews'. cbn. split; [assumption | lia]. }
    destruct (Hgen (seq 0 n)) as (q & Hq & _ & Hqv).
    rewrite Hq. cbn. rewrite Hqv, length_seq. reflexivity.
Qed.

Lemma X3_getProductById_counts_views_witness :
  Sample.products !! 7%nat = None
  /\ Sample.products !! 2%nat = Some Sample.robe
  /\ Product.isActive Sample.robe = false
  /\ Sample.products !! 1%nat = Some Sample.phone
  /\ Product.isActive Sample.phone = true
  /\ Response.statusCode (ProductController.getProductById 1700000400000 7 Sample.products).1
     = 404
  /\ (ProductController.getProductById 1700000400000 2 Sample.products).2 = Sample.products
  /\ Product.views <$>
       (fold_right
          (fun k c => (ProductController.getProductById (1700000400000 + Z.of_nat k) 1 c).2)
          Sample.products (seq 0 3) !! 1%nat)
     = Some 3.
Proof.
  split; [reflexivity |]. split; [reflexivity |]. split; [reflexivity |].
  split; [reflexivity |]. split; [reflexivity |].
  split.
  { apply (X3_getProductById_counts_views 1700000400000 7 Sample.products). reflexivity. }
  split.
  { eapply (X3_getProductById_counts_views 1700000400000 2 Sample.products); reflexivity. }
  destruct (X3_getProductById_counts_views 1700000400000 1 Sample.products)
    as (_ & _ & Hactive).
  destruct (Hactive Sample.phone eq_refl eq_refl) as (p' & _ & _ & _ & _ & _ & _ & _ & _ & _ & _ & Hn).
  apply (Hn 3%nat (fun k => 1700000400000 + Z.of_nat k)).
Defined.





(** X5. The hard delete removes the product and nothing else. A second
    hard delete, a detail fetch and a new lead against it are answered
    404; the leads that refer to it stay, and the export shows them with
    the product ["N/A"] at price 0. *)
Theorem X5_permanentDeleteProduct (now : Z) (id : nat) (p : Product.t)
    (products : gmap nat Product.t) :
  products !! id = Some p ->
  let r := ProductController.permanentDeleteProduct now id products in
  Response.statusCode r.1 = 200
  /\ r.2 !! id = None
  /\ (forall j, j <> id -> r.2 !! j = products !! j)
  /\ (forall later,
        Response.statusCode (ProductController.permanentDeleteProduct later id r.2).1 = 404
        /\ (ProductController.permanentDeleteProduct later id r.2).2 = r.2)
  /\ (forall later,
        Response.statusCode (ProductController.getProductById later id r.2).1 = 404)
  /\ (forall later body leads,
        LeadController.body_produit body = id ->
        let s := {| LeadController.products := r.2; LeadController.leads := leads |} in
        Response.statusCode (LeadController.createLead later body s).1 = 404
        /\ (LeadController.createLead later body s).2 = s)
  /\ (forall later users leads d,
        Lead.produit d.2 = id ->
        let s := {| LeadController.products := r.2; LeadController.leads := leads |} in
        LeadController.csv_Produit (LeadController.csvRow later users s d) = "N/A"
        /\ LeadController.csv_Prix (LeadController.csvRow later users s d) = 0).
Proof.
  intros Hp r. subst r. unfold ProductController.permanentDeleteProduct at 1 2 3.
  rewrite Hp. cbn [fst snd].
  assert (Hgone : delete id products !! id = None) by apply lookup_delete_eq.
  split; [reflexivity |]. split; [exact Hgone |].
  split; [intros j Hj; apply lookup_delete_ne; congruence |].
  unfold ProductController.permanentDeleteProduct. rewrite Hp. cbn [snd].
  split; [intros later; rewrite Hgone; split; reflexivity |].
  split; [intros later; unfold ProductController.getProductById; rewrite Hgone; reflexivity |].
  split.
  - intros later body leads Hbody. cbv zeta. unfold LeadController.createLead.
    cbn [LeadController.products]. rewrite Hbody, Hgone. split; reflexivity.
  - intros later users leads d Hd. cbv zeta. unfold LeadController.csvRow.
    cbn [LeadController.csv_Produit LeadController.csv_Prix LeadController.products].
    rewrite Hd, Hgone. split; reflexivity.
Qed.

Lemma X5_permanentDeleteProduct_witness :
  Sample.products !! 1%nat = Some Sample.phone
  /\ (ProductController.permanentDeleteProduct 1700000400000 1 Sample.products).2 !! 1%nat
     = None
  /\ (ProductController.permanentDeleteProduct 1700000400000 1 Sample.products).2 !! 2%nat
     = Some Sample.robe.
Proof.
  split; [reflexivity |].
  destruct (X5_permanentDeleteProduct 1700000400000 1 Sample.phone Sample.products eq_refl)
    as (_ & Hgone & Hothers & _).
  split; [exact Hgone |]. rewrite Hothers by discriminate. reflexivity.
Defined.

(** ** Grouping *)

Lemma countFor_bump {K} `{EqDecision K} (k k' : K) (groups : list (K * Z)) :
  countFor k (Mongo.bump k' groups)
  = countFor k groups + (if decide (k' = k) then 1 else 0).
Proof.
  unfold countFor. induction groups as [| [k0 n0] rest IH]; cbn.
  - destruct (decide (k' = k)); lia.
  - destruct (decide (k' = k0)) as [-> | Hne]; cbn.
    + destruct (decide (k0 = k)); lia.
    + rewrite IH. destruct (decide (k0 = k)); lia.
Qed.

Lemma countFor_groupCount {K} `{EqDecision K} (k : K) (keys : list K) :
  countFor k (Mongo.groupCount keys)
  = Z.of_nat (length (filter (fun x => x = k) keys)).
Proof.
  unfold Mongo.groupCount.
  assert (Hgen : forall acc,
             countFor k (foldl (fun groups x => Mongo.bump x groups) acc keys)
             = countFor k acc + Z.of_nat (length (filter (fun x => x = k) keys))).
  { induction keys as [| x keys IH]; intros acc; cbn [foldl].
    - cbn. lia.
    - rewrite IH, countFor_bump, filter_cons.
      destruct (decide (x = k)); cbn [length]; lia. }
  rewrite Hgen. reflexivity.
Qed.

Lemma bump_keys {K} `{EqDecision K} (k x : K) (groups : list (K * Z)) :
  x ∈ (Mongo.bump k groups).*1 <-> x = k \/ x ∈ groups.*1.
Proof.
  induction groups as [| [k0 n0] rest IH]; cbn.
  - rewrite elem_of_cons, elem_of_nil. tauto.
  - destruct (decide (k = k0)) as [-> | Hne]; cbn; rewrite !elem_of_cons; [tauto |].
    rewrite IH. tauto.
Qed.

Lemma bump_NoDup {K} `{EqDecision K} (k : K) (groups : list (K * Z)) :
  NoDup groups.*1 -> NoDup (Mongo.bump k groups).*1.
Proof.
  induction groups as [| [k0 n0] rest IH]; cbn; intros Hnd.
  - apply NoDup_singleton.
  - apply NoDup_cons in Hnd as [Hnotin Hnd].
    destruct (decide (k = k0)) as [-> | Hne]; cbn; apply NoDup_cons.
    + split; assumption.
    + split; [| apply IH; exact Hnd].
      rewrite bump_keys. intros [Heq | Hin]; [congruence | contradiction].
Qed.

Lemma bump_positive {K} `{EqDecision K} (k : K) (groups : list (K * Z)) :
  Forall (fun g => 1 <= g.2) groups -> Forall (fun g => 1 <= g.2) (Mongo.bump k groups).
Proof.
  induction groups as [| [k0 n0] rest IH]; cbn; intros Hpos.
  - constructor; [cbn; lia | constructor].
  - apply Forall_cons in Hpos as [H0 Hpos]. cbn in H0.
    destruct (decide (k = k0)); constructor; cbn; try lia; auto.
Qed.

Lemma groupCount_invariants {K} `{EqDecision K} (keys : list K) :
  NoDup (Mongo.groupCount keys).*1
  /\ Forall (fun g => 1 <= g.2) (Mongo.groupCount keys)
  /\ (forall x, x ∈ (Mongo.groupCount keys).*1 <-> x ∈ keys).
Proof.
  unfold Mongo.groupCount.
  assert (Hgen : forall acc,
             NoDup acc.*1 -> Forall (fun g => 1 <= g.2) acc ->
             NoDup (foldl (fun groups x => Mongo.bump x groups) acc keys).*1
             /\ Forall (fun g => 1 <= g.2)
                  (foldl (fun groups x => Mongo.bump x groups) acc keys)
             /\ (forall x, x ∈ (foldl (fun groups x => Mongo.bump x groups) acc keys).*1
                           <-> x ∈ acc.*1 \/ x ∈ keys)).
  { induction keys as [| k keys IH]; intros acc Hnd Hpos; cbn [foldl].
    - split; [exact Hnd |]. split; [exact Hpos |]. intros x. rewrite elem_of_nil. tauto.
    - destruct (IH (Mongo.bump k acc) (bump_NoDup k acc Hnd) (bump_positive k acc Hpos))
        as (H1 & H2 & H3).
      split; [exact H1 |]. split; [exact H2 |].
      intros x. rewrite H3, bump_keys, elem_of_cons. tauto. }
  destruct (Hgen [] (NoDup_nil_2) (Forall_nil_2 _)) as (H1 & H2 & H3).
  split; [exact H1 |]. split; [exact H2 |].
  intros x. rewrite H3. cbn. rewrite elem_of_nil. tauto.
Qed.

Lemma countFor_notin {K} `{EqDecision K} (k : K) (groups : list (K * Z)) :
  k ∉ groups.*1 -> countFor k groups = 0.
Proof.
  unfold countFor. induction groups as [| [k0 n0] rest IH]; cbn; [reflexivity |].
  rewrite not_elem_of_cons. intros [Hne Hnotin].
  destruct (decide (k0 = k)); [congruence | auto].
Qed.

Lemma countFor_elem {K} `{EqDecision K} (k : K) (n : Z) (groups : list (K * Z)) :
  NoDup groups.*1 -> (k, n) ∈ groups -> countFor k groups = n.
Proof.
  induction groups as [| [k0 n0] rest IH]; intros Hnd Hin.
  - apply elem_of_nil in Hin. contradiction.
  - cbn in Hnd. apply NoDup_cons in Hnd as [Hnotin Hnd].
    change (countFor k ((k0, n0) :: rest))
      with (if decide (k0 = k) then n0 + countFor k rest else countFor k rest).
    apply elem_of_cons in Hin as [[= <- <-] | Hin].
    + rewrite decide_True by reflexivity. rewrite (countFor_notin k rest Hnotin). lia.
    + assert (Hne : k0 <> k).
      { intros ->. apply Hnotin. apply (list_elem_of_fmap_2 fst) in Hin. exact Hin. }
      rewrite decide_False by exact Hne. auto.
Qed.

(** In the groups of a [$group] with a count, every key appears once,
    with the number of documents of the pipeline that have it. *)
Lemma groupCount_elem {K} `{EqDecision K} (k : K) (n : Z) (keys : list K) :
  (k, n) ∈ Mongo.groupCount keys ->
  n = Z.of_nat (length (filter (fun x => x = k) keys)) /\ 1 <= n.
Proof.
  intros Hin. destruct (groupCount_invariants keys) as (Hnd & Hpos & _).
  split.
  - rewrite <- countFor_groupCount. symmetry. apply countFor_elem; assumption.
  - rewrite Forall_forall in Hpos. apply (Hpos (k, n) Hin).
Qed.

Lemma filter_map_length {A B} `{EqDecision B} (f : A -> B) (k : B) (l : list A) :
  length (filter (fun x => x = k) (List.map f l))
  = length (filter (fun a => f a = k) l).
Proof.
  induction l as [| a l IH]; [reflexivity |].
  cbn [List.map]. rewrite !filter_cons.
  destruct (decide (f a = k)); cbn [length]; rewrite IH; reflexivity.
Qed.

Lemma find_and_length {A} (f g : nat * A -> bool) (c : gmap nat A) :
  length (filter (fun d => g d = true) (Mongo.find f c))
  = length (Mongo.find (fun d => f d && g d) c).
Proof.
  unfold Mongo.find. induction (map_to_list c) as [| d ds IH]; [reflexivity |].
  rewrite (filter_cons (fun d => Is_true (f d))), (filter_cons (fun d => Is_true (f d && g d))).
  destruct (decide (Is_true (f d))) as [Hf | Hf];
    destruct (decide (Is_true (f d && g d))) as [Hfg | Hfg];
    rewrite ?filter_cons; try destruct (decide (g d = true)) as [Hg | Hg]; cbn [length];
    try (rewrite IH; reflexivity); try exact IH; exfalso;
    rewrite Is_true_true in Hf; rewrite Is_true_true in Hfg;
    destruct (f d), (g d); cbn in *; intuition congruence.
Qed.

(** ** Category statistics *)

Lemma count_desc_transitive {K} :
  Transitive (fun a b : K * Z => Is_true (b.2 <=? a.2)).
Proof.
  intros a b c Hab Hbc. apply Is_true_true in Hab, Hbc. apply Is_true_true.
  apply Z.leb_le in Hab, Hbc. apply Z.leb_le. lia.
Qed.

Lemma count_desc_total {K} : Total (fun a b : K * Z => Is_true (b.2 <=? a.2)).
Proof.
  intros a b. destruct (Z.le_ge_cases b.2 a.2) as [H | H]; [left | right];
    apply Is_true_true, Z.leb_le; exact H.
Qed.

(** X6. [getCategoriesStats] lists every category that has an active
    product once, with the number of active products of that category (at
    least 1), the larger counts first; the counts add up to the number of
    active products, so that inactive products are never counted. *)
Theorem X6_getCategoriesStats (now : Z) (products : gmap nat Product.t) :
  exists categories,
    Response.data (ProductController.getCategoriesStats now products) = Some categories
    /\ Response.statusCode (ProductController.getCategoriesStats now products) = 200
    /\ NoDup (List.map ProductController.cat_name categories)
    /\ (forall c,
          c ∈ categories ->
          1 <= ProductController.cat_count c
          /\ ProductController.cat_count c
             = Mongo.countDocuments
                 (fun d => Product.isActive d.2
                           && bool_decide (Product.categorie d.2 = ProductController.cat_name c))
                 products)
    /\ (forall id p,
          products !! id = Some p -> Product.isActive p = true ->
          Product.categorie p ∈ List.map ProductController.cat_name categories)
    /\ StronglySorted (fun x y => y <= x) (List.map ProductController.cat_count categories)
    /\ foldr Z.add 0 (List.map ProductController.cat_count categories)
       = Mongo.countDocuments (fun d => Product.isActive d.2) products.
Proof.
  eexists. split; [reflexivity |]. split; [reflexivity |].
  set (active := Mongo.find (fun d => Product.isActive d.2) products).
  set (keys := List.map (fun d : nat * Product.t => Product.categorie d.2) active).
  set (groups := Mongo.groupCount keys).
  set (stats := merge_sort (fun a b : string * Z => b.2 <=? a.2) groups).
  assert (Hstats : ProductController.categoriesPipeline products = stats) by reflexivity.
  rewrite Hstats.
  assert (Hperm : stats ≡ₚ groups) by apply merge_sort_Permutation.
  destruct (groupCount_invariants keys) as (Hnd & _ & Hkeys). fold groups in Hnd, Hkeys.
  assert (Hnames : List.map ProductController.cat_name
                     (List.map (fun stat : string * Z =>
                                  {| ProductController.cat_name := stat.1;
                                     ProductController.cat_count := stat.2 |}) stats)
                   = stats.*1).
  { clear. induction stats as [| x xs IH]; cbn; [reflexivity | rewrite IH; reflexivity]. }
  assert (Hcounts : List.map ProductController.cat_count
                      (List.map (fun stat : string * Z =>
                                   {| ProductController.cat_name := stat.1;
                                      ProductController.cat_count := stat.2 |}) stats)
                    = stats.*2).
  { clear. induction stats as [| x xs IH]; cbn; [reflexivity | rewrite IH; reflexivity]. }
  rewrite Hnames, Hcounts.
  split; [rewrite Hperm; exact Hnd |].
  split.
  { intros c Hc. apply list_elem_of_In, in_map_iff in Hc as ([k n] & <- & Hin).
    apply list_elem_of_In in Hin. rewrite Hperm in Hin. cbn.
    apply groupCount_elem in Hin as [Hn Hpos]. split; [exact Hpos |].
    rewrite Hn. unfold keys. rewrite filter_map_length.
    unfold Mongo.countDocuments. f_equal.
    rewrite <- (find_and_length (fun d => Product.isActive d.2)
                  (fun d => bool_decide (Product.categorie d.2 = k))).
    fold active. f_equal. apply list_filter_iff. intros d.
    rewrite bool_decide_eq_true. reflexivity. }
  split.
  { intros id p Hp Hactive. rewrite Hperm. apply Hkeys. unfold keys.
    apply list_elem_of_In, in_map_iff. exists (id, p). split; [reflexivity |].
    apply list_elem_of_In. unfold active. apply elem_of_find. auto. }
  split.
  { apply (StronglySorted_fmap snd (fun a b : string * Z => Is_true (b.2 <=? a.2))).
    - intros a b Hab. apply Is_true_true, Z.leb_le in Hab. exact Hab.
    - apply StronglySorted_merge_sort; [apply count_desc_transitive | apply count_desc_total]. }
  transitivity (foldr Z.add 0 groups.*2).
  { clear -Hperm. induction Hperm; cbn; try lia. }
  unfold groups. change ((Mongo.groupCount keys).*2) with (List.map snd (Mongo.groupCount keys)).
  rewrite groupCount_sum. unfold keys. rewrite length_map. reflexivity.
Qed.

Lemma X6_getCategoriesStats_witness :
  Sample.products !! 1%nat = Some Sample.phone
  /\ Product.isActive Sample.phone = true
  /\ exists categories,
       Response.data (ProductController.getCategoriesStats 1700000400000 Sample.products)
       = Some categories
       /\ Product.categorie Sample.phone ∈ List.map ProductController.cat_name categories
       /\ foldr Z.add 0 (List.map ProductController.cat_count categories) = 1.
Proof.
  split; [reflexivity |]. split; [reflexivity |].
  destruct (X6_getCategoriesStats 1700000400000 Sample.products)
    as (categories & Hdata & _ & _ & _ & Hin & _ & Hsum).
  exists categories. split; [exact Hdata |].
  split; [apply (Hin 1%nat Sample.phone); reflexivity |].
  rewrite Hsum. vm_compute. reflexivity.
Defined.

(** ** Orders of the listings *)

Lemma newestFirst_transitive :
  Transitive (fun a b : nat * Lead.t => Is_true (LeadController.newestFirst a b)).
Proof.
  intros a b c Hab Hbc. unfold LeadController.newestFirst in *.
  apply Is_true_true, Z.leb_le in Hab. apply Is_true_true, Z.leb_le in Hbc.
  apply Is_true_true, Z.leb_le. lia.
Qed.

Lemma newestFirst_total :
  Total (fun a b : nat * Lead.t => Is_true (LeadController.newestFirst a b)).
Proof.
  intros a b. unfold LeadController.newestFirst.
  destruct (Z.le_ge_cases (Lead.createdAt b.2) (Lead.createdAt a.2)); [left | right];
    apply Is_true_true, Z.leb_le; assumption.
Qed.




(** A page cut out of a sorted list is sorted, and holds only documents
    that match the filter. *)
Lemma find_sort_limit_skip_sorted {A} (filter : nat * A -> bool)
    (le : nat * A -> nat * A -> bool) (l s : Z) (c : gmap nat A) :
  Transitive (fun a b => Is_true (le a b)) ->
  Total (fun a b => Is_true (le a b)) ->
  StronglySorted (fun a b => Is_true (le a b)) (Mongo.find_sort_limit_skip filter le l s c)
  /\ NoDup (Mongo.find_sort_limit_skip filter le l s c)
  /\ (forall id d,
        (id, d) ∈ Mongo.find_sort_limit_skip filter le l s c ->
        c !! id = Some d /\ filter (id, d) = true).
Proof.
  intros Htrans Htotal. unfold Mongo.find_sort_limit_skip, Mongo.limit, Mongo.skip.
  set (sorted := merge_sort (fun a b => le a b) (Mongo.find filter c)).
  assert (Hsorted : StronglySorted (fun a b => Is_true (le a b)) sorted)
    by (apply StronglySorted_merge_sort; assumption).
  assert (Hperm : sorted ≡ₚ Mongo.find filter c) by apply merge_sort_Permutation.
  assert (Hnd : NoDup sorted).
  { rewrite Hperm. unfold Mongo.find. apply NoDup_filter, NoDup_map_to_list. }
  assert (Hdrop : forall k, StronglySorted (fun a b => Is_true (le a b)) (drop k sorted)).
  { intros k. rewrite <- (take_drop k sorted) in Hsorted.
    apply StronglySorted_app_1_r in Hsorted. exact Hsorted. }
  assert (Hin : forall x, x ∈ sorted -> x ∈ Mongo.find filter c).
  { intros x Hx. rewrite <- Hperm. exact Hx. }
  assert (Hpage : forall page : list (nat * A),
             page `sublist_of` sorted ->
             NoDup page /\ forall id d, (id, d) ∈ page -> c !! id = Some d /\ filter (id, d) = true).
  { intros page Hsub. split; [apply (sublist_NoDup _ _ Hnd Hsub) |].
    intros id d Hd. apply elem_of_find, Hin. apply (elem_of_sublist _ _ _ Hd Hsub). }
  destruct (l =? 0).
  - split; [apply Hdrop |]. apply Hpage, sublist_drop.
  - split.
    + specialize (Hdrop (Z.to_nat s)).
      rewrite <- (take_drop (Z.to_nat l) (drop (Z.to_nat s) sorted)) in Hdrop.
      apply StronglySorted_app_1_l in Hdrop. exact Hdrop.
    + apply Hpage. etransitivity; [apply sublist_take | apply sublist_drop].
Qed.

Lemma StronglySorted_weaken {A} (R1 R2 : relation A) (l : list A) :
  (forall a b, R1 a b -> R2 a b) -> StronglySorted R1 l -> StronglySorted R2 l.
Proof.
  intros Himpl Hsorted. induction Hsorted as [| a l Hl IH Hall]; constructor.
  - exact IH.
  - eapply Forall_impl; [exact Hall | intros b; apply Himpl].
Qed.


(** ** Product search *)



(** ** The lead listings *)

Lemma newestFirst_spec (a b : nat * Lead.t) :
  Is_true (LeadController.newestFirst a b) -> Lead.createdAt b.2 <= Lead.createdAt a.2.
Proof. unfold LeadController.newestFirst. intros H. apply Is_true_true, Z.leb_le in H. exact H. Qed.



Lemma myMatches_spec (user : nat) (q : LeadController.MyLeadsQuery) (d : nat * Lead.t) :
  LeadController.myMatches user q d = true ->
  Lead.assignedTo d.2 = Some user
  /\ Lead.isArchived d.2 = false
  /\ (forall st, LeadController.my_status q = Some st -> st <> "" ->
                 Lead.status_name (Lead.status d.2) = st).
Proof.
  unfold LeadController.myMatches. intros H.
  apply andb_true_iff in H as [H Hst]. apply andb_true_iff in H as [Hu Ha].
  apply bool_decide_eq_true in Hu. apply negb_true_iff in Ha.
  split; [exact Hu |]. split; [exact Ha |].
  intros st Hq Hne. rewrite Hq in Hst. cbn [Validation.given] in Hst.
  apply truthy_true in Hne. rewrite Hne in Hst.
  apply bool_decide_eq_true in Hst. congruence.
Qed.

(** X9. On the route [GET /api/leads/my-leads] a request is answered with
    leads only when its header carries a token whose user is stored and
    active; the leads returned are then stored leads, each once, the newest
    first, all assigned to that very user and none archived. *)
Theorem X9_myLeads_only_own (verifyToken : string -> option nat) (now : Z)
    (authorization : option string) (q : LeadController.MyLeadsQuery)
    (users : gmap nat User.t) (s : LeadController.Store) (docs : list (nat * Lead.t)) :
  Response.data (LeadRoutes.myLeads verifyToken now authorization q users s) = Some docs ->
  exists token id user,
    Jwt.extractTokenFromHeader authorization = Some token
    /\ verifyToken token = Some id
    /\ users !! id = Some user
    /\ User.isActive user = true
    /\ NoDup docs
    /\ StronglySorted
         (fun a b : nat * Lead.t => Lead.createdAt b.2 <= Lead.createdAt a.2) docs
    /\ (forall lid l,
          (lid, l) ∈ docs ->
          LeadController.leads s !! lid = Some l
          /\ Lead.assignedTo l = Some id
          /\ Lead.isArchived l = false).
Proof.
  unfold LeadRoutes.myLeads, Auth.authenticate.
  destruct (Jwt.extractTokenFromHeader authorization) as [token |]; [| discriminate].
  destruct (Js.truthy token); cbn [negb]; [| discriminate].
  destruct (verifyToken token) as [id |] eqn:Hverify; [| discriminate].
  destruct (users !! id) as [user |] eqn:Huser; [| discriminate].
  destruct (User.isActive user) eqn:Hactive; cbn [negb]; [| discriminate].
  cbn [fst].
  destruct (Validation.validatePagination _ _) as [| e errs]; [| discriminate].
  rewrite handleValidationErrors_nil. intros [= <-].
  exists token, id, user. repeat (split; [reflexivity || assumption |]).
  destruct (find_sort_limit_skip_sorted (LeadController.myMatches id q)
              LeadController.newestFirst
              (Validation.numeric 20 (LeadController.my_limit q) * 1)
              ((Validation.numeric 1 (LeadController.my_page q) - 1)
               * Validation.numeric 20 (LeadController.my_limit q))
              (LeadController.leads s) newestFirst_transitive newestFirst_total)
    as (Hsorted & Hnd & Hin).
  split; [exact Hnd |]. split.
  { eapply StronglySorted_weaken; [| exact Hsorted]. intros a b. apply newestFirst_spec. }
  intros lid l Hd. apply Hin in Hd as [Hlookup Hmatch]. split; [exact Hlookup |].
  apply myMatches_spec in Hmatch as (Hu & Ha & _). split; assumption.
Qed.

Lemma X9_myLeads_only_own_witness :
  exists docs,
    Response.data
      (LeadRoutes.myLeads Sample.sampleVerify 1700000500000 (Some "Bearer t2")
         {| LeadController.my_page := Validation.Absent;
            LeadController.my_limit := Validation.Absent;
            LeadController.my_status := None |}
         Sample.users
         (LeadController.assignLead 1700000400000 3 (Some 2%nat) None Sample.store).2)
    = Some docs
    /\ docs <> []
    /\ forall lid l, (lid, l) ∈ docs -> Lead.assignedTo l = Some 2%nat.
Proof.
  destruct (Response.data
      (LeadRoutes.myLeads Sample.sampleVerify 1700000500000 (Some "Bearer t2")
         {| LeadController.my_page := Validation.Absent;
            LeadController.my_limit := Validation.Absent;
            LeadController.my_status := None |}
         Sample.users
         (LeadController.assignLead 1700000400000 3 (Some 2%nat) None Sample.store).2))
    as [docs |] eqn:Hdata; [| vm_compute in Hdata; discriminate].
  exists docs. split; [reflexivity |].
  split; [intros ->; vm_compute in Hdata; discriminate |].
  destruct (X9_myLeads_only_own _ _ _ _ _ _ _ Hdata)
    as (token & id & user & Htoken & Hverify & _ & _ & _ & _ & Hin).
  assert (Hid : id = 2%nat).
  { vm_compute in Htoken. injection Htoken as <-. vm_compute in Hverify. congruence. }
  subst id. intros lid l Hd. apply (Hin lid l Hd).
Defined.

(** ** The lead life cycle *)

Lemma save_cases (id : nat) (l : Lead.t) (c : gmap nat Lead.t) :
  (Lead.validate_notes l <> []
   /\ exists errs, Lead.save id l c = inl (Mongo.ValidationError errs))
  \/ (Lead.validate_notes l = [] /\ Lead.save id l c = inr (l, <[id := l]> c)).
Proof.
  unfold Lead.save. destruct (Lead.validate_notes l) as [| e errs].
  - right. split; reflexivity.
  - left. split; [discriminate | eexists; reflexivity].
Qed.

Lemma errorMiddleware_400 {D} (now : Z) (e : Mongo.Error) :
  Response.statusCode (Server.errorMiddleware (D := D) now e) = 400
  /\ Response.data (Server.errorMiddleware (D := D) now e) = None.
Proof. destruct e. split; reflexivity. Qed.

Lemma assignTo_assign_fields (now : Z) (user : option nat) (notes : option string)
    (l : Lead.t) :
  let l' := Lead.assignTo_assign now user notes l in
  Lead.assignedTo l' = user
  /\ Lead.status l' = Lead.status l
  /\ Lead.followUpDate l' = Lead.followUpDate l
  /\ Lead.isArchived l' = Lead.isArchived l
  /\ sameContact l l'
  /\ (Js.truthy (default "" notes) = false -> Lead.notes l' = Lead.notes l).
Proof.
  unfold Lead.assignTo_assign, sameContact.
  destruct (Js.truthy (default "" notes)); cbn; repeat split; congruence.
Qed.

Lemma updateStatus_assign_fields (now : Z) (st : Lead.Status) (notes : option string)
    (l : Lead.t) :
  let l' := Lead.updateStatus_assign now st notes l in
  Lead.status l' = st
  /\ Lead.assignedTo l' = Lead.assignedTo l
  /\ Lead.followUpDate l' = Lead.followUpDate l
  /\ Lead.isArchived l' = Lead.isArchived l
  /\ sameContact l l'
  /\ (Js.truthy (default "" notes) = false -> Lead.notes l' = Lead.notes l).
Proof.
  unfold Lead.updateStatus_assign, sameContact.
  destruct (Js.truthy (default "" notes)); cbn; repeat split; congruence.
Qed.

Lemma scheduleFollowUp_assign_fields (now : Z) (date : Z) (notes : option string)
    (l : Lead.t) :
  let l' := Lead.scheduleFollowUp_assign now date notes l in
  Lead.followUpDate l' = Some date
  /\ Lead.status l' = Lead.status l
  /\ Lead.assignedTo l' = Lead.assignedTo l
  /\ Lead.isArchived l' = Lead.isArchived l
  /\ sameContact l l'
  /\ (Js.truthy (default "" notes) = false -> Lead.notes l' = Lead.notes l).
Proof.
  unfold Lead.scheduleFollowUp_assign, sameContact.
  destruct (Js.truthy (default "" notes)); cbn; repeat split; congruence.
Qed.

(** X10. A successful [assignLead] of a lead that is not archived moves
    it: the stored lead now names the new user, whoever it named before,
    keeps its status, follow-up date and contact data, is among the leads
    that [getMyLeads] selects for that user and among those of no other
    user; no other lead and no product is touched. *)
Theorem X10_assignLead_moves_lead (now : Z) (id u : nat) (notes : option string)
    (s : LeadController.Store) (l : Lead.t) (q : LeadController.MyLeadsQuery) :
  LeadController.leads s !! id = Some l ->
  Lead.isArchived l = false ->
  Response.statusCode (LeadController.assignLead now id (Some u) notes s).1 = 200 ->
  LeadController.my_status q = None ->
  let s' := (LeadController.assignLead now id (Some u) notes s).2 in
  exists l',
    LeadController.leads s' !! id = Some l'
    /\ Response.data (LeadController.assignLead now id (Some u) notes s).1 = Some (id, l')
    /\ Lead.assignedTo l' = Some u
    /\ Lead.status l' = Lead.status l
    /\ Lead.followUpDate l' = Lead.followUpDate l
    /\ sameContact l l'
    /\ (id, l') ∈ Mongo.find (LeadController.myMatches u q) (LeadController.leads s')
    /\ (forall v l'', v <> u ->
          (id, l'') ∉ Mongo.find (LeadController.myMatches v q) (LeadController.leads s'))
    /\ (forall j, j <> id -> LeadController.leads s' !! j = LeadController.leads s !! j)
    /\ LeadController.products s' = LeadController.products s.
Proof.
  intros Hl Harch Hcode Hq. cbv zeta. revert Hcode.
  unfold LeadController.assignLead. rewrite Hl. unfold Lead.assignTo.
  destruct (save_cases id (Lead.assignTo_assign now (Some u) notes l) (LeadController.leads s))
    as [(_ & errs & ->) | (_ & ->)].
  { cbn. discriminate. }
  intros _.
  cbn [fst snd LeadController.leads LeadController.products LeadController.with_leads
       Response.data Response.sendSuccess].
  rewrite lookup_insert_eq.
  destruct (assignTo_assign_fields now (Some u) notes l)
    as (Huser & Hstatus & Hdate & Harch' & Hsame & _).
  exists (Lead.assignTo_assign now (Some u) notes l).
  split; [reflexivity |]. split; [reflexivity |].
  split; [exact Huser |]. split; [exact Hstatus |]. split; [exact Hdate |].
  split; [exact Hsame |]. split; [| split; [| split; [| reflexivity]]].
  - apply elem_of_find. rewrite lookup_insert_eq. split; [reflexivity |].
    unfold LeadController.myMatches. cbn [snd]. rewrite Huser, Harch', Harch, Hq.
    rewrite bool_decide_eq_true_2 by reflexivity. reflexivity.
  - intros v l'' Hv Hin. apply elem_of_find in Hin as [Hlookup Hmatch].
    rewrite lookup_insert_eq in Hlookup. injection Hlookup as <-.
    apply myMatches_spec in Hmatch as (Hassigned & _). cbn [snd] in Hassigned.
    rewrite Huser in Hassigned. congruence.
  - intros j Hj. apply lookup_insert_ne. congruence.
Qed.

Lemma X10_assignLead_moves_lead_witness :
  let s' := (LeadController.assignLead 1700000400000 3 (Some 2%nat) None Sample.store).2 in
  exists l',
    LeadController.leads s' !! 3%nat = Some l'
    /\ Lead.assignedTo l' = Some 2%nat
    /\ (3%nat, l') ∈ Mongo.find
         (LeadController.myMatches 2
            {| LeadController.my_page := Validation.Absent;
               LeadController.my_limit := Validation.Absent;
               LeadController.my_status := None |})
         (LeadController.leads s').
Proof.
  destruct (X10_assignLead_moves_lead 1700000400000 3 2 None Sample.store
              (Sample.lead "Chantal" 1700000300000)
              {| LeadController.my_page := Validation.Absent;
                 LeadController.my_limit := Validation.Absent;
                 LeadController.my_status := None |}
              eq_refl eq_refl eq_refl eq_refl)
    as (l' & Hlookup & _ & Huser & _ & _ & _ & Hin & _).
  exists l'. split; [exact Hlookup |]. split; [exact Huser | exact Hin].
Defined.

Lemma run_invariant (Inv : Mongo.Error * gmap nat Lead.t + Lead.t * gmap nat Lead.t -> Prop)
    (step : LeadController.Step) st :
  (forall lead c,
      Inv (inr (lead, c)) ->
      match step lead c with
      | inl e => Inv (inl (e, c))
      | inr done => Inv (inr done)
      end) ->
  Inv st -> Inv (LeadController.run step st).
Proof.
  intros Hstep Hst. destruct st as [failed | [lead c]]; cbn; [exact Hst |].
  specialize (Hstep lead c Hst). destruct (step lead c); exact Hstep.
Qed.

Lemma save_invariant (id : nat) (c0 : gmap nat Lead.t) (R : Lead.t -> Prop)
    (F : Lead.t -> Lead.t) (lead : Lead.t) (c : gmap nat Lead.t) :
  (forall l, R l -> R (F l)) ->
  StepInvariant id c0 R (inr (lead, c)) ->
  match Lead.save id (F lead) c with
  | inl e => StepInvariant id c0 R (inl (e, c))
  | inr done => StepInvariant id c0 R (inr done)
  end.
Proof.
  intros HF [[Hothers (l' & Hl' & HR)] Hlead].
  destruct (save_cases id (F lead) c) as [(_ & errs & ->) | (_ & ->)]; cbn.
  - split; [exact Hothers | eauto].
  - assert (l' = lead) by congruence. subst l'.
    split; [split |].
    + intros j Hj. rewrite lookup_insert_ne by congruence. apply Hothers, Hj.
    + exists (F lead). rewrite lookup_insert_eq. split; [reflexivity | apply HF, HR].
    + apply lookup_insert_eq.
Qed.

Lemma skip_invariant (id : nat) (c0 : gmap nat Lead.t) (R : Lead.t -> Prop)
    (lead : Lead.t) (c : gmap nat Lead.t) :
  StepInvariant id c0 R (inr (lead, c)) ->
  match (inr (lead, c) : Mongo.Error + Lead.t * gmap nat Lead.t) with
  | inl e => StepInvariant id c0 R (inl (e, c))
  | inr done => StepInvariant id c0 R (inr done)
  end.
Proof. intros H. exact H. Qed.

Lemma given_None_default (notes : option string) :
  notes = None -> Js.truthy (default "" notes) = false.
Proof. intros ->. reflexivity. Qed.

(** X11. Whatever the body and whether it succeeds or fails on the way,
    [updateLead] touches no product and no lead but the one it is called
    for, nothing when that lead does not exist, and of that lead neither
    the contact data (name, phone, message, product, source, creation
    date) nor the archive flag; the status, the assignee, the follow-up
    date and the notes change only when the body gives them. *)
Theorem X11_updateLead_frame (now : Z) (id : nat) (body : LeadController.UpdateBody)
    (s : LeadController.Store) :
  let s' := (LeadController.updateLead now id body s).2 in
  LeadController.products s' = LeadController.products s
  /\ (forall j, j <> id -> LeadController.leads s' !! j = LeadController.leads s !! j)
  /\ (LeadController.leads s !! id = None ->
      s' = s /\ Response.statusCode (LeadController.updateLead now id body s).1 = 404)
  /\ (forall l,
        LeadController.leads s !! id = Some l ->
        exists l',
          LeadController.leads s' !! id = Some l'
          /\ sameContact l l'
          /\ Lead.isArchived l' = Lead.isArchived l
          /\ (LeadController.upd_status body = None -> Lead.status l' = Lead.status l)
          /\ (LeadController.upd_assignedTo body = None ->
              Lead.assignedTo l' = Lead.assignedTo l)
          /\ (LeadController.upd_followUpDate body = None ->
              Lead.followUpDate l' = Lead.followUpDate l)
          /\ (LeadController.upd_notes body = None -> Lead.notes l' = Lead.notes l)).
Proof.
  cbv zeta. unfold LeadController.updateLead.
  destruct (LeadController.leads s !! id) as [l |] eqn:Hl.
  2:{ cbn [fst snd]. repeat split; try discriminate. }
  set (R := fun l' : Lead.t =>
         sameContact l l'
         /\ Lead.isArchived l' = Lead.isArchived l
         /\ (LeadController.upd_status body = None -> Lead.status l' = Lead.status l)
         /\ (LeadController.upd_assignedTo body = None ->
             Lead.assignedTo l' = Lead.assignedTo l)
         /\ (LeadController.upd_followUpDate body = None ->
             Lead.followUpDate l' = Lead.followUpDate l)
         /\ (LeadController.upd_notes body = None -> Lead.notes l' = Lead.notes l)).
  assert (Hinv : StepInvariant id (LeadController.leads s) R
                   (LeadController.updateLead_steps now id body l (LeadController.leads s))).
  { unfold LeadController.updateLead_steps.
    repeat apply run_invariant.
    - intros lead c Hst. unfold LeadController.when.
      destruct (Validation.given (LeadController.upd_notes body) && _ && _ && _) eqn:Hcond;
        [| exact Hst].
      apply (save_invariant id _ R
               (fun lead => Lead.set_notes
                  (Lead.noteEntry now "" (Lead.notes lead)
                     (default "" (LeadController.upd_notes body))) lead)); [| exact Hst].
      intros l0 (Hsame & Harch & Hs & Ha & Hf & Hn). unfold R, sameContact in *.
      cbn. repeat split; try tauto.
      intros Hnone. rewrite Hnone in Hcond. discriminate.
    - intros lead c Hst.
      destruct (LeadController.upd_followUpDate body) as [date |] eqn:Hdate; [| exact Hst].
      apply (save_invariant id _ R
               (Lead.scheduleFollowUp_assign now date (LeadController.upd_notes body)));
        [| exact Hst].
      intros l0 (Hsame & Harch & Hs & Ha & Hf & Hn).
      destruct (scheduleFollowUp_assign_fields now date (LeadController.upd_notes body) l0)
        as (_ & Hs' & Ha' & Harch' & Hsame' & Hn').
      unfold R, sameContact in *. repeat split; try congruence; try (intuition congruence).
      intros Hnone. rewrite Hn' by (apply given_None_default, Hnone). auto.
    - intros lead c Hst.
      destruct (LeadController.upd_assignedTo body) as [user |] eqn:Huser; [| exact Hst].
      apply (save_invariant id _ R
               (Lead.assignTo_assign now (Some user) (LeadController.upd_notes body)));
        [| exact Hst].
      intros l0 (Hsame & Harch & Hs & Ha & Hf & Hn).
      destruct (assignTo_assign_fields now (Some user) (LeadController.upd_notes body) l0)
        as (_ & Hs' & Hf' & Harch' & Hsame' & Hn').
      unfold R, sameContact in *. repeat split; try congruence; try (intuition congruence).
      intros Hnone. rewrite Hn' by (apply given_None_default, Hnone). auto.
    - intros lead c Hst.
      destruct (LeadController.upd_status body) as [st |] eqn:Hstatus; [| exact Hst].
      apply (save_invariant id _ R
               (Lead.updateStatus_assign now st (LeadController.upd_notes body)));
        [| exact Hst].
      intros l0 (Hsame & Harch & Hs & Ha & Hf & Hn).
      destruct (updateStatus_assign_fields now st (LeadController.upd_notes body) l0)
        as (_ & Ha' & Hf' & Harch' & Hsame' & Hn').
      unfold R, sameContact in *. repeat split; try congruence; try (intuition congruence).
      intros Hnone. rewrite Hn' by (apply given_None_default, Hnone). auto.
    - cbn. split; [split; [reflexivity |] | exact Hl].
      exists l. split; [exact Hl |]. unfold R, sameContact. repeat split. }
  destruct (LeadController.updateLead_steps now id body l (LeadController.leads s))
    as [[e c] | [lead c]]; cbn [fst snd LeadController.products LeadController.leads
                                 LeadController.with_leads].
  - destruct Hinv as [Hothers Hstored].
    split; [reflexivity |]. split; [exact Hothers |]. split; [discriminate |].
    intros l0 [= <-]. exact Hstored.
  - destruct Hinv as [[Hothers Hstored] _].
    split; [reflexivity |]. split; [exact Hothers |]. split; [discriminate |].
    intros l0 [= <-]. exact Hstored.
Qed.

Lemma X11_updateLead_frame_witness :
  LeadController.leads Sample.store !! 9%nat = None
  /\ (LeadController.updateLead 1700000400000 9 (Sample.statusOnly Lead.converti)
        Sample.store).2 = Sample.store
  /\ LeadController.leads Sample.store !! 3%nat = Some (Sample.lead "Chantal" 1700000300000)
  /\ LeadController.upd_assignedTo (Sample.statusOnly Lead.converti) = None
  /\ exists l',
       LeadController.leads
         (LeadController.updateLead 1700000400000 3 (Sample.statusOnly Lead.converti)
            Sample.store).2 !! 3%nat = Some l'
       /\ Lead.assignedTo l' = None.
Proof.
  split; [reflexivity |]. split.
  { destruct (X11_updateLead_frame 1700000400000 9 (Sample.statusOnly Lead.converti)
                Sample.store) as (_ & _ & Hmissing & _).
    apply Hmissing. reflexivity. }
  split; [reflexivity |]. split; [reflexivity |].
  destruct (X11_updateLead_frame 1700000400000 3 (Sample.statusOnly Lead.converti)
              Sample.store) as (_ & _ & _ & Hstored).
  destruct (Hstored (Sample.lead "Chantal" 1700000300000) eq_refl)
    as (l' & Hlookup & _ & _ & _ & Hassigned & _).
  exists l'. split; [exact Hlookup |]. apply Hassigned. reflexivity.
Defined.



Lemma with_leads_same (s : LeadController.Store) :
  LeadController.with_leads (LeadController.leads s) s = s.
Proof. destruct s. reflexivity. Qed.

(** X13. A body that gives no status, no assignee, no follow-up date and
    no note (or an empty one) makes [updateLead] save nothing: the store is
    left exactly as it was, and the answer is the 200 success that carries
    the lead unchanged. *)
Theorem X13_updateLead_empty_body (now : Z) (id : nat) (body : LeadController.UpdateBody)
    (l : Lead.t) (s : LeadController.Store) :
  LeadController.leads s !! id = Some l ->
  LeadController.upd_status body = None ->
  LeadController.upd_assignedTo body = None ->
  LeadController.upd_followUpDate body = None ->
  (LeadController.upd_notes body = None \/ LeadController.upd_notes body = Some "") ->
  (LeadController.updateLead now id body s).2 = s
  /\ Response.statusCode (LeadController.updateLead now id body s).1 = 200
  /\ Response.message (LeadController.updateLead now id body s).1
     = LeadController.msg_updated
  /\ Response.data (LeadController.updateLead now id body s).1 = Some (id, l).
Proof.
  intros Hl Hstatus Huser Hdate Hnotes.
  unfold LeadController.updateLead. rewrite Hl.
  unfold LeadController.updateLead_steps. rewrite Hstatus, Huser, Hdate.
  assert (Hgiven : Validation.given (LeadController.upd_notes body) = false)
    by (destruct Hnotes as [-> | ->]; reflexivity).
  rewrite Hgiven.
  cbn [andb LeadController.run LeadController.when fst snd Response.data
       Response.statusCode Response.message Response.sendSuccess].
  rewrite Hl, with_leads_same. repeat split.
Qed.

Lemma X13_updateLead_empty_body_witness :
  (LeadController.updateLead 1700000400000 3 Sample.noUpdate Sample.store).2 = Sample.store
  /\ Response.data (LeadController.updateLead 1700000400000 3 Sample.noUpdate Sample.store).1
     = Some (3%nat, Sample.lead "Chantal" 1700000300000).
Proof.
  destruct (X13_updateLead_empty_body 1700000400000 3 Sample.noUpdate
              (Sample.lead "Chantal" 1700000300000) Sample.store
              eq_refl eq_refl eq_refl eq_refl (or_introl eq_refl))
    as (Hstore & _ & _ & Hdata).
  split; [exact Hstore | exact Hdata].
Defined.



(** ** Archiving a lead *)



(** ** The export *)

Lemma split_replace_chars (sep : ascii) (hit : ascii -> bool) (by_ : ascii) (s : string) :
  hit sep = true -> hit by_ = false ->
  Js.split sep (Js.replace_chars hit by_ s) = [Js.replace_chars hit by_ s].
Proof.
  intros Hsep Hby. induction s as [| c r IH]; [reflexivity |].
  cbn [Js.replace_chars Js.split].
  rewrite bool_decide_eq_false_2.
  - rewrite IH. reflexivity.
  - intros Heq. destruct (hit c) eqn:Hc; congruence.
Qed.

Lemma length_replace_chars (hit : ascii -> bool) (by_ : ascii) (s : string) :
  String.length (Js.replace_chars hit by_ s) = String.length s.
Proof. induction s as [| c r IH]; [reflexivity |]. cbn. rewrite IH. reflexivity. Qed.

(** X16. [exportLeads] answers one row per lead that matches the query
    and is not archived, the newest lead first, and a count that is the
    number of rows, hence never more than the leads that the conversion
    total counts. The message of every row is a single line of the length
    of the lead's message: no line feed and no carriage return is left
    in it. *)
Theorem X16_exportLeads_rows (now : Z) (q : LeadController.ExportQuery)
    (users : gmap nat User.t) (s : LeadController.Store) :
  exists e sorted,
    Response.data (LeadController.exportLeads now q users s) = Some e
    /\ Response.statusCode (LeadController.exportLeads now q users s) = 200
    /\ sorted ≡ₚ Mongo.find (LeadController.exportMatches q) (LeadController.leads s)
    /\ StronglySorted
         (fun a b : nat * Lead.t => Lead.createdAt b.2 <= Lead.createdAt a.2) sorted
    /\ Forall (fun d : nat * Lead.t =>
                 LeadController.leads s !! d.1 = Some d.2 /\ Lead.isArchived d.2 = false)
         sorted
    /\ LeadController.export_leads e = List.map (LeadController.csvRow now users s) sorted
    /\ LeadController.export_count e = Z.of_nat (length (LeadController.export_leads e))
    /\ LeadController.export_count e
       = Mongo.countDocuments (LeadController.exportMatches q) (LeadController.leads s)
    /\ LeadController.export_count e <= LeadController.totalLeads s
    /\ Forall (fun row =>
                 Js.split (ascii_of_nat 10) (LeadController.csv_Message row)
                 = [LeadController.csv_Message row]
                 /\ Js.split (ascii_of_nat 13) (LeadController.csv_Message row)
                    = [LeadController.csv_Message row])
         (LeadController.export_leads e)
    /\ Forall (fun d : nat * Lead.t =>
                 String.length (LeadController.csv_Message (LeadController.csvRow now users s d))
                 = String.length (Lead.message d.2))
         sorted.
Proof.
  set (sorted := merge_sort (fun a b => LeadController.newestFirst a b)
                   (Mongo.find (LeadController.exportMatches q) (LeadController.leads s))).
  assert (Hperm : sorted ≡ₚ Mongo.find (LeadController.exportMatches q) (LeadController.leads s))
    by apply merge_sort_Permutation.
  eexists _, sorted. split; [reflexivity |]. split; [reflexivity |].
  split; [exact Hperm |]. split.
  { assert (Hsorted : StronglySorted
                        (fun a b => Is_true (LeadController.newestFirst a b)) sorted)
      by (apply StronglySorted_merge_sort;
          [apply newestFirst_transitive | apply newestFirst_total]).
    eapply StronglySorted_weaken; [| exact Hsorted].
    intros a b. apply newestFirst_spec. }
  split.
  { apply Forall_forall. intros [id l] Hd. rewrite Hperm in Hd.
    apply elem_of_find in Hd as [Hlookup Hmatch]. split; [exact Hlookup |].
    unfold LeadController.exportMatches in Hmatch. cbn [snd] in *.
    repeat (apply andb_true_iff in Hmatch as [Hmatch _]).
    apply negb_true_iff in Hmatch. exact Hmatch. }
  cbn [LeadController.export_leads LeadController.export_count]. fold sorted.
  split; [reflexivity |]. split; [reflexivity |]. split.
  { rewrite length_map, Hperm. reflexivity. }
  split.
  { rewrite length_map, Hperm. unfold LeadController.totalLeads, Mongo.countDocuments.
    apply inj_le, find_length_mono. intros d Hmatch.
    unfold LeadController.exportMatches in Hmatch.
    repeat (apply andb_true_iff in Hmatch as [Hmatch _]). exact Hmatch. }
  split.
  - apply Forall_forall. intros row Hrow. apply list_elem_of_fmap in Hrow as (d & -> & _).
    cbn [LeadController.csv_Message LeadController.csvRow].
    split; apply split_replace_chars; reflexivity.
  - apply Forall_forall. intros d _.
    cbn [LeadController.csv_Message LeadController.csvRow]. apply length_replace_chars.
Qed.

(** ** The bearer token *)

Lemma split_nonempty (sep : ascii) (s : string) : Js.split sep s <> [].
Proof.
  destruct s as [| c r]; cbn; [discriminate |].
  destruct (bool_decide (c = sep)); [discriminate |].
  destruct (Js.split sep r); discriminate.
Qed.

Lemma split_cons_sep (sep : ascii) (r : string) :
  Js.split sep (String sep r) = "" :: Js.split sep r.
Proof. cbn. rewrite bool_decide_eq_true_2 by reflexivity. reflexivity. Qed.

Lemma split_cons_other (sep c : ascii) (r : string) :
  c <> sep ->
  exists h t, Js.split sep r = h :: t /\ Js.split sep (String c r) = String c h :: t.
Proof.
  intros Hc. cbn. rewrite bool_decide_eq_false_2 by exact Hc.
  destruct (Js.split sep r) as [| h t] eqn:Hr; [exfalso; exact (split_nonempty _ _ Hr) |].
  exists h, t. split; reflexivity.
Qed.

(** A string that splits into one piece holds no separator: it is that
    piece, and putting anything before a separator in front adds one
    piece. *)
Lemma split_one (sep : ascii) (s b : string) : Js.split sep s = [b] -> s = b.
Proof.
  revert b. induction s as [| c r IH]; intros b.
  - cbn. congruence.
  - destruct (decide (c = sep)) as [-> | Hc].
    + rewrite split_cons_sep. intros H. injection H as _ H.
      exfalso. exact (split_nonempty _ _ H).
    + destruct (split_cons_other sep c r Hc) as (h & t & Hr & ->).
      intros [= <- ->]. rewrite (IH h Hr). reflexivity.
Qed.

Lemma split_two (sep : ascii) (s a b : string) :
  Js.split sep s = [a; b] ->
  s = a +:+ String sep b /\ Js.split sep a = [a] /\ Js.split sep b = [b].
Proof.
  revert a. induction s as [| c r IH]; intros a.
  - cbn. discriminate.
  - destruct (decide (c = sep)) as [-> | Hc].
    + rewrite split_cons_sep. intros [= <- Hr]. clear IH.
      assert (r = b) by exact (split_one _ _ _ Hr). subst r. rewrite append_nil_l.
      split; [reflexivity |]. split; [reflexivity | exact Hr].
    + destruct (split_cons_other sep c r Hc) as (h & t & Hr & ->).
      intros [= <- ->]. destruct (IH h Hr) as (-> & Hh & Hb).
      rewrite append_cons. split; [reflexivity |]. split; [| exact Hb].
      destruct (split_cons_other sep c h Hc) as (h' & t' & Hh' & ->).
      rewrite Hh in Hh'. injection Hh' as <- <-. reflexivity.
Qed.

Lemma split_append_sep (sep : ascii) (a b : string) :
  Js.split sep a = [a] ->
  Js.split sep (a +:+ String sep b) = a :: Js.split sep b.
Proof.
  induction a as [| c r IH].
  - intros _. rewrite append_nil_l. apply split_cons_sep.
  - intros Ha. rewrite append_cons.
    destruct (decide (c = sep)) as [-> | Hc].
    + rewrite split_cons_sep in Ha. injection Ha as Ha _. discriminate.
    + destruct (split_cons_other sep c r Hc) as (h & t & Hr & Hcr).
      rewrite Hcr in Ha. injection Ha as -> ->.
      destruct (split_cons_other sep c (r +:+ String sep b) Hc) as (h' & t' & Hr' & ->).
      rewrite (IH Hr) in Hr'. injection Hr' as <- <-. reflexivity.
Qed.

(** X17. [extractTokenFromHeader] yields a token exactly for a header
    that reads ["Bearer "] followed by a token without a space: such a
    header yields its token, and whenever a token comes out, the header
    was that token behind ["Bearer "] and the token holds no space. Any
    other header, also one with a second space, yields none. *)
Theorem X17_extractTokenFromHeader_bearer (header token : string) :
  (Js.split " " token = [token] ->
   Jwt.extractTokenFromHeader (Some ("Bearer " +:+ token)) = Some token)
  /\ (Jwt.extractTokenFromHeader (Some header) = Some token ->
      header = "Bearer " +:+ token /\ Js.split " " token = [token])
  /\ Jwt.extractTokenFromHeader None = None.
Proof.
  split; [| split; [| reflexivity]].
  - intros Htoken. unfold Jwt.extractTokenFromHeader.
    change ("Bearer " +:+ token) with ("Bearer" +:+ String " " token).
    rewrite split_append_sep by reflexivity. rewrite Htoken. reflexivity.
  - unfold Jwt.extractTokenFromHeader.
    destruct (Js.truthy header); cbn [negb]; [| discriminate].
    destruct (Js.split " " header) as [| scheme [| tok [| x rest]]] eqn:Hsplit;
      try discriminate.
    destruct (bool_decide_reflect (scheme = "Bearer")) as [-> |]; [| discriminate].
    intros [= ->]. apply split_two in Hsplit as (-> & _ & Htoken).
    split; [reflexivity | exact Htoken].
Qed.

Lemma X17_extractTokenFromHeader_bearer_witness :
  Js.split " " "t1" = ["t1"]
  /\ Jwt.extractTokenFromHeader (Some ("Bearer " +:+ "t1")) = Some "t1"
  /\ Jwt.extractTokenFromHeader (Some "Bearer t1") = Some "t1"
  /\ "Bearer t1" = "Bearer " +:+ "t1".
Proof.
  destruct (X17_extractTokenFromHeader_bearer "Bearer t1" "t1") as (Hto & Hfrom & _).
  split; [reflexivity |]. split; [apply Hto; reflexivity |].
  split; [reflexivity |]. apply (Hfrom eq_refl).
Defined.

(** ** Access control *)

Lemma authenticate_Next {D} (verifyToken : string -> option nat) (now : Z)
    (authorization : option string) (users : gmap nat User.t) (u : nat * User.t) :
  Auth.authenticate (D := D) verifyToken now authorization users = Auth.Next u ->
  exists token,
    Jwt.extractTokenFromHeader authorization = Some token
    /\ token <> ""
    /\ verifyToken token = Some u.1
    /\ users !! u.1 = Some u.2
    /\ User.isActive u.2 = true.
Proof.
  unfold Auth.authenticate.
  destruct (Jwt.extractTokenFromHeader authorization) as [token |]; [| discriminate].
  destruct (Js.truthy token) eqn:Htoken; cbn [negb]; [| discriminate].
  destruct (verifyToken token) as [id |] eqn:Hverify; [| discriminate].
  destruct (users !! id) as [user |] eqn:Huser; [| discriminate].
  destruct (User.isActive user) eqn:Hactive; cbn [negb]; [| discriminate].
  intros [= <-]. exists token. cbn [fst snd].
  split; [reflexivity |]. split; [apply truthy_true, Htoken |]. auto.
Qed.

Lemma authenticate_Answered {D} (verifyToken : string -> option nat) (now : Z)
    (authorization : option string) (users : gmap nat User.t) (r : Response.t D) :
  Auth.authenticate verifyToken now authorization users = Auth.Answered r ->
  Response.statusCode r = 401 /\ Response.success r = false /\ Response.data r = None.
Proof.
  unfold Auth.authenticate.
  destruct (Jwt.extractTokenFromHeader authorization) as [token |];
    [| intros [= <-]; repeat split].
  destruct (Js.truthy token); cbn [negb]; [| intros [= <-]; repeat split].
  destruct (verifyToken token) as [id |]; [| intros [= <-]; repeat split].
  destruct (users !! id) as [user |]; [| intros [= <-]; repeat split].
  destruct (User.isActive user); cbn [negb]; [discriminate | intros [= <-]; repeat split].
Qed.

Lemma authenticate_valid {D} (verifyToken : string -> option nat) (now : Z)
    (authorization : option string) (users : gmap nat User.t)
    (token : string) (id : nat) (user : User.t) :
  Jwt.extractTokenFromHeader authorization = Some token ->
  token <> "" ->
  verifyToken token = Some id ->
  users !! id = Some user ->
  Auth.authenticate (D := D) verifyToken now authorization users
  = if User.isActive user
    then Auth.Next (id, user)
    else Auth.Answered (Response.sendError now 401
                          ("Compte utilisateur d" +:+ Js.e_acute +:+ "sactiv"
                           +:+ Js.e_acute) None).
Proof.
  intros Htoken Hne Hverify Huser. unfold Auth.authenticate.
  rewrite Htoken. apply truthy_true in Hne. rewrite Hne, Hverify, Huser. cbn [negb].
  destruct (User.isActive user); reflexivity.
Qed.

Lemma admin_guard {D} (verifyToken : string -> option nat) (now : Z)
    (authorization : option string) (users : gmap nat User.t) (next : Response.t D) :
  Response.data
    match Auth.authenticate verifyToken now authorization users with
    | Auth.Answered r => r
    | Auth.Next user =>
        match Auth.requireAdmin now (Some user) with
        | Auth.Answered r => r
        | Auth.Next _ => next
        end
    end <> None ->
  exists token id user,
    Jwt.extractTokenFromHeader authorization = Some token
    /\ verifyToken token = Some id
    /\ users !! id = Some user
    /\ User.isActive user = true
    /\ User.role user = User.admin.
Proof.
  destruct (Auth.authenticate verifyToken now authorization users) as [r | u] eqn:Hauth.
  { apply authenticate_Answered in Hauth as (_ & _ & Hnone). intros H. contradiction. }
  apply authenticate_Next in Hauth as (token & Ht & Hne & Hv & Hu & Ha).
  unfold Auth.requireAdmin, Auth.authorize.
  destruct (bool_decide_reflect (User.role u.2 ∈ [User.admin])) as [Hrole | Hrole];
    cbn [negb].
  - intros _. exists token, u.1, u.2. repeat (split; [assumption |]).
    rewrite elem_of_cons, elem_of_nil in Hrole. tauto.
  - cbn. intros H. contradiction.
Qed.

(** X18. On the routes [GET /api/leads] and [GET /api/leads/stats] a
    request is answered with data only when its header carries a token
    that verifies for a stored, active user whose role is [admin]. A
    request without a usable token is answered 401, and one whose token
    belongs to an active user of another role 403, both without data. *)
Theorem X18_lead_routes_admin_only (verifyToken : string -> option nat)
    (regexMatch : string -> string -> bool) (now : Z) (authorization : option string)
    (q : LeadController.Query) (users : gmap nat User.t) (s : LeadController.Store) :
  let listing := LeadRoutes.getLeads verifyToken regexMatch now authorization q users s in
  let stats := LeadRoutes.getStats verifyToken now authorization users s in
  ((Response.data listing <> None \/ Response.data stats <> None) ->
   exists token id user,
     Jwt.extractTokenFromHeader authorization = Some token
     /\ verifyToken token = Some id
     /\ users !! id = Some user
     /\ User.isActive user = true
     /\ User.role user = User.admin)
  /\ (Jwt.extractTokenFromHeader authorization = None ->
      Response.statusCode listing = 401 /\ Response.data listing = None
      /\ Response.statusCode stats = 401 /\ Response.data stats = None)
  /\ (forall token id user,
        Jwt.extractTokenFromHeader authorization = Some token ->
        token <> "" ->
        verifyToken token = Some id ->
        users !! id = Some user ->
        User.isActive user = true ->
        User.role user <> User.admin ->
        Response.statusCode listing = 403 /\ Response.data listing = None
        /\ Response.statusCode stats = 403 /\ Response.data stats = None)
  /\ (forall token id user,
        Jwt.extractTokenFromHeader authorization = Some token ->
        token <> "" ->
        verifyToken token = Some id ->
        users !! id = Some user ->
        User.isActive user = true ->
        User.role user = User.admin ->
        listing = LeadController.route_getAllLeads regexMatch now q s
        /\ stats = LeadController.getLeadStats now s).
Proof.
  cbv zeta. unfold LeadRoutes.getLeads, LeadRoutes.getStats.
  split; [| split; [| split]].
  - intros [H | H]; eapply admin_guard; exact H.
  - intros Hnone. unfold Auth.authenticate. rewrite Hnone. repeat split.
  - intros token id user Ht Hne Hv Hu Ha Hrole.
    rewrite !(authenticate_valid _ _ _ _ token id user Ht Hne Hv Hu), Ha.
    unfold Auth.requireAdmin, Auth.authorize. cbn [snd].
    rewrite bool_decide_eq_false_2; [repeat split |].
    rewrite elem_of_cons, elem_of_nil. tauto.
  - intros token id user Ht Hne Hv Hu Ha Hrole.
    rewrite !(authenticate_valid _ _ _ _ token id user Ht Hne Hv Hu), Ha.
    unfold Auth.requireAdmin, Auth.authorize. cbn [snd].
    rewrite bool_decide_eq_true_2; [split; reflexivity |].
    rewrite Hrole. apply list_elem_of_here.
Qed.

Lemma X18_lead_routes_admin_only_witness :
  Response.statusCode
    (LeadRoutes.getLeads Sample.sampleVerify Sample.anyMatch 1700000400000
       (Some "Bearer t2") Sample.lqDefault Sample.users Sample.store) = 403
  /\ LeadRoutes.getLeads Sample.sampleVerify Sample.anyMatch 1700000400000
       (Some "Bearer t1") Sample.lqDefault Sample.users Sample.store
     = LeadController.route_getAllLeads Sample.anyMatch 1700000400000 Sample.lqDefault
         Sample.store
  /\ Response.statusCode
       (LeadRoutes.getStats Sample.sampleVerify 1700000400000 None Sample.users
          Sample.store) = 401.
Proof.
  split; [| split].
  - destruct (X18_lead_routes_admin_only Sample.sampleVerify Sample.anyMatch 1700000400000
                (Some "Bearer t2") Sample.lqDefault Sample.users Sample.store)
      as (_ & _ & Hstaff & _).
    apply (Hstaff "t2" 2%nat Sample.staffUser); try reflexivity; discriminate.
  - destruct (X18_lead_routes_admin_only Sample.sampleVerify Sample.anyMatch 1700000400000
                (Some "Bearer t1") Sample.lqDefault Sample.users Sample.store)
      as (_ & _ & _ & Hadmin).
    apply (Hadmin "t1" 1%nat Sample.adminUser); try reflexivity; discriminate.
  - destruct (X18_lead_routes_admin_only Sample.sampleVerify Sample.anyMatch 1700000400000
                None Sample.lqDefault Sample.users Sample.store)
      as (_ & Hnone & _).
    apply Hnone. reflexivity.
Defined.



(** ** The ranking of the lead statistics *)

Lemma groupCount_find_elem {A K} `{EqDecision K} (key : nat * A -> K) (f : nat * A -> bool)
    (c : gmap nat A) (k : K) (n : Z) :
  (k, n) ∈ Mongo.groupCount (List.map key (Mongo.find f c)) ->
  1 <= n
  /\ n = Mongo.countDocuments (fun d => f d && bool_decide (key d = k)) c.
Proof.
  intros Hin. apply groupCount_elem in Hin as [Hn Hpos]. split; [exact Hpos |].
  rewrite Hn, filter_map_length. unfold Mongo.countDocuments. f_equal.
  rewrite <- (find_and_length f (fun d => bool_decide (key d = k))).
  f_equal. apply list_filter_iff. intros d. rewrite bool_decide_eq_true. reflexivity.
Qed.

Lemma sum_counts_Permutation {K} (a b : list (K * Z)) :
  a ≡ₚ b -> foldr Z.add 0 (List.map snd a) = foldr Z.add 0 (List.map snd b).
Proof. intros Hperm. induction Hperm; cbn; lia. Qed.

(** X20. In the statistics of [getLeadStats] the ranking of the products
    holds at most ten entries, each for a different product, the larger
    counts first; the count of an entry is the number of leads that ask for
    that product and are not archived, at least one, and the entry carries
    the stored product of that identifier. The counts of the last thirty
    days add up to the leads created since then that are not archived.
    Neither the number of leads to follow up nor that of the recent leads
    exceeds the total of the conversion. *)
Theorem X20_getLeadStats_ranking (now : Z) (s : LeadController.Store) :
  exists st,
    Response.data (LeadController.getLeadStats now s) = Some st
    /\ (length (LeadController.topProducts st) <= 10)%nat
    /\ NoDup (List.map LeadController.top_id (LeadController.topProducts st))
    /\ StronglySorted (fun x y => y <= x)
         (List.map LeadController.top_count (LeadController.topProducts st))
    /\ Forall (fun t =>
                 1 <= LeadController.top_count t
                 /\ LeadController.top_product t
                    = LeadController.products s !! LeadController.top_id t
                 /\ LeadController.top_count t
                    = Mongo.countDocuments
                        (fun d => negb (Lead.isArchived d.2)
                                  && bool_decide (Lead.produit d.2 = LeadController.top_id t))
                        (LeadController.leads s))
         (LeadController.topProducts st)
    /\ foldr Z.add 0 (List.map snd (LeadController.recentActivity st))
       = Mongo.countDocuments
           (fun d => (LeadController.thirtyDaysAgo now <=? Lead.createdAt d.2)
                     && negb (Lead.isArchived d.2))
           (LeadController.leads s)
    /\ foldr Z.add 0 (List.map snd (LeadController.recentActivity st))
       <= LeadController.total (LeadController.conversion st)
    /\ 0 <= LeadController.needingFollowUp st
       <= LeadController.total (LeadController.conversion st).
Proof.
  eexists. split; [reflexivity |].
  cbn [LeadController.topProducts LeadController.recentActivity LeadController.conversion
       LeadController.total LeadController.needingFollowUp].
  unfold LeadController.topProductsOf.
  set (keys := List.map (fun d : nat * Lead.t => Lead.produit d.2)
                 (Mongo.find (fun d => negb (Lead.isArchived d.2)) (LeadController.leads s))).
  set (groups := Mongo.groupCount keys).
  set (ranked := merge_sort (fun a b : nat * Z => b.2 <=? a.2) groups).
  set (mk := fun g : nat * Z =>
               {| LeadController.top_id := g.1; LeadController.top_count := g.2;
                  LeadController.top_product := LeadController.products s !! g.1 |}).
  assert (Hperm : ranked ≡ₚ groups) by apply merge_sort_Permutation.
  assert (Hsub : take 10 ranked `sublist_of` ranked) by apply sublist_take.
  destruct (groupCount_invariants keys) as (Hnd & _ & _). fold groups in Hnd.
  assert (Hids : List.map LeadController.top_id (List.map mk (take 10 ranked))
                 = (take 10 ranked).*1).
  { generalize (take 10 ranked). intros l.
    induction l as [| x xs IH]; cbn; [reflexivity | rewrite IH; reflexivity]. }
  assert (Hcounts : List.map LeadController.top_count (List.map mk (take 10 ranked))
                    = (take 10 ranked).*2).
  { generalize (take 10 ranked). intros l.
    induction l as [| x xs IH]; cbn; [reflexivity | rewrite IH; reflexivity]. }
  split; [rewrite length_map, length_take; lia |].
  split.
  { rewrite Hids. eapply sublist_NoDup; [| apply (fmap_sublist fst), Hsub].
    rewrite Hperm. exact Hnd. }
  split.
  { rewrite Hcounts.
    apply (StronglySorted_fmap snd (fun a b : nat * Z => Is_true (b.2 <=? a.2))).
    - intros a b Hab. apply Is_true_true, Z.leb_le in Hab. exact Hab.
    - assert (Hsorted : StronglySorted (fun a b : nat * Z => Is_true (b.2 <=? a.2)) ranked)
        by (apply StronglySorted_merge_sort;
            [apply count_desc_transitive | apply count_desc_total]).
      rewrite <- (take_drop 10 ranked) in Hsorted.
      apply StronglySorted_app_1_l in Hsorted. exact Hsorted. }
  split.
  { apply Forall_forall. intros t Ht.
    apply list_elem_of_In, in_map_iff in Ht as ([k n] & <- & Hin).
    apply list_elem_of_In in Hin.
    assert (Hg : (k, n) ∈ groups).
    { rewrite <- Hperm. apply (elem_of_sublist _ _ _ Hin Hsub). }
    apply groupCount_find_elem in Hg as [Hpos Hn]. cbn. auto. }
  assert (Hrecent : foldr Z.add 0 (List.map snd (LeadController.recentStats now
                                                    (LeadController.leads s)))
                    = Mongo.countDocuments
                        (fun d => (LeadController.thirtyDaysAgo now <=? Lead.createdAt d.2)
                                  && negb (Lead.isArchived d.2))
                        (LeadController.leads s)).
  { unfold LeadController.recentStats.
    rewrite (sum_counts_Permutation _ _ (merge_sort_Permutation _ _)).
    rewrite groupCount_sum, length_map. reflexivity. }
  split; [exact Hrecent |]. split.
  { rewrite Hrecent. unfold LeadController.totalLeads, Mongo.countDocuments.
    apply inj_le, find_length_mono. intros d Hd.
    apply andb_true_iff in Hd as [_ Hd]. exact Hd. }
  split; [lia |].
  unfold LeadController.totalLeads, Mongo.countDocuments, Lead.getNeedingFollowUp.
  apply inj_le, find_length_mono. intros d Hd. unfold Lead.needsFollowUp in Hd.
  apply andb_true_iff in Hd as [_ Hd]. exact Hd.
Qed.

(** ** The phone number and the WhatsApp link *)

Lemma remove_chars_subset (d1 d2 : ascii -> bool) (s : string) :
  (forall c, d1 c = true -> d2 c = true) ->
  Js.remove_chars d2 (Js.remove_chars d1 s) = Js.remove_chars d2 s.
Proof.
  intros Hsub. induction s as [| c r IH]; [reflexivity |].
  cbn [Js.remove_chars]. destruct (d1 c) eqn:H1.
  - rewrite (Hsub c H1). exact IH.
  - cbn [Js.remove_chars]. rewrite IH. reflexivity.
Qed.

Lemma remove_chars_kept (d : ascii -> bool) (s : string) :
  Js.all_digits s = true ->
  (forall c, Js.is_digit c = true -> d c = false) ->
  Js.remove_chars d s = s.
Proof.
  intros Hs Hd. induction s as [| c r IH]; [reflexivity |].
  cbn in Hs. apply andb_true_iff in Hs as [Hc Hr].
  cbn [Js.remove_chars]. rewrite (Hd c Hc), (IH Hr). reflexivity.
Qed.

Lemma all_digits_remove_non_digit (s : string) :
  Js.all_digits (Js.remove_chars non_digit s) = true.
Proof.
  induction s as [| c r IH]; [reflexivity |].
  cbn [Js.remove_chars]. unfold non_digit at 1.
  destruct (Js.is_digit c) eqn:Hc; cbn [negb]; [| exact IH].
  cbn [Js.all_digits]. rewrite Hc, IH. reflexivity.
Qed.

Lemma digit_not_plus (c : ascii) : Js.is_digit c = true -> c <> "+"%char.
Proof. intros Hc ->. vm_compute in Hc. discriminate. Qed.

Lemma separators_not_digits (c : ascii) :
  Js.is_ws c || bool_decide (c ∈ ["-"; "("; ")"]%char) = true -> non_digit c = true.
Proof.
  unfold non_digit. destruct (Js.is_digit c) eqn:Hc; [| reflexivity].
  intros H. exfalso. revert Hc H.
  unfold Js.is_digit, Js.is_ws.
  rewrite !andb_true_iff, !orb_true_iff, !andb_true_iff, bool_decide_eq_true.
  rewrite !Nat.leb_le, !Nat.eqb_eq. intros [H1 H2] [[[[H3 H4] | H3] | H3] | H3]; try lia.
  rewrite !elem_of_cons, elem_of_nil in H3.
  destruct H3 as [-> | [-> | [-> | []]]]; vm_compute in H1, H2; lia.
Qed.

Lemma length_remove_chars (d : ascii -> bool) (s : string) :
  (String.length (Js.remove_chars d s) <= String.length s)%nat.
Proof.
  induction s as [| c r IH]; [reflexivity |].
  cbn [Js.remove_chars]. destruct (d c); cbn [String.length]; lia.
Qed.

(** The digits of a phone number are those of its [formattedTel]. *)
Lemma formattedTel_digits (l : Lead.t) :
  Js.remove_chars non_digit (Lead.formattedTel l) = Js.remove_chars non_digit (Lead.tel l).
Proof.
  unfold Lead.formattedTel.
  set (d2 := fun c => negb (Js.is_digit c || bool_decide (c = "+"%char))).
  assert (Hsub : forall c, d2 c = true -> non_digit c = true).
  { intros c. unfold d2, non_digit. destruct (Js.is_digit c); cbn; [discriminate | reflexivity]. }
  rewrite <- (remove_chars_subset d2 non_digit (Lead.tel l) Hsub).
  destruct (Js.remove_chars d2 (Lead.tel l)) as [| c r] eqn:Hcleaned; [reflexivity |].
  destruct (negb (bool_decide (c = "+"%char)) && Js.is_digit c); [| reflexivity].
  change ("+" +:+ String c r) with (String "+"%char (String c r)).
  reflexivity.
Qed.

(** X21. For a phone number that the validator of the schema accepts,
    [formattedTel] is the plus sign followed by the digits of the number,
    whether the number was written with a plus sign, with spaces, hyphens
    or parentheses, or without; there are between 1 and 16 digits and the
    first is not 0. *)
Theorem X21_formattedTel_valid (l : Lead.t) :
  Lead.tel_valid (Lead.tel l) = true ->
  let digits := Js.remove_chars non_digit (Lead.tel l) in
  Lead.formattedTel l = "+" +:+ digits
  /\ Js.all_digits digits = true
  /\ (1 <= String.length digits <= 16)%nat
  /\ (exists c r, digits = String c r /\ c <> "0"%char).
Proof.
  intros Hvalid. cbv zeta.
  set (d1 := fun c => Js.is_ws c || bool_decide (c ∈ ["-"; "("; ")"]%char)).
  set (d2 := fun c => negb (Js.is_digit c || bool_decide (c = "+"%char))).
  set (cleaned := Js.remove_chars d1 (Lead.tel l)).
  assert (Hcases : exists c r,
             (cleaned = String c r \/ cleaned = String "+"%char (String c r))
             /\ Js.is_digit c = true /\ c <> "0"%char
             /\ Js.all_digits r = true /\ (String.length r <= 15)%nat).
  { unfold Lead.tel_valid in Hvalid. fold d1 in Hvalid. fold cleaned in Hvalid.
    cbv zeta in Hvalid.
    assert (Hdigits : forall c r,
               Js.is_digit c && negb (bool_decide (c = "0"%char))
               && Js.all_digits r && (String.length r <=? 15)%nat = true ->
               Js.is_digit c = true /\ c <> "0"%char
               /\ Js.all_digits r = true /\ (String.length r <= 15)%nat).
    { intros c r H. rewrite !andb_true_iff, negb_true_iff, bool_decide_eq_false in H.
      rewrite Nat.leb_le in H. tauto. }
    destruct cleaned as [| c0 r0]; [discriminate |].
    destruct (decide (c0 = "+"%char)) as [-> | Hplus].
    - destruct r0 as [| c r]; [discriminate |].
      exists c, r. split; [right; reflexivity | apply Hdigits, Hvalid].
    - exists c0, r0. split; [left; reflexivity |].
      apply Hdigits. revert Hvalid.
      destruct c0 as [[] [] [] [] [] [] [] []]; try (intros H; exact H).
      exfalso. apply Hplus. reflexivity. }
  destruct Hcases as (c & r & Hcleaned & Hc & Hzero & Hr & Hlen).
  assert (Hall : Js.all_digits (String c r) = true) by (cbn; rewrite Hc, Hr; reflexivity).
  assert (Hdigits : Js.remove_chars non_digit (Lead.tel l) = String c r).
  { rewrite <- (remove_chars_subset d1 non_digit (Lead.tel l) separators_not_digits).
    fold cleaned.
    destruct Hcleaned as [-> | ->].
    - apply remove_chars_kept; [exact Hall |]. intros x Hx. unfold non_digit. rewrite Hx.
      reflexivity.
    - change (Js.remove_chars non_digit (String "+"%char (String c r)))
        with (Js.remove_chars non_digit (String c r)).
      apply remove_chars_kept; [exact Hall |]. intros x Hx. unfold non_digit. rewrite Hx.
      reflexivity. }
  assert (Hkeep2 : forall x, Js.is_digit x = true -> d2 x = false).
  { intros x Hx. unfold d2. rewrite Hx. reflexivity. }
  assert (Hsub12 : forall x, d1 x = true -> d2 x = true).
  { intros x Hx. pose proof (separators_not_digits x Hx) as Hnd. unfold non_digit in Hnd.
    apply negb_true_iff in Hnd. unfold d2. rewrite Hnd. cbn [orb].
    rewrite bool_decide_eq_false_2; [reflexivity |].
    intros ->. vm_compute in Hx. discriminate. }
  assert (Hcleaned2 : Js.remove_chars d2 (Lead.tel l) = cleaned).
  { rewrite <- (remove_chars_subset d1 d2 (Lead.tel l) Hsub12). fold cleaned.
    destruct Hcleaned as [-> | ->].
    - apply remove_chars_kept; assumption.
    - change (Js.remove_chars d2 (String "+"%char (String c r)))
        with (String "+"%char (Js.remove_chars d2 (String c r))).
      rewrite remove_chars_kept by assumption. reflexivity. }
  rewrite Hdigits. split.
  { unfold Lead.formattedTel. fold d2. rewrite Hcleaned2.
    destruct Hcleaned as [-> | ->].
    - rewrite Hc. rewrite bool_decide_eq_false_2 by (apply digit_not_plus, Hc).
      reflexivity.
    - rewrite bool_decide_eq_true_2 by reflexivity. reflexivity. }
  split; [exact Hall |]. split; [cbn [String.length]; lia |].
  exists c, r. split; [reflexivity | exact Hzero].
Qed.

Lemma X21_formattedTel_valid_witness :
  Lead.tel_valid (Lead.tel (Sample.lead "Aline" 1700000100000)) = true
  /\ Lead.formattedTel (Sample.lead "Aline" 1700000100000) = "+243812345678".
Proof.
  split; [reflexivity |].
  destruct (X21_formattedTel_valid (Sample.lead "Aline" 1700000100000) eq_refl)
    as (Hformatted & _).
  rewrite Hformatted. reflexivity.
Defined.

Lemma list_ascii_of_string_append (a b : string) :
  String.list_ascii_of_string (a +:+ b)
  = (String.list_ascii_of_string a ++ String.list_ascii_of_string b)%list.
Proof.
  induction a as [| c r IH]; [rewrite append_nil_l; reflexivity |].
  rewrite append_cons. cbn. rewrite IH. reflexivity.
Qed.

Lemma encodeURIComponent_url_safe (s : string) :
  Forall (fun c => url_safe c = true) (String.list_ascii_of_string (Js.encodeURIComponent s)).
Proof.
  induction s as [| c r IH]; [constructor |].
  cbn [Js.encodeURIComponent]. rewrite list_ascii_of_string_append.
  apply Forall_app. split; [| exact IH]. clear.
  set (n := nat_of_ascii c).
  assert (Hpiece : forallb url_safe
                     (String.list_ascii_of_string
                        (if Js.uri_unreserved c then String c EmptyString
                         else if (n <? 128)%nat then Js.percent n
                              else Js.percent (192 + n / 64) +:+ Js.percent (128 + n mod 64)))
                   = true).
  { subst n. destruct c as [[] [] [] [] [] [] [] []]; vm_compute; reflexivity. }
  apply Forall_forall. intros x Hx. apply list_elem_of_In in Hx.
  exact (proj1 (forallb_forall _ _) Hpiece x Hx).
Qed.

(** X22. The [whatsappLink] of any lead is ["https://wa.me/"], the digits
    of the lead's phone number and nothing else of it, ["?text="], and a
    text in which every character can stand in a URL as it is: it is the
    encoding of the greeting, which names the populated product, or
    ["produit"] when the reference is not populated or the product has no
    name, followed by the lead's message. *)
Theorem X22_whatsappLink_wellformed (populated : option Product.t) (l : Lead.t) :
  exists phone productName,
    Lead.whatsappLink populated l
    = "https://wa.me/" +:+ phone +:+ "?text="
      +:+ Js.encodeURIComponent
            ("Bonjour, je suis int" +:+ Js.e_acute +:+ "ress" +:+ Js.e_acute
             +:+ "(e) par votre " +:+ productName +:+ ". " +:+ Lead.message l)
    /\ phone = Js.remove_chars non_digit (Lead.tel l)
    /\ Js.all_digits phone = true
    /\ Forall (fun c => url_safe c = true)
         (String.list_ascii_of_string
            (Js.encodeURIComponent
               ("Bonjour, je suis int" +:+ Js.e_acute +:+ "ress" +:+ Js.e_acute
                +:+ "(e) par votre " +:+ productName +:+ ". " +:+ Lead.message l)))
    /\ productName <> ""
    /\ (populated = None -> productName = "produit")
    /\ (forall p, populated = Some p -> Product.nom p <> "" -> productName = Product.nom p).
Proof.
  exists (Js.remove_chars non_digit (Lead.tel l)),
    (match populated with
     | Some p => if Js.truthy (Product.nom p) then Product.nom p else "produit"
     | None => "produit"
     end).
  split.
  { unfold Lead.whatsappLink. cbv zeta.
    change (fun c => negb (Js.is_digit c)) with non_digit.
    rewrite formattedTel_digits. reflexivity. }
  split; [reflexivity |]. split; [apply all_digits_remove_non_digit |].
  split; [apply encodeURIComponent_url_safe |].
  split; [| split].
  - destruct populated as [p |]; [| discriminate].
    destruct (Js.truthy (Product.nom p)) eqn:Hnom; [apply truthy_true, Hnom | discriminate].
  - intros ->. reflexivity.
  - intros p -> Hnom. apply truthy_true in Hnom. rewrite Hnom. reflexivity.
Qed.

Lemma X22_whatsappLink_wellformed_witness :
  Lead.whatsappLink (Some Sample.phone) (Sample.lead "Aline" 1700000100000)
  = "https://wa.me/243812345678?text=Bonjour%2C%20je%20suis%20int%C3%A9ress%C3%A9(e)%20par%20votre%20Smartphone%20Samsung%20Galaxy%20A24.%20".
Proof.
  destruct (X22_whatsappLink_wellformed (Some Sample.phone)
              (Sample.lead "Aline" 1700000100000))
    as (phone & productName & Hlink & -> & _ & _ & _ & _ & Hname).
  rewrite Hlink, (Hname Sample.phone eq_refl ltac:(discriminate)).
  vm_compute. reflexivity.
Defined.

(** ** The age of a lead *)

(** X23. [ageInDays] counts the full days since the creation of the lead:
    it is the only integer [n] with [n] days elapsed and the [n+1]-th not
    yet, so 0 during the first 24 hours; it grows by one with every 24
    hours and never decreases with time. *)
Theorem X23_ageInDays_full_days (now later : Z) (l : Lead.t) :
  86400000 * Lead.ageInDays now l <= now - Lead.createdAt l
    < 86400000 * (Lead.ageInDays now l + 1)
  /\ (forall n, 86400000 * n <= now - Lead.createdAt l < 86400000 * (n + 1) ->
                Lead.ageInDays now l = n)
  /\ (Lead.createdAt l <= now < Lead.createdAt l + 86400000 -> Lead.ageInDays now l = 0)
  /\ Lead.ageInDays (now + 86400000) l = Lead.ageInDays now l + 1
  /\ (now <= later -> Lead.ageInDays now l <= Lead.ageInDays later l).
Proof.
  unfold Lead.ageInDays. change (1000 * 60 * 60 * 24) with 86400000.
  pose proof (Z.div_mod (now - Lead.createdAt l) 86400000 ltac:(lia)) as Hdiv.
  pose proof (Z.mod_pos_bound (now - Lead.createdAt l) 86400000 ltac:(lia)) as Hmod.
  split; [lia |]. split.
  { intros n Hn. symmetry. apply (Z.div_unique _ _ n (now - Lead.createdAt l - 86400000 * n));
      lia. }
  split.
  { intros Hfirst. apply Z.div_small. lia. }
  split.
  { replace (now + 86400000 - Lead.createdAt l)
      with (now - Lead.createdAt l + 1 * 86400000) by lia.
    apply Z.div_add. lia. }
  intros Hlater. apply Z.div_le_mono; lia.
Qed.

Lemma X23_ageInDays_full_days_witness :
  Lead.ageInDays 1700000400000 (Sample.lead "Aline" 1700000100000) = 0
  /\ Lead.ageInDays (1700000100000 + 3 * 86400000 + 5) (Sample.lead "Aline" 1700000100000) = 3.
Proof.
  split.
  - destruct (X23_ageInDays_full_days 1700000400000 1700000400000
                (Sample.lead "Aline" 1700000100000)) as (_ & _ & Hfirst & _).
    apply Hfirst. cbn. lia.
  - destruct (X23_ageInDays_full_days (1700000100000 + 3 * 86400000 + 5) 1700000400000
                (Sample.lead "Aline" 1700000100000)) as (_ & Hunique & _).
    apply Hunique. cbn. lia.
Defined.

(** ** What [createLead] can store *)

Lemma validate_new_nil (l : Lead.t) :
  Lead.validate_new l = [] ->
  Lead.nom l <> ""
  /\ (String.length (Lead.nom l) <= 50)%nat
  /\ Lead.tel_valid (Lead.tel l) = true
  /\ (String.length (Lead.message l) <= 500)%nat.
Proof.
  unfold Lead.validate_new. intros H.
  apply app_eq_nil in H as [Hnom H]. apply app_eq_nil in H as [Htel Hmessage].
  destruct (Js.truthy (Lead.nom l)) eqn:Hn; cbn [negb] in Hnom; [| discriminate].
  destruct (Nat.ltb_spec 50 (String.length (Lead.nom l))); [discriminate |].
  destruct (Js.truthy (Lead.tel l)); cbn [negb] in Htel; [| discriminate].
  destruct (Lead.tel_valid (Lead.tel l)); cbn [negb] in Htel; [| discriminate].
  destruct (Nat.ltb_spec 500 (String.length (Lead.message l))); [discriminate |].
  split; [apply truthy_true, Hn |]. split; [lia |]. split; [reflexivity | lia].
Qed.

(** X24. [createLead] answers 201, 400 or 404 and stores all or nothing:
    unless the answer is the 201 the store is exactly as before and the
    answer carries no lead. With the 201 exactly one lead is added, under
    an identifier that was free, and whatever the body was, that lead has a
    name of 1 to 50 characters, a phone number that the validator accepts,
    a message of at most 500 characters, all three trimmed, the status
    [nouveau], no assignee, no notes, and refers to a stored, active
    product; the products are never touched. *)
Theorem X24_createLead_all_or_nothing (now : Z) (body : LeadController.LeadBody)
    (s : LeadController.Store) :
  let r := LeadController.createLead now body s in
  (Response.statusCode r.1 = 201 \/ Response.statusCode r.1 = 400
   \/ Response.statusCode r.1 = 404)
  /\ LeadController.products r.2 = LeadController.products s
  /\ (Response.statusCode r.1 <> 201 -> r.2 = s /\ Response.data r.1 = None)
  /\ (Response.statusCode r.1 = 201 ->
      exists id lead p,
        Response.data r.1 = Some (id, lead)
        /\ LeadController.leads s !! id = None
        /\ LeadController.leads r.2 = <[id := lead]> (LeadController.leads s)
        /\ size (LeadController.leads r.2) = S (size (LeadController.leads s))
        /\ LeadController.products s !! Lead.produit lead = Some p
        /\ Product.isActive p = true
        /\ Lead.nom lead <> ""
        /\ (String.length (Lead.nom lead) <= 50)%nat
        /\ Lead.tel_valid (Lead.tel lead) = true
        /\ (String.length (Lead.message lead) <= 500)%nat
        /\ Js.trim (Lead.nom lead) = Lead.nom lead
        /\ Js.trim (Lead.tel lead) = Lead.tel lead
        /\ Js.trim (Lead.message lead) = Lead.message lead
        /\ Lead.status lead = Lead.nouveau
        /\ Lead.assignedTo lead = None
        /\ Lead.notes lead = ""
        /\ Lead.isArchived lead = false
        /\ Lead.createdAt lead = now).
Proof.
  cbv zeta. unfold LeadController.createLead.
  destruct (LeadController.products s !! LeadController.body_produit body) as [p |] eqn:Hp.
  2:{ cbn. repeat split; auto; try discriminate. }
  destruct (Product.isActive p) eqn:Hactive; cbn [negb].
  2:{ cbn. repeat split; auto; try discriminate. }
  unfold Lead.create.
  destruct (Lead.validate_new _) as [| e errs] eqn:Hvalid.
  2:{ cbn. repeat split; auto; try discriminate. }
  cbn [fst snd LeadController.leads LeadController.products LeadController.with_leads
       Response.statusCode Response.data Response.sendSuccess].
  rewrite lookup_insert_eq. cbn [mbind option_bind].
  split; [auto |]. split; [reflexivity |]. split; [intros H; contradiction |].
  intros _. apply validate_new_nil in Hvalid as (Hnom & Hlen & Htel & Hmessage).
  eexists _, _, p. split; [reflexivity |].
  split; [apply fresh_lookup_None |]. split; [reflexivity |].
  split; [apply map_size_insert_None, fresh_lookup_None |].
  split; [exact Hp |]. split; [exact Hactive |].
  split; [exact Hnom |]. split; [exact Hlen |]. split; [exact Htel |].
  split; [exact Hmessage |].
  cbn [Lead.nom Lead.tel Lead.message Lead.new_doc].
  repeat (split; [apply trim_idempotent |]). repeat split.
Qed.

Lemma X24_createLead_all_or_nothing_witness :
  (Response.statusCode
     (LeadController.createLead 1700000400000
        {| LeadController.body_nom := "Aline"; LeadController.body_tel := "0812345678";
           LeadController.body_message := None; LeadController.body_produit := 1 |}
        Sample.store).1 <> 201)
  /\ (LeadController.createLead 1700000400000
        {| LeadController.body_nom := "Aline"; LeadController.body_tel := "0812345678";
           LeadController.body_message := None; LeadController.body_produit := 1 |}
        Sample.store).2 = Sample.store
  /\ Response.statusCode (LeadController.createLead 1700000400000 Sample.body Sample.store).1
     = 201
  /\ size (LeadController.leads
             (LeadController.createLead 1700000400000 Sample.body Sample.store).2) = 4%nat.
Proof.
  assert (Hrejected : Response.statusCode
     (LeadController.createLead 1700000400000
        {| LeadController.body_nom := "Aline"; LeadController.body_tel := "0812345678";
           LeadController.body_message := None; LeadController.body_produit := 1 |}
        Sample.store).1 <> 201) by (vm_compute; discriminate).
  split; [exact Hrejected |]. split.
  - destruct (X24_createLead_all_or_nothing 1700000400000
                {| LeadController.body_nom := "Aline"; LeadController.body_tel := "0812345678";
                   LeadController.body_message := None; LeadController.body_produit := 1 |}
                Sample.store) as (_ & _ & Hnothing & _).
    apply (Hnothing Hrejected).
  - assert (Hcreated : Response.statusCode
              (LeadController.createLead 1700000400000 Sample.body Sample.store).1 = 201)
      by (vm_compute; reflexivity).
    split; [exact Hcreated |].
    destruct (X24_createLead_all_or_nothing 1700000400000 Sample.body Sample.store)
      as (_ & _ & _ & Hall).
    destruct (Hall Hcreated) as (id & lead & p & _ & _ & _ & Hsize & _).
    rewrite Hsize. vm_compute. reflexivity.
Defined.

(** ** Scheduling a follow-up *)

(** X25. [scheduleFollowUp] checks the date before it looks for the
    lead: without a date the answer is the 400 "Date de suivi requise",
    also for a lead that does not exist, and nothing is stored. With a date
    and a stored lead whose save succeeds, the lead gets that date and
    keeps its status, assignee and contact data; if it is neither archived
    nor [converti] nor [perdu], [getNeedingFollowUp] returns it at exactly
    the instants that are not before the date. *)
Theorem X25_scheduleFollowUp_then_due (now later : Z) (id : nat) (date : Z)
    (notes : option string) (l : Lead.t) (s : LeadController.Store) :
  let missing := LeadController.scheduleFollowUp now id None notes s in
  let r := LeadController.scheduleFollowUp now id (Some date) notes s in
  (Response.statusCode missing.1 = 400
   /\ Response.message missing.1 = "Date de suivi requise"
   /\ missing.2 = s)
  /\ (LeadController.leads s !! id = None ->
      Response.statusCode r.1 = 404 /\ r.2 = s)
  /\ (LeadController.leads s !! id = Some l ->
      Response.statusCode r.1 = 200 ->
      exists l',
        LeadController.leads r.2 = <[id := l']> (LeadController.leads s)
        /\ Response.data r.1 = Some (id, l')
        /\ Lead.followUpDate l' = Some date
        /\ Lead.status l' = Lead.status l
        /\ Lead.assignedTo l' = Lead.assignedTo l
        /\ sameContact l l'
        /\ (Lead.isArchived l = false ->
            Lead.status l <> Lead.converti ->
            Lead.status l <> Lead.perdu ->
            ((id, l') ∈ Lead.getNeedingFollowUp later (LeadController.leads r.2)
             <-> date <= later))).
Proof.
  cbv zeta. split; [repeat split |]. split.
  - intros Hl. unfold LeadController.scheduleFollowUp. rewrite Hl. split; reflexivity.
  - intros Hl. unfold LeadController.scheduleFollowUp. rewrite Hl.
    unfold Lead.scheduleFollowUp.
    destruct (save_cases id (Lead.scheduleFollowUp_assign now date notes l)
                (LeadController.leads s)) as [(_ & errs & ->) | (_ & ->)].
    { cbn. discriminate. }
    intros _.
    cbn [fst snd LeadController.leads LeadController.with_leads Response.data
         Response.sendSuccess].
    rewrite lookup_insert_eq.
    destruct (scheduleFollowUp_assign_fields now date notes l)
      as (Hdate & Hstatus & Hassigned & Harch & Hsame & _).
    exists (Lead.scheduleFollowUp_assign now date notes l).
    repeat (split; [reflexivity || assumption |]).
    intros Hnot Hc Hp. unfold Lead.getNeedingFollowUp.
    rewrite elem_of_find, lookup_insert_eq, needsFollowUp_spec, Hdate, Hstatus, Harch.
    split.
    + intros (_ & _ & (d & [= <-] & Hle) & _). exact Hle.
    + intros Hle. split; [reflexivity |]. split; [exact Hnot |].
      split; [exists date; split; [reflexivity | exact Hle] |]. split; assumption.
Qed.

Lemma X25_scheduleFollowUp_then_due_witness :
  let r := LeadController.scheduleFollowUp 1700000400000 3 (Some 1700000450000) None
             Sample.store in
  exists l',
    LeadController.leads r.2 !! 3%nat = Some l'
    /\ (3%nat, l') ∈ Lead.getNeedingFollowUp 1700000500000 (LeadController.leads r.2).
Proof.
  destruct (X25_scheduleFollowUp_then_due 1700000400000 1700000500000 3 1700000450000 None
              (Sample.lead "Chantal" 1700000300000) Sample.store) as (_ & _ & Hdone).
  destruct (Hdone eq_refl eq_refl) as (l' & Hstored & _ & _ & _ & _ & _ & Hdue).
  exists l'. cbv zeta. rewrite Hstored. split; [apply lookup_insert_eq |].
  rewrite <- Hstored. apply (Hdue eq_refl); [discriminate | discriminate | lia].
Defined.

(** ** The search route *)



(** ** The date column of the export *)

Lemma split_free_cons (sep c : ascii) (r : string) :
  c <> sep -> Js.split sep r = [r] -> Js.split sep (String c r) = [String c r].
Proof.
  intros Hc Hr. destruct (split_cons_other sep c r Hc) as (h & t & Hr' & ->).
  rewrite Hr in Hr'. injection Hr' as <- <-. reflexivity.
Qed.

Lemma split_free_cons_inv (sep c : ascii) (r : string) :
  Js.split sep (String c r) = [String c r] -> c <> sep /\ Js.split sep r = [r].
Proof.
  destruct (decide (c = sep)) as [-> | Hc].
  - rewrite split_cons_sep. discriminate.
  - destruct (split_cons_other sep c r Hc) as (h & t & Hr & ->).
    intros [= -> ->]. split; [exact Hc | exact Hr].
Qed.

Lemma split_free_append (sep : ascii) (a b : string) :
  Js.split sep a = [a] -> Js.split sep b = [b] -> Js.split sep (a +:+ b) = [a +:+ b].
Proof.
  intros Ha Hb. induction a as [| c r IH]; [rewrite append_nil_l; exact Hb |].
  apply split_free_cons_inv in Ha as [Hc Hr]. rewrite append_cons.
  apply split_free_cons; [exact Hc | exact (IH Hr)].
Qed.

Lemma pad_length (w : nat) (n : Z) : String.length (Js.pad w n) = w.
Proof.
  revert n. induction w as [| w IH]; intros n; [reflexivity |].
  cbn [Js.pad]. rewrite length_append, IH. cbn. lia.
Qed.

Lemma pad_no_T (w : nat) (n : Z) : Js.split "T" (Js.pad w n) = [Js.pad w n].
Proof.
  revert n. induction w as [| w IH]; intros n; [reflexivity |].
  cbn [Js.pad]. apply split_free_append; [apply IH |].
  apply split_free_cons; [| reflexivity].
  pose proof (Z.mod_pos_bound n 10 ltac:(lia)) as Hmod.
  assert (Hk : (Z.to_nat (n mod 10) < 10)%nat) by lia.
  revert Hk. generalize (Z.to_nat (n mod 10)). intros k Hk.
  do 10 (destruct k as [| k]; [vm_compute; discriminate |]). lia.
Qed.

Lemma substring_prefix (a b : string) :
  String.substring 0 (String.length a) (a +:+ b) = a.
Proof.
  induction a as [| c r IH].
  - rewrite append_nil_l. destruct b; reflexivity.
  - rewrite append_cons. cbn. rewrite IH. reflexivity.
Qed.

(** The ISO form of an instant is a date of ten characters without a
    ["T"], a ["T"], and the time. *)
Lemma toISOString_shape (t : Z) :
  exists date time,
    Js.toISOString t = date +:+ String "T" time
    /\ String.length date = 10%nat
    /\ Js.split "T" date = [date].
Proof.
  unfold Js.toISOString. cbv zeta.
  match goal with
  | |- context [Js.pad 4 ?y +:+ "-" +:+ Js.pad 2 ?m +:+ "-" +:+ Js.pad 2 ?d +:+ "T" +:+ ?rest] =>
      exists (Js.pad 4 y +:+ "-" +:+ Js.pad 2 m +:+ "-" +:+ Js.pad 2 d), rest
  end.
  split; [| split].
  - rewrite !append_assoc. reflexivity.
  - rewrite !length_append, !pad_length. reflexivity.
  - apply split_free_append; [apply pad_no_T |].
    apply split_free_append; [reflexivity |].
    apply split_free_append; [apply pad_no_T |].
    apply split_free_append; [reflexivity | apply pad_no_T].
Qed.

(** X27. The [Date] column of a row of [exportLeads] is the calendar
    date under which [getLeadStats] counts the lead in the activity of the
    last thirty days: the ten characters of the ISO form before the
    ["T"]. *)
Theorem X27_export_date_is_stats_date (now : Z) (users : gmap nat User.t)
    (s : LeadController.Store) (d : nat * Lead.t) :
  LeadController.csv_Date (LeadController.csvRow now users s d)
  = LeadController.dateToString (Lead.createdAt d.2)
  /\ String.length (LeadController.csv_Date (LeadController.csvRow now users s d)) = 10%nat.
Proof.
  cbn [LeadController.csv_Date LeadController.csvRow]. unfold LeadController.dateToString.
  destruct (toISOString_shape (Lead.createdAt d.2)) as (date & time & -> & Hlen & Hfree).
  rewrite (split_append_sep "T" date time Hfree). cbn [hd].
  split; [| exact Hlen].
  symmetry. rewrite <- Hlen. apply substring_prefix.
Qed.

(** ** Own profile or admin *)

(** X28. [requireSelfOrAdmin] lets a request pass exactly when its user
    is an admin or the user the route names; otherwise it answers 403, or
    401 when the request has no user. Whoever passes [requireAdmin] passes
    it for every target. *)
Theorem X28_requireSelfOrAdmin (D : Type) (now : Z) (target : nat) (u : nat * User.t) :
  (Auth.requireSelfOrAdmin (D := D) now target (Some u) = Auth.Next u
   <-> User.role u.2 = User.admin \/ target = u.1)
  /\ (User.role u.2 <> User.admin -> target <> u.1 ->
      exists answer,
        Auth.requireSelfOrAdmin (D := D) now target (Some u) = Auth.Answered answer
        /\ Response.statusCode answer = 403
        /\ Response.data answer = None)
  /\ (exists answer,
        Auth.requireSelfOrAdmin (D := D) now target None = Auth.Answered answer
        /\ Response.statusCode answer = 401)
  /\ (Auth.requireAdmin (D := D) now (Some u) = Auth.Next u ->
      Auth.requireSelfOrAdmin (D := D) now target (Some u) = Auth.Next u).
Proof.
  unfold Auth.requireSelfOrAdmin, Auth.requireAdmin, Auth.authorize.
  assert (Hroles : User.role u.2 ∈ [User.admin] <-> User.role u.2 = User.admin)
    by (rewrite elem_of_cons, elem_of_nil; tauto).
  destruct (bool_decide_reflect (User.role u.2 = User.admin)) as [Hadmin | Hadmin].
  - split; [split; [intros _; left; exact Hadmin | reflexivity] |].
    split; [intros Hno; contradiction |].
    split; [eexists; split; reflexivity | reflexivity].
  - destruct (bool_decide_reflect (target = u.1)) as [Hself | Hself]; cbn [negb].
    + split; [split; [intros _; right; exact Hself | reflexivity] |].
      split; [intros _ Hno; contradiction |].
      split; [eexists; split; reflexivity | reflexivity].
    + split; [split; [discriminate | intros [H | H]; contradiction] |].
      split; [intros _ _; eexists; repeat split |].
      split; [eexists; split; reflexivity |].
      rewrite bool_decide_eq_false_2 by (rewrite Hroles; exact Hadmin).
      cbn [negb]. discriminate.
Qed.

Lemma X28_requireSelfOrAdmin_witness :
  User.role Sample.staffUser <> User.admin
  /\ exists answer,
       Auth.requireSelfOrAdmin (D := unit) 1700000400000 1 (Some (2%nat, Sample.staffUser))
       = Auth.Answered answer
       /\ Response.statusCode answer = 403.
Proof.
  assert (Hrole : User.role Sample.staffUser <> User.admin) by discriminate.
  split; [exact Hrole |].
  destruct (X28_requireSelfOrAdmin unit 1700000400000 1 (2%nat, Sample.staffUser))
    as (_ & Hrefused & _).
  destruct (Hrefused Hrole ltac:(discriminate)) as (answer & Hanswer & Hcode & _).
  exists answer. split; [exact Hanswer | exact Hcode].
Defined.
